(** * hardpotato: EmStat Pico script generation and the technique dispatcher

    A shallow embedding of

    - [pypotato/emstatpico.py]: the parameter validator ([Info.limits]),
      the MethodSCRIPT generators ([CV], [CA], [LSV], [OCP]) and their
      bipotentiostat extensions ([bipot]);
    - [hardpotato/potentiostat.py]: the base class [Technique] and the
      dispatcher classes built on it.

    Python objects are attribute dictionaries ([gmap string val]); a method
    is a computation over the attributes of [self] and the lines printed so
    far, which either returns or raises.  An exception leaves the
    attributes as they were at the [raise], as in Python.  Python floats
    are IEEE 754 binary64 numbers ([spec_float] at precision 53).

    In [emstatpico.py] the header of [CV.validate] is indented by five
    columns instead of four; the embedding reads it as the method of [CV]
    that [CV.__init__] calls.

    [potentiostat.py] imports the generator module under the name
    [emstatpico]; the embedding reads it as this [emstatpico.py].  The
    module binds [Test], [Info], [CV], [CA], [LSV] and [OCP]: the names
    [emstatpico.IT] and [emstatpico.PicoInfo], which [potentiostat.py]
    also uses, are not attributes of it, and reading them raises
    [AttributeError]. *)

From Stdlib Require Import ZArith String Ascii List Lia DecimalString.
From Stdlib Require Import Floats.SpecFloat.
From Stdlib Require DecimalPos DecimalZ.
From stdpp Require Import base option strings gmap.

#[local] Open Scope Z_scope.
#[local] Arguments String.append : simpl nomatch.

(** ** The fragment of Python the two modules use *)

Module Py.

(** *** Floats: binary64 *)

Definition prec : Z := 53.
Definition emax : Z := 1024.

Abbreviation float := spec_float.

Definition fmul : float -> float -> float := SFmul prec emax.
Definition fdiv : float -> float -> float := SFdiv prec emax.
Definition fsub : float -> float -> float := SFsub prec emax.

(** [x < y], [x > y] and [x <= y]; all are [False] when an operand is NaN. *)
Definition flt (x y : float) : bool :=
  match SFcompare x y with Some Lt => true | _ => false end.
Definition fgt (x y : float) : bool :=
  match SFcompare x y with Some Gt => true | _ => false end.
Definition fle (x y : float) : bool :=
  match SFcompare x y with Some (Lt | Eq) => true | _ => false end.

(** [float(z)] for an integer: the nearest binary64 (exact below 2^53). *)
Definition float_of_int (z : Z) : float := binary_normalize prec emax z 0 false.

(** The literal [m]e-[k], as in [-0.2] = [float_lit (-2) 1].  For
    |m| < 2^53 and k <= 22 both operands are exact, so the correctly
    rounded quotient is the binary64 nearest to the decimal, which is what
    the Python parser produces. *)
Definition float_lit (m : Z) (k : nat) : float :=
  fdiv (float_of_int m) (float_of_int (10 ^ Z.of_nat k)).

(** *** Values, exceptions, computations *)

#[warnings="-register-all"] Inductive val :=
| VNone
| VBool (b : bool)
| VInt (z : Z)
| VFloat (x : float)
| VStr (s : string)
| VList (l : list val)
| VObj (cls : string) (attrs : gmap string val).

(** The message of an [Exception] is kept as its pieces: [str] of a float
    (the shortest round-trip decimal) is not expanded. *)
Inductive msg_part :=
| MStr (s : string)
| MFloat (x : float).

Inductive exn :=
| Exception (msg : list msg_part)
| AttributeError (name : string)
| NameError (name : string)
| TypeError
| ValueError
| OverflowError.

Inductive outcome (A : Type) :=
| Ret (a : A)
| Raise (e : exn).
Arguments Ret {A} a.
Arguments Raise {A} e.

(** [self] holds the attributes of the object the running method is bound
    to, [stdout] the lines printed so far. *)
Record state := State { self : gmap string val; stdout : list string }.

Definition M (A : Type) : Type := state -> outcome A * state.

#[export] Instance M_ret : MRet M := fun A a w => (Ret a, w).
#[export] Instance M_bind : MBind M := fun A B f m w =>
  match m w with
  | (Ret a, w') => f a w'
  | (Raise e, w') => (Raise e, w')
  end.

Definition raise {A} (e : exn) : M A := fun w => (Raise e, w).

Definition lift {A} (r : outcome A) : M A := fun w => (r, w).

Definition print (line : string) : M unit :=
  fun w => (Ret tt, State (self w) (stdout w ++ [line])).

(** [self.name = v] *)
Definition setattr (name : string) (v : val) : M unit :=
  fun w => (Ret tt, State (<[name := v]> (self w)) (stdout w)).

(** [self.name]; no class of the two modules defines class attributes or
    [__getattr__], so a name that was never assigned is an error. *)
Definition getattr (name : string) : M val :=
  fun w => match self w !! name with
           | Some v => (Ret v, w)
           | None => (Raise (AttributeError name), w)
           end.

(** [o.name] for another object [o]. *)
Definition attr_of (o : val) (name : string) : M val :=
  match o with
  | VObj _ attrs =>
      match attrs !! name with
      | Some v => mret v
      | None => raise (AttributeError name)
      end
  | _ => raise (AttributeError name)
  end.

(** [Cls(args)]: run the initializer on a fresh object. *)
Definition new (cls : string) (init : M unit) : M val :=
  fun w => match init (State ∅ (stdout w)) with
           | (Ret _, w') => (Ret (VObj cls (self w')), State (self w) (stdout w'))
           | (Raise e, w') => (Raise e, State (self w) (stdout w'))
           end.

(** [self.name.method(args)]: the method runs on the object stored in the
    attribute and mutates it in place, also when it raises. *)
Definition call_attr {A} (name method : string) (body : string -> M A) : M A :=
  fun w => match self w !! name with
           | Some (VObj cls attrs) =>
               let '(r, w') := body cls (State attrs (stdout w)) in
               (r, State (<[name := VObj cls (self w')]> (self w)) (stdout w'))
           | Some _ => (Raise (AttributeError method), w)
           | None => (Raise (AttributeError name), w)
           end.

(** *** Integers and strings *)

(** [int(x)]: truncation toward zero; NaN and the infinities raise. *)
Definition int (x : float) : outcome Z :=
  match x with
  | S754_nan => Raise ValueError
  | S754_infinity _ => Raise OverflowError
  | S754_zero _ => Ret 0
  | S754_finite s m e => Ret (cond_Zopp s (Z.shiftl (Zpos m) e))
  end.

(** [str(z)] for an integer. *)
Definition str (z : Z) : string := NilZero.string_of_int (Z.to_int z).

Definition as_int (v : val) : M Z :=
  match v with VInt z => mret z | _ => raise TypeError end.

Definition as_str (v : val) : M string :=
  match v with VStr s => mret s | _ => raise TypeError end.

Definition LF : ascii := "010"%char.
Definition TAB : ascii := "009"%char.

(** A Python string literal, written with its escapes: [\n] and [\t] are
    the only ones the two modules use. *)
Fixpoint esc (s : string) : string :=
  match s with
  | String "\" (String "n" r) => String LF (esc r)
  | String "\" (String "t" r) => String TAB (esc r)
  | String c r => String c (esc r)
  | EmptyString => EmptyString
  end.

(** [needle in s] on strings. *)
Fixpoint contains (needle s : string) : bool :=
  String.prefix needle s ||
  match s with
  | String _ r => contains needle r
  | EmptyString => false
  end.

(** [str(self.name)] and [self.a + self.b] on the attributes the
    generators store: integers and strings. *)
Definition str_attr (name : string) : M string :=
  v ← getattr name; z ← as_int v; mret (str z).

Definition str_getattr (name : string) : M string :=
  v ← getattr name; as_str v.

End Py.

Export Py.

(** ** pypotato/emstatpico.py *)

Module emstatpico.

(** The names bound at module level; any other name that a function does
    not assign is looked up here (no builtin is called [info]). *)
Definition module_globals : list string :=
  ["Test"; "Info"; "CV"; "CA"; "LSV"; "OCP"].

Definition load_global (name : string) : M val :=
  if bool_decide (name ∈ module_globals) then mret (VObj "type" ∅)
  else raise (NameError name).

Module Info.

(** [__init__] stores the envelope; [E_max] is the integer 2, which
    compares with a float as 2.0 does. *)
Definition E_min : float := float_lit (-17) 1.
Definition E_max : float := float_of_int 2.

(** The exception that [limits] raises, with its message. *)
Definition out_of_range (val low high : float) (label units : string) : exn :=
  Exception [MStr label; MStr " should be between "; MFloat low;
             MStr " "; MStr units; MStr " and "; MFloat high;
             MStr " "; MStr units; MStr ". Received "; MFloat val;
             MStr " "; MStr units].

Definition limits (val low high : float) (label units : string) : M unit :=
  if flt val low || fgt val high then
    raise (out_of_range val low high label units)
  else mret tt.

(** [__init__], with the envelope as attributes, and [specifications]. *)
Definition __init__ : M unit :=
  setattr "tech" (VList [VStr "CV"; VStr "CA"; VStr "LSV"; VStr "OCP"]);;

  setattr "E_min" (VFloat E_min);;
  setattr "E_max" (VInt 2).

Definition specifications : M unit := print "Specifications list".

End Info.

Definition thousand : float := float_of_int 1000.

(** [int(x*1000)] *)
Definition milli (x : float) : M Z := lift (int (fmul x thousand)).

Module CV.

Definition validate (Eini Ev1 Ev2 Efin sr dE : float) (nSweeps : Z)
    (sens : float) : M unit :=
  Info.limits Eini Info.E_min Info.E_max "Eini" "V";;
  Info.limits Ev1 Info.E_min Info.E_max "Ev1" "V";;
  Info.limits Ev2 Info.E_min Info.E_max "Ev2" "V";;
  Info.limits Efin Info.E_min Info.E_max "Efin" "V";;
  print "All the parameters are valid".

(** The texts that [__init__] and [bipot] assemble, as functions of the
    rendered integers ([str(self.Eini)], ...). *)
Definition ini : string := esc "e\nvar c\nvar p\nvar a\n".

Definition pre_body (eini : string) : string :=
  esc "set_pgstat_mode 4\nset_autoranging ba 100n 5m" +:+
  esc "\nset_e " +:+ eini +:+ esc "m\ncell_on\nwait 2\ntimer_start".

Definition body (eini ev1 ev2 de sr n : string) : string :=
  esc "\nmeas_loop_cv p c " +:+ eini +:+ esc "m " +:+
  ev1 +:+ esc "m " +:+
  ev2 +:+ esc "m " +:+ de +:+ esc "m " +:+ sr +:+
  esc "m nscans(" +:+ n +:+ esc ")\n\tpck_start\n\ttimer_get a" +:+
  esc "\n\tpck_add a\n\tpck_add p\n\tpck_add c\n\tpck_end\nendloop\n" +:+
  esc "on_finished:\ncell_off\n\n".

Definition bipot_pre_body (E eini : string) : string :=
  esc "var b\nset_pgstat_chan 1" +:+
  esc "\nset_pgstat_mode 5" +:+
  esc "\nset_poly_we_mode 0" +:+
  esc "\nset_e " +:+ E +:+ esc "m\nset_autoranging ba 100n 5m" +:+
  esc "\nset_pgstat_chan 0\nset_pgstat_mode 2" +:+
  esc "\nset_autoranging ba 100n 5m\nset_e " +:+ eini +:+
  esc "m\ntimer_start\ncell_on".

Definition bipot_body (eini ev1 ev2 de sr n : string) : string :=
  esc "\nmeas_loop_cv p c " +:+ eini +:+ esc "m " +:+
  ev1 +:+ esc "m " +:+
  ev2 +:+ esc "m " +:+ de +:+ esc "m " +:+ sr +:+
  esc "m nscans(" +:+ n +:+ esc ") poly_we(1 b)\n\t" +:+
  esc "pck_start\n\ttimer_get a" +:+
  esc "\n\tpck_add a\n\tpck_add p\n\tpck_add c\n\tpck_add b\n\t" +:+
  esc "pck_end\nendloop\non_finished:\ncell_off\n\n".

Definition __init__ (Eini Ev1 Ev2 Efin sr dE : float) (nSweeps : Z)
    (sens : float) (folder : val) (fileName header : string) (path_lib qt resistance : val) : M unit :=
  z ← milli Eini; setattr "Eini" (VInt z);;
  z ← milli Ev1; setattr "Ev1" (VInt z);;
  z ← milli Ev2; setattr "Ev2" (VInt z);;
  z ← milli Efin; setattr "Efin" (VInt z);;
  z ← milli sr; setattr "sr" (VInt z);;
  z ← milli dE; setattr "dE" (VInt z);;
  setattr "nSweeps" (VInt nSweeps);;
  setattr "text" (VStr "");;

  validate Eini Ev1 Ev2 Efin sr dE nSweeps sens;;

  setattr "ini" (VStr ini);;
  eini ← str_attr "Eini";
  setattr "pre_body" (VStr (pre_body eini));;
  eini ← str_attr "Eini";
  ev1 ← str_attr "Ev1";
  ev2 ← str_attr "Ev2";
  de ← str_attr "dE";
  sr' ← str_attr "sr";
  n ← (v ← getattr "nSweeps"; as_int v);
  setattr "body" (VStr (body eini ev1 ev2 de sr' (str (n - 1))));;
  ini ← str_getattr "ini";
  pre_body ← str_getattr "pre_body";
  body ← str_getattr "body";
  setattr "text" (VStr (ini +:+ pre_body +:+ body)).

Definition bipot (E sens : float) : M unit :=
  Info.limits E Info.E_min Info.E_max "E2" "V";;

  E ← milli E;
  eini ← str_attr "Eini";
  setattr "pre_body" (VStr (bipot_pre_body (str E) eini));;
  eini ← str_attr "Eini";
  ev1 ← str_attr "Ev1";
  ev2 ← str_attr "Ev2";
  de ← str_attr "dE";
  sr' ← str_attr "sr";
  n ← str_attr "nSweeps";
  setattr "body" (VStr (bipot_body eini ev1 ev2 de sr' n));;
  ini ← str_getattr "ini";
  pre_body ← str_getattr "pre_body";
  body ← str_getattr "body";
  setattr "text" (VStr (ini +:+ pre_body +:+ body)).

End CV.

Module CA.

Definition validate (Estep dt ttot sens : float) : M unit :=
  Info.limits Estep Info.E_min Info.E_max "Estep" "V";;
  print "All the parameters are valid".

Definition ini : string := esc "e\nvar p\nvar c\nvar a\n".

Definition pre_body (estep : string) : string :=
  esc "set_pgstat_mode 3\nset_autoranging ba 100n 5m" +:+
  esc "\nset_e " +:+ estep +:+ esc "m\ncell_on\ntimer_start".

Definition body (estep dt ttot : string) : string :=
  esc "\nmeas_loop_ca p c " +:+ estep +:+ esc "m " +:+ dt +:+
  esc "m " +:+ ttot +:+ esc "m\n\tpck_start\n\ttimer_get a\n\t" +:+
  esc "pck_add a\n\t" +:+
  esc "pck_add p\n\tpck_add c\n\tpck_end\n\tendloop" +:+
  esc "\non_finished:\ncell_off\n\n".

Definition bipot_pre_body (E estep : string) : string :=
  esc "var b\nset_pgstat_chan 1" +:+
  esc "\nset_pgstat_mode 5" +:+
  esc "\nset_poly_we_mode 0" +:+
  esc "\nset_e " +:+ E +:+ esc "m\nset_autoranging ba 100n 5m" +:+
  esc "\nset_pgstat_chan 0\nset_pgstat_mode 2" +:+
  esc "\nset_autoranging ba 100n 5m\nset_e " +:+ estep +:+
  esc "m\ntimer_start\ncell_on".

Definition bipot_body (estep dt ttot : string) : string :=
  esc "\nmeas_loop_ca p c " +:+ estep +:+ esc "m " +:+
  dt +:+ esc "m " +:+
  ttot +:+ esc "m poly_we(1 b)\n\t" +:+
  esc "pck_start\n\ttimer_get a" +:+
  esc "\n\tpck_add a\n\tpck_add p\n\tpck_add c\n\tpck_add b\n\t" +:+
  esc "pck_end\nendloop\non_finished:\ncell_off\n\n".

Definition __init__ (Estep dt ttot sens : float)
    (folder : val) (fileName header : string) (path_lib qt : val) : M unit :=
  z ← milli Estep; setattr "Estep" (VInt z);;
  z ← milli dt; setattr "dt" (VInt z);;
  z ← milli ttot; setattr "ttot" (VInt z);;
  setattr "text" (VStr "");;

  validate Estep dt ttot sens;;

  setattr "ini" (VStr ini);;
  estep ← str_attr "Estep";
  setattr "pre_body" (VStr (pre_body estep));;
  estep ← str_attr "Estep";
  dt' ← str_attr "dt";
  ttot' ← str_attr "ttot";
  setattr "body" (VStr (body estep dt' ttot'));;
  ini ← str_getattr "ini";
  pre_body ← str_getattr "pre_body";
  body ← str_getattr "body";
  setattr "text" (VStr (ini +:+ pre_body +:+ body)).

Definition bipot (E sens : float) : M unit :=
  Info.limits E Info.E_min Info.E_max "E2" "V";;

  E ← milli E;
  estep ← str_attr "Estep";
  setattr "pre_body" (VStr (bipot_pre_body (str E) estep));;
  estep ← str_attr "Estep";
  dt' ← str_attr "dt";
  ttot' ← str_attr "ttot";
  setattr "body" (VStr (bipot_body estep dt' ttot'));;
  ini ← str_getattr "ini";
  pre_body ← str_getattr "pre_body";
  body ← str_getattr "body";
  setattr "text" (VStr (ini +:+ pre_body +:+ body)).

End CA.

Module LSV.

Definition validate (Eini Efin sr dE sens : float) : M unit :=
  Info.limits Eini Info.E_min Info.E_max "Eini" "V";;
  Info.limits Efin Info.E_min Info.E_max "Efin" "V";;
  print "All the parameters are valid".

Definition ini : string := esc "e\nvar c\nvar p\nvar a\n".

Definition pre_body (eini : string) : string :=
  esc "set_pgstat_mode 4\nset_autoranging ba 100n 5m" +:+
  esc "\nset_e " +:+ eini +:+ esc "m\ncell_on\ntimer_start".

Definition body (eini efin de sr : string) : string :=
  esc "\nmeas_loop_lsv p c " +:+ eini +:+ esc "m " +:+ efin +:+ esc "m " +:+
  de +:+ esc "m " +:+ sr +:+
  esc "m\n\tpck_start\n\ttimer_get a" +:+
  esc "\n\tpck_add a\n\tpck_add p\n\tpck_add c\n\tpck_end\nendloop\n" +:+
  esc "on_finished:\ncell_off\n\n".

Definition bipot_pre_body (E eini : string) : string :=
  esc "var b\nset_pgstat_chan 1" +:+
  esc "\nset_pgstat_mode 5" +:+
  esc "\nset_poly_we_mode 0" +:+
  esc "\nset_e " +:+ E +:+ esc "m\nset_autoranging ba 100n 5m" +:+
  esc "\nset_pgstat_chan 0\nset_pgstat_mode 2" +:+
  esc "\nset_autoranging ba 100n 5m\nset_e " +:+ eini +:+
  esc "m\ntimer_start\ncell_on".

Definition bipot_body (eini efin de sr : string) : string :=
  esc "\nmeas_loop_lsv p c " +:+ eini +:+ esc "m " +:+
  efin +:+ esc "m " +:+
  de +:+ esc "m " +:+ sr +:+
  esc "m poly_we(1 b)\n\t" +:+
  esc "pck_start\n\ttimer_get a" +:+
  esc "\n\tpck_add a\n\tpck_add p\n\tpck_add c\n\tpck_add b\n\t" +:+
  esc "pck_end\nendloop\non_finished:\ncell_off\n\n".

Definition __init__ (Eini Efin sr dE sens : float)
    (folder : val) (fileName header : string) (path_lib qt : val) : M unit :=
  z ← milli Eini; setattr "Eini" (VInt z);;
  z ← milli Efin; setattr "Efin" (VInt z);;
  z ← milli sr; setattr "sr" (VInt z);;
  z ← milli dE; setattr "dE" (VInt z);;
  setattr "text" (VStr "");;

  validate Eini Efin sr dE sens;;

  setattr "ini" (VStr ini);;
  eini ← str_attr "Eini";
  setattr "pre_body" (VStr (pre_body eini));;
  eini ← str_attr "Eini";
  efin ← str_attr "Efin";
  de ← str_attr "dE";
  sr' ← str_attr "sr";
  setattr "body" (VStr (body eini efin de sr'));;
  ini ← str_getattr "ini";
  pre_body ← str_getattr "pre_body";
  body ← str_getattr "body";
  setattr "text" (VStr (ini +:+ pre_body +:+ body)).

(** [info.limits(...)] on whatever the name [info] is bound to. *)
Definition call_limits (info : val) (E : float) (label units : string) : M unit :=
  match info with
  | VObj "Info" _ => Info.limits E Info.E_min Info.E_max label units
  | _ => raise (AttributeError "limits")
  end.

(** Unlike [CV.bipot] and [CA.bipot], this body has no [info = Info()]:
    [info] is not a local of the function and is looked up as a global. *)
Definition bipot (E sens : float) : M unit :=
  info ← load_global "info";
  call_limits info E "E2" "V";;

  E ← milli E;
  eini ← str_attr "Eini";
  setattr "pre_body" (VStr (bipot_pre_body (str E) eini));;
  eini ← str_attr "Eini";
  efin ← str_attr "Efin";
  de ← str_attr "dE";
  sr' ← str_attr "sr";
  setattr "body" (VStr (bipot_body eini efin de sr'));;
  ini ← str_getattr "ini";
  pre_body ← str_getattr "pre_body";
  body ← str_getattr "body";
  setattr "text" (VStr (ini +:+ pre_body +:+ body)).

End LSV.

Module OCP.

Definition validate (ttot dt : Z) : M unit :=
  print "All the parameters are valid".

Definition ini : string := esc "e\nvar p\nvar a\n".

Definition pre_body : string := esc "set_pgstat_mode 4\ncell_off\ntimer_start\n".

Definition body (dt ttot : string) : string :=
  esc "meas_loop_ocp p " +:+ dt +:+ esc "m " +:+ ttot +:+ esc "m " +:+
  esc "\n\tpck_start\n\ttimer_get a\n\tpck_add a\n\tpck_add p" +:+
  esc "\n\tpck_end\nendloop\non_finished:\ncell_off\n\n".

Definition __init__ (ttot dt : float) (folder : val) (fileName header : string)
    (path_lib : val) : M unit :=
  dt ← milli dt;
  ttot ← milli ttot;
  setattr "text" (VStr "");;

  validate ttot dt;;

  setattr "ini" (VStr ini);;
  setattr "pre_body" (VStr pre_body);;
  setattr "body" (VStr (body (str dt) (str ttot)));;
  ini ← str_getattr "ini";
  pre_body ← str_getattr "pre_body";
  body ← str_getattr "body";
  setattr "text" (VStr (ini +:+ pre_body +:+ body)).

End OCP.

End emstatpico.

(** ** hardpotato/potentiostat.py

    The [emstatpico] that this module imports is the module above.
    [nSweeps] is an integer, as its default is. *)

Module potentiostat.

Definition AVAILABLE_MODELS : list string :=
  ["chi1205b"; "chi1242b"; "chi601e"; "chi620e"; "chi760e"; "emstatpico"].
Definition BIPOT_TECHNIQUES : list string := ["CV"; "CA"; "IT"; "LSV"; "NPV"].

(** [hardpotato/chi.py] is imported but is not among the sources: the
    initializer and the [bipot] method of its classes are taken as given,
    the initializer with its keyword arguments in call order. *)
Class Chi := {
  chi_init : string -> list (string * val) -> M unit;
  chi_bipot : string -> float -> float -> M unit
}.

(** Keyword arguments passed on with [**kwargs]. *)
Definition kwargs := list (string * val).

Definition kw_get (name : string) (default : val) (kw : kwargs) : val :=
  match find (fun kv => String.eqb kv.1 name) kw with
  | Some kv => kv.2
  | None => default
  end.

(** A keyword that the callee does not declare, or that the call already
    passes, is a [TypeError]. *)
Definition kw_check (allowed : list string) (kw : kwargs) : M unit :=
  if forallb (fun kv => bool_decide (kv.1 ∈ allowed)) kw then mret tt
  else raise TypeError.

(** [needle in v] and [v == s] for a value that should be a string. *)
Definition str_in (needle : string) (v : val) : M bool :=
  match v with
  | VStr s => mret (contains needle s)
  | _ => raise TypeError
  end.

Definition eq_str (v : val) (s : string) : bool :=
  match v with
  | VStr s' => String.eqb s' s
  | _ => false
  end.

(** [v in l] for a list of strings. *)
Definition in_strs (v : val) (l : list string) : bool :=
  match v with
  | VStr s => bool_decide (s ∈ l)
  | _ => false
  end.

Definition concat3 (a : string) (v : val) (b : string) : M string :=
  s ← as_str v; mret (a +:+ s +:+ b).

(** [repr] of a list of strings that need no escaping, as [print] shows
    it. *)
Definition repr_strs (l : list string) : string :=
  "[" +:+ String.concat ", " (map (fun s => "'" +:+ s +:+ "'") l) +:+ "]".

(** The method [specifications] of the information class of [chi.py]. *)
Class ChiInfo := chi_specifications : string -> M unit.

Module Info.

(** [emstatpico.py] binds no name [PicoInfo]: for the model
    ['emstatpico'] the lookup of the callee of [emstatpico.PicoInfo()]
    raises, and [info] is not assigned. *)
Definition __init__ `{Chi} (model : val) : M unit :=
  setattr "model" model;;
  m ← getattr "model"; c ← str_in "chi" m;
  if (c : bool) then
    t ← new "chi.ChiInfo" (chi_init "ChiInfo" [("model", model)]);
    setattr "info" t
  else
    m ← getattr "model";
    if eq_str m "emstatpico" then
      raise (AttributeError "PicoInfo")
    else
      s ← concat3 "Potentiostat model " model " not available in the library.";
      print s;;
      print ("Available models: " +:+ repr_strs AVAILABLE_MODELS).

Definition specifications `{ChiInfo} : M unit :=
  call_attr "info" "specifications"
    (fun cls => if String.eqb cls "emstatpico.Info" then emstatpico.Info.specifications
                else chi_specifications cls).

End Info.

Module SetupInstrument.

Definition info : M unit :=
  print (esc "\n----------");;
  v ← getattr "model_pstat"; s ← as_str v; print ("Potentiostat model: " +:+ s);;
  v ← getattr "path_lib"; s ← as_str v; print ("Potentiostat path: " +:+ s);;
  v ← getattr "folder"; s ← as_str v; print ("Save folder: " +:+ s);;
  print (esc "----------\n").

Definition __init__ (model path folder port : val) (verbose : bool) : M unit :=
  setattr "folder" folder;;
  setattr "model_pstat" model;;
  setattr "path_lib" path;;
  setattr "port_" port;;
  if verbose then info else mret tt.

End SetupInstrument.

Module Technique.

Definition __init__ (instrument text : val) (fileName : string) : M unit :=
  v ← attr_of instrument "model_pstat"; setattr "model_pstat" v;;
  v ← attr_of instrument "path_lib"; setattr "path_lib" v;;
  v ← attr_of instrument "port_"; setattr "port" v;;

  v ← attr_of instrument "folder"; setattr "folder" v;;
  setattr "fileName" (VStr fileName);;
  setattr "text" text;;
  setattr "header" (VStr "");;

  setattr "technique" (VStr "Technique");;
  setattr "bpot" (VBool false);;
  setattr "tech" VNone;;
  setattr "data" (VList []).

(** [self.tech.bipot(E, sens)], resolved on the class of [self.tech]. *)
Definition tech_bipot `{Chi} (E sens : float) (cls : string) : M unit :=
  if String.eqb cls "emstatpico.CV" then emstatpico.CV.bipot E sens
  else if String.eqb cls "emstatpico.CA" then emstatpico.CA.bipot E sens
  else if String.eqb cls "emstatpico.LSV" then emstatpico.LSV.bipot E sens
  else if String.eqb cls "emstatpico.OCP" then raise (AttributeError "bipot")
  else chi_bipot cls E sens.

Definition bipot `{Chi} (E sens : float) : M unit :=
  t ← getattr "technique";
  if in_strs t BIPOT_TECHNIQUES then
    call_attr "tech" "bipot" (tech_bipot E sens);;
    tech ← getattr "tech"; text ← attr_of tech "text"; setattr "text" text;;
    setattr "bpot" (VBool true)
  else
    t ← getattr "technique"; s ← as_str t;
    print (s +:+ " does not have bipotentiostat mode").

End Technique.

(** The tail shared by the subclass initializers:
    [Technique.__init__(self, instrument, text=self.tech.text, fileName=fileName)]. *)
Definition init_base (instrument : val) (fileName : string) : M unit :=
  tech ← getattr "tech"; text ← attr_of tech "text";
  Technique.__init__ instrument text fileName.

Definition no_model (technique : string) : M unit :=
  v ← getattr "model_pstat";
  msg ← concat3 "Potentiostat model " v (" does not have " +:+ technique +:+ ".");
  raise (Exception [MStr msg]).

Module CV.

Definition __init__ `{Chi} (instrument : val) (Eini Ev1 Ev2 Efin sr dE : float)
    (nSweeps : Z) (sens : float) (fileName header : string) (kw : kwargs) : M unit :=
  setattr "header" (VStr header);;
  setattr "technique" (VStr "CV");;
  m ← getattr "model_pstat"; c ← str_in "chi" m;
  (if (c : bool) then
     folder ← getattr "folder"; model ← getattr "model_pstat";
     t ← new "chi.ChiCV"
           (chi_init "ChiCV"
              ([("Eini", VFloat Eini); ("Ev1", VFloat Ev1); ("Ev2", VFloat Ev2);
                ("Efin", VFloat Efin); ("sr", VFloat sr); ("dE", VFloat dE);
                ("nSweeps", VInt nSweeps); ("sens", VFloat sens);
                ("fileName", VStr fileName); ("header", VStr header);
                ("folder", folder); ("model", model)] ++ kw));
     setattr "tech" t
   else
     m ← getattr "model_pstat";
     if eq_str m "emstatpico" then
       folder ← getattr "folder";
       kw_check ["qt"; "resistance"] kw;;
       t ← new "emstatpico.CV"
             (emstatpico.CV.__init__ Eini Ev1 Ev2 Efin sr dE nSweeps sens
                folder fileName header (VStr "")
                (kw_get "qt" (VInt 2) kw) (kw_get "resistance" (VInt 0) kw));
       setattr "tech" t
     else no_model "CV");;
  init_base instrument fileName.

End CV.

Module LSV.

Definition __init__ `{Chi} (instrument : val) (Eini Efin sr dE sens : float)
    (fileName header : string) (kw : kwargs) : M unit :=
  setattr "header" (VStr header);;
  setattr "technique" (VStr "LSV");;
  m ← getattr "model_pstat"; c ← str_in "chi" m;
  (if (c : bool) then
     folder ← getattr "folder"; model ← getattr "model_pstat";
     t ← new "chi.ChiLSV"
           (chi_init "ChiLSV"
              ([("Eini", VFloat Eini); ("Efin", VFloat Efin); ("sr", VFloat sr);
                ("dE", VFloat dE); ("sens", VFloat sens); ("folder", folder);
                ("fileName", VStr fileName); ("model", model)] ++ kw));
     setattr "tech" t
   else
     m ← getattr "model_pstat";
     if eq_str m "emstatpico" then
       folder ← getattr "folder";
       kw_check ["path_lib"; "qt"] kw;;
       t ← new "emstatpico.LSV"
             (emstatpico.LSV.__init__ Eini Efin sr dE sens folder fileName header
                (kw_get "path_lib" VNone kw) (kw_get "qt" (VInt 2) kw));
       setattr "tech" t
     else no_model "LSV");;
  init_base instrument fileName.

End LSV.

Module IT.

(** [emstatpico.py] binds no name [IT]: for the model ['emstatpico'] the
    lookup of the callee of [emstatpico.IT(...)] raises, before an
    argument of the call is evaluated and before [tech] is assigned. *)
Definition __init__ `{Chi} (instrument : val) (Estep dt ttot sens : float)
    (fileName header : string) (kw : kwargs) : M unit :=
  setattr "header" (VStr header);;
  setattr "technique" (VStr "IT");;
  m ← getattr "model_pstat"; c ← str_in "chi" m;
  (if (c : bool) then
     model ← getattr "model_pstat"; folder ← getattr "folder";
     t ← new "chi.ChiIT"
           (chi_init "ChiIT"
              ([("Estep", VFloat Estep); ("dt", VFloat dt); ("ttot", VFloat ttot);
                ("sens", VFloat sens); ("fileName", VStr fileName);
                ("model", model); ("folder", folder)] ++ kw));
     setattr "tech" t
   else
     m ← getattr "model_pstat";
     if eq_str m "emstatpico" then
       raise (AttributeError "IT")
     else no_model "IT");;
  init_base instrument fileName.

End IT.

Module CA.

Definition __init__ `{Chi} (instrument : val) (Eini Ev1 Ev2 dE : float)
    (nSweeps : Z) (pw sens : float) (fileName header : string) (kw : kwargs) : M unit :=
  setattr "header" (VStr header);;
  setattr "technique" (VStr "CA");;
  m ← getattr "model_pstat"; c ← str_in "chi" m;
  (if (c : bool) then
     model ← getattr "model_pstat"; folder ← getattr "folder";
     t ← new "chi.ChiCA"
           (chi_init "ChiCA"
              ([("Eini", VFloat Eini); ("Ev1", VFloat Ev1); ("Ev2", VFloat Ev2);
                ("dE", VFloat dE); ("nSweeps", VInt nSweeps); ("pw", VFloat pw);
                ("sens", VFloat sens); ("header", VStr header);
                ("fileName", VStr fileName); ("model", model); ("folder", folder)] ++ kw));
     setattr "tech" t
   else no_model "IT");;
  init_base instrument fileName.

End CA.

Module OCP.

Definition __init__ `{Chi} (instrument : val) (ttot dt : float)
    (fileName header : string) (kw : kwargs) : M unit :=
  setattr "header" (VStr header);;
  setattr "technique" (VStr "OCP");;
  m ← getattr "model_pstat"; c ← str_in "chi" m;
  (if (c : bool) then
     folder ← getattr "folder"; model ← getattr "model_pstat";
     t ← new "chi.ChiOCP"
           (chi_init "ChiOCP"
              ([("ttot", VFloat ttot); ("dt", VFloat dt); ("header", VStr header);
                ("fileName", VStr fileName); ("folder", folder); ("model", model)] ++ kw));
     setattr "tech" t
   else
     m ← getattr "model_pstat";
     if eq_str m "emstatpico" then
       folder ← getattr "folder";
       kw_check ["path_lib"] kw;;
       t ← new "emstatpico.OCP"
             (emstatpico.OCP.__init__ ttot dt folder fileName header
                (kw_get "path_lib" VNone kw));
       setattr "tech" t
     else no_model "OCP");;
  init_base instrument fileName.

End OCP.

Module NPV.

Definition __init__ `{Chi} (instrument : val)
    (Eini Efin dE tsample twidth tperiod sens : float)
    (fileName header : string) (kw : kwargs) : M unit :=
  setattr "technique" (VStr "NPV");;
  m ← getattr "model_pstat"; c ← str_in "chi" m;
  (if (c : bool) then
     model ← getattr "model_pstat"; folder ← getattr "folder";
     t ← new "chi.ChiNPV"
           (chi_init "ChiNPV"
              ([("Eini", VFloat Eini); ("Efin", VFloat Efin); ("dE", VFloat dE);
                ("tsample", VFloat tsample); ("twidth", VFloat twidth);
                ("tperiod", VFloat tperiod); ("sens", VFloat sens);
                ("header", VStr header); ("fileName", VStr fileName);
                ("model", model); ("folder", folder)] ++ kw));
     setattr "tech" t
   else no_model "NPV");;
  init_base instrument fileName.

End NPV.

Module EIS.

Definition __init__ `{Chi} (instrument : val)
    (Eini low_freq high_freq amplitude sens : float)
    (fileName header : string) (kw : kwargs) : M unit :=
  setattr "header" (VStr header);;
  setattr "technique" (VStr "EIS");;
  m ← getattr "model_pstat"; c ← str_in "chi" m;
  (if (c : bool) then
     model ← getattr "model_pstat"; folder ← getattr "folder";
     t ← new "chi.ChiEIS"
           (chi_init "ChiEIS"
              ([("Eini", VFloat Eini); ("low_freq", VFloat low_freq);
                ("high_freq", VFloat high_freq); ("amplitude", VFloat amplitude);
                ("sens", VFloat sens); ("header", VStr header);
                ("fileName", VStr fileName); ("model", model); ("folder", folder)] ++ kw));
     setattr "tech" t
   else no_model "EIS");;
  init_base instrument fileName.

End EIS.

End potentiostat.

(** ** Reading a generated script

    MethodSCRIPT is line oriented: an instruction is a line, its operands
    are separated by single spaces.  These functions read the operands back
    from a program text; the properties below are stated on what they
    return. *)

Module Script.

(** [s.split(sep)] for a one-character separator. *)
Fixpoint split_on (sep : ascii) (s : string) : list string :=
  match s with
  | EmptyString => [EmptyString]
  | String c r =>
      if Ascii.eqb c sep then EmptyString :: split_on sep r
      else match split_on sep r with
           | w :: ws => String c w :: ws
           | [] => [String c EmptyString]
           end
  end.

Definition lines (text : string) : list string := split_on LF text.
Definition words (line : string) : list string := split_on " " line.

Fixpoint strip_prefix (p s : string) : option string :=
  match p, s with
  | EmptyString, _ => Some s
  | String a p', String b s' => if Ascii.eqb a b then strip_prefix p' s' else None
  | String _ _, EmptyString => None
  end.

(** [s.startswith(p)] *)
Definition starts_with (p s : string) : bool :=
  match strip_prefix p s with
  | Some _ => true
  | None => false
  end.

(** The first instruction with the given mnemonic, as its words. *)
Definition instruction (mnemonic text : string) : option (list string) :=
  words <$> find (starts_with mnemonic) (lines text).

(** The operand [a] of a word [f(a)]. *)
Definition call_arg (f w : string) : option string :=
  match strip_prefix (f +:+ "(") w with
  | Some r => match split_on ")" r with
              | [a; EmptyString] => Some a
              | _ => None
              end
  | None => None
  end.

(** The scan-count literal of the sweep loop: the [k] of [nscans(k)]. *)
Definition nscans (text : string) : option string :=
  ws ← instruction "meas_loop_cv" text;
  w ← find (starts_with "nscans(") ws;
  call_arg "nscans" w.

(** The configuration instructions that a preamble addresses to channel
    [ch]: those in force after [set_pgstat_chan ch]; before the first
    [set_pgstat_chan] the instrument is on channel 0. *)
Definition is_config (l : string) : bool :=
  starts_with "set_pgstat_mode " l || starts_with "set_poly_we_mode " l ||
  starts_with "set_autoranging " l || starts_with "set_e " l.

Fixpoint channel_config_from (cur ch : string) (ls : list string) : list string :=
  match ls with
  | [] => []
  | l :: r =>
      match strip_prefix "set_pgstat_chan " l with
      | Some c => channel_config_from c ch r
      | None =>
          if String.eqb cur ch && is_config l then l :: channel_config_from cur ch r
          else channel_config_from cur ch r
      end
  end.

Definition channel_config (ch preamble : string) : list string :=
  channel_config_from "0" ch (lines preamble).

(** Whether a word is an integer literal with the unit suffix, as in
    [-200m]. *)
Definition numeral_char (a : ascii) : bool :=
  existsb (Ascii.eqb a) ["-"; "0"; "1"; "2"; "3"; "4"; "5"; "6"; "7"; "8"; "9"]%char.

Fixpoint numeral (s : string) : bool :=
  match s with
  | EmptyString => true
  | String a r => numeral_char a && numeral r
  end.

Fixpoint milli_literal (w : string) : bool :=
  match w with
  | EmptyString => false
  | String a r =>
      numeral_char a &&
      match r with
      | String "m" EmptyString => true
      | _ => milli_literal r
      end
  end.

(** The unit-suffixed operands of the first instruction with the given
    mnemonic. *)
Definition operands (mnemonic text : string) : option (list string) :=
  List.filter milli_literal <$> instruction mnemonic text.

End Script.

(** ** Vocabulary of the properties *)

(** *** The number a float stands for

    A valid finite binary64 is a multiple of 2^-1074: its value is kept as
    that multiple, an integer.  Infinities are the ends of the extended
    line; NaN has no value. *)

Definition valid (x : float) : Prop := valid_binary prec emax x = true.

Definition scaled (s : bool) (m : positive) (e : Z) : Z :=
  cond_Zopp s (Zpos m * 2 ^ (e + 1074)).

Inductive ereal :=
| MinusInf
| Finite (z : Z)
| PlusInf.

Definition value (x : float) : option ereal :=
  match x with
  | S754_nan => None
  | S754_infinity s => Some (if s then MinusInf else PlusInf)
  | S754_zero _ => Some (Finite 0)
  | S754_finite s m e => Some (Finite (scaled s m e))
  end.

Definition ereal_compare (a b : ereal) : comparison :=
  match a, b with
  | MinusInf, MinusInf => Eq
  | MinusInf, _ => Lt
  | Finite _, MinusInf => Gt
  | Finite x, Finite y => x ?= y
  | Finite _, PlusInf => Lt
  | PlusInf, PlusInf => Eq
  | PlusInf, _ => Gt
  end.

(** [x] stands for a number strictly below the one [y] stands for. *)
Definition below (x y : float) : Prop :=
  match value x, value y with
  | Some a, Some b => ereal_compare a b = Lt
  | _, _ => False
  end.

(** Strictly outside the interval [low, high]. *)
Definition outside (x low high : float) : Prop := below x low \/ below high x.

(** Zero or finite: the floats that [int] accepts. *)
Definition is_number (x : float) : bool :=
  match x with
  | S754_zero _ | S754_finite _ _ _ => true
  | _ => false
  end.

(** [int(x*1000)] returns [z]. *)
Definition converts (x : float) (z : Z) : Prop :=
  int (fmul x emstatpico.thousand) = Ret z.

(** A potential passes [limits] against the envelope of the instrument. *)
Definition in_envelope (x : float) : bool :=
  negb (flt x emstatpico.Info.E_min || fgt x emstatpico.Info.E_max).

(** [E_min <= x <= E_max] *)
Definition in_range (x : float) : bool :=
  fle emstatpico.Info.E_min x && fle x emstatpico.Info.E_max.

(** A literal of the millivolt dialect. *)
Definition lit (z : Z) : string := str z +:+ "m".

(** A string attribute of the object, [""] when it holds no string. *)
Definition attr_text (name : string) (w : state) : string :=
  match self w !! name with
  | Some (VStr s) => s
  | _ => EmptyString
  end.

Definition script (w : state) : string := attr_text "text" w.

(** *** Parameter sets *)

(** What the generators take besides the physical parameters. *)
Record filing := Filing {
  folder : val;
  fileName : string;
  header : string;
  path_lib : val;
  qt : val;
  resistance : val
}.

Inductive technique_parameters :=
| CV_parameters (Eini Ev1 Ev2 Efin sr dE : float) (nSweeps : Z) (sens : float)
| LSV_parameters (Eini Efin sr dE sens : float)
| CA_parameters (Estep dt ttot sens : float)
| OCP_parameters (ttot dt : float).

(** The constructor call of the technique's generator class. *)
Definition generate (p : technique_parameters) (f : filing) : M unit :=
  match p with
  | CV_parameters Eini Ev1 Ev2 Efin sr dE nSweeps sens =>
      emstatpico.CV.__init__ Eini Ev1 Ev2 Efin sr dE nSweeps sens
        (folder f) (fileName f) (header f) (path_lib f) (qt f) (resistance f)
  | LSV_parameters Eini Efin sr dE sens =>
      emstatpico.LSV.__init__ Eini Efin sr dE sens
        (folder f) (fileName f) (header f) (path_lib f) (qt f)
  | CA_parameters Estep dt ttot sens =>
      emstatpico.CA.__init__ Estep dt ttot sens
        (folder f) (fileName f) (header f) (path_lib f) (qt f)
  | OCP_parameters ttot dt =>
      emstatpico.OCP.__init__ ttot dt (folder f) (fileName f) (header f) (path_lib f)
  end.

(** The physical values that the loop instruction embeds, in its order,
    and the potential that the preamble applies with [set_e]. *)
Definition embedded (p : technique_parameters) : list float :=
  match p with
  | CV_parameters Eini Ev1 Ev2 Efin sr dE nSweeps sens => [Eini; Ev1; Ev2; dE; sr]
  | LSV_parameters Eini Efin sr dE sens => [Eini; Efin; dE; sr]
  | CA_parameters Estep dt ttot sens => [Estep; dt; ttot]
  | OCP_parameters ttot dt => [dt; ttot]
  end.

Definition applied (p : technique_parameters) : list float :=
  match p with
  | CV_parameters Eini Ev1 Ev2 Efin sr dE nSweeps sens => [Eini]
  | LSV_parameters Eini Efin sr dE sens => [Eini]
  | CA_parameters Estep dt ttot sens => [Estep]
  | OCP_parameters ttot dt => []
  end.

(** The parameters of the scenario: the defaults of the dispatcher. *)
Definition default_filing : filing :=
  Filing (VStr ".") "CV" "CV" VNone (VInt 2) (VInt 0).

Definition scenario : technique_parameters :=
  CV_parameters (float_lit (-2) 1) (float_lit 2 1) (float_lit (-2) 1)
    (float_lit (-2) 1) (float_lit 1 1) (float_lit 1 3) 2 (float_lit 1 6).

(** A fresh object, nothing printed yet. *)
Definition fresh : state := State ∅ [].

(** The scenario's object after [__init__], and after [bipot(-0.2, 1e-6)]. *)
Definition built : state := snd (generate scenario default_filing fresh).
Definition extended : state :=
  snd (emstatpico.CV.bipot (float_lit (-2) 1) (float_lit 1 6) built).

(** Variations of the scenario: [Eini] = 1.001 V; [Eini] = 2.5 V, above the
    envelope; [Eini] = 1e306 V; [sr] = 1e306 V/s. *)
Definition huge : float := float_of_int (10 ^ 306).

Definition scenario_1001 : technique_parameters :=
  CV_parameters (float_lit 1001 3) (float_lit 2 1) (float_lit (-2) 1)
    (float_lit (-2) 1) (float_lit 1 1) (float_lit 1 3) 2 (float_lit 1 6).

Definition scenario_high : technique_parameters :=
  CV_parameters (float_lit 25 1) (float_lit 2 1) (float_lit (-2) 1)
    (float_lit (-2) 1) (float_lit 1 1) (float_lit 1 3) 2 (float_lit 1 6).

Definition scenario_huge : technique_parameters :=
  CV_parameters huge (float_lit 2 1) (float_lit (-2) 1)
    (float_lit (-2) 1) (float_lit 1 1) (float_lit 1 3) 2 (float_lit 1 6).

Definition scenario_fast : technique_parameters :=
  CV_parameters (float_lit (-2) 1) (float_lit 2 1) (float_lit (-2) 1)
    (float_lit (-2) 1) huge (float_lit 1 3) 2 (float_lit 1 6).

(** An instrument set up for the EmStat Pico, and an OCP technique as its
    class means to leave it: the attributes of the base initializer, with
    the technique's own name, header and generator object. *)
Definition pico : val :=
  VObj "SetupInstrument"
    (self (snd (potentiostat.SetupInstrument.__init__
                  (VStr "emstatpico") (VStr ".") (VStr ".") VNone false fresh))).

Definition ocp_technique : state :=
  snd ((t ← new "emstatpico.OCP"
              (emstatpico.OCP.__init__ (float_of_int 2) (float_lit 1 2)
                 (VStr ".") "OCP" "OCP" VNone);
        text ← attr_of t "text";
        potentiostat.Technique.__init__ pico text "OCP";;
        setattr "header" (VStr "OCP");;
        setattr "technique" (VStr "OCP");;
        setattr "tech" t) fresh).

(** An installation without [chi.py]: every use of it fails. *)
Definition chi_absent : potentiostat.Chi :=
  {| potentiostat.chi_init := fun _ _ => raise (NameError "chi");
     potentiostat.chi_bipot := fun _ _ _ => raise (NameError "chi") |}.

(** *** The attributes of a CV generator object

    [CV_stored]: after the assignments that precede validation;
    [CV_built]: after [__init__]; [CV_extended]: what [bipot] overwrites. *)

Definition CV_stored (a b c d e f n : Z) (base : gmap string val) : gmap string val :=
  <["text" := VStr ""]>
  (<["nSweeps" := VInt n]>
  (<["dE" := VInt f]>
  (<["sr" := VInt e]>
  (<["Efin" := VInt d]>
  (<["Ev2" := VInt c]>
  (<["Ev1" := VInt b]>
  (<["Eini" := VInt a]> base))))))).

Definition CV_text (a b c e f n : Z) : string :=
  emstatpico.CV.ini +:+ emstatpico.CV.pre_body (str a) +:+
  emstatpico.CV.body (str a) (str b) (str c) (str f) (str e) (str (n - 1)).

Definition CV_built (a b c d e f n : Z) (base : gmap string val) : gmap string val :=
  <["text" := VStr (CV_text a b c e f n)]>
  (<["body" := VStr (emstatpico.CV.body (str a) (str b) (str c) (str f) (str e)
                      (str (n - 1)))]>
  (<["pre_body" := VStr (emstatpico.CV.pre_body (str a))]>
  (<["ini" := VStr emstatpico.CV.ini]>
  (CV_stored a b c d e f n base)))).

Definition CV_bipot_text (z a b c e f n : Z) : string :=
  emstatpico.CV.ini +:+ emstatpico.CV.bipot_pre_body (str z) (str a) +:+
  emstatpico.CV.bipot_body (str a) (str b) (str c) (str f) (str e) (str n).

Definition CV_extended (z a b c e f n : Z) (built : gmap string val) : gmap string val :=
  <["text" := VStr (CV_bipot_text z a b c e f n)]>
  (<["body" := VStr (emstatpico.CV.bipot_body (str a) (str b) (str c) (str f) (str e)
                      (str n))]>
  (<["pre_body" := VStr (emstatpico.CV.bipot_pre_body (str z) (str a))]> built)).

(** *** The scripts of the other generators *)

Definition LSV_text (a b e f : Z) : string :=
  emstatpico.LSV.ini +:+ emstatpico.LSV.pre_body (str a) +:+
  emstatpico.LSV.body (str a) (str b) (str f) (str e).

Definition CA_text (a dt ttot : Z) : string :=
  emstatpico.CA.ini +:+ emstatpico.CA.pre_body (str a) +:+
  emstatpico.CA.body (str a) (str dt) (str ttot).

Definition OCP_text (dt ttot : Z) : string :=
  emstatpico.OCP.ini +:+ emstatpico.OCP.pre_body +:+
  emstatpico.OCP.body (str dt) (str ttot).

(** The attributes that hold script text. *)
Definition text_attrs : list string := ["text"; "ini"; "pre_body"; "body"].

(** Every [int(x*1000)] of [CV.__init__] returns. *)
Definition all_convert (Eini Ev1 Ev2 Efin sr dE : float) : Prop :=
  exists a b c d e f,
    converts Eini a /\ converts Ev1 b /\ converts Ev2 c /\ converts Efin d /\
    converts sr e /\ converts dE f.

(** *** Splitting, for the proofs *)

Fixpoint no_char (c : ascii) (s : string) : bool :=
  match s with
  | EmptyString => true
  | String a r => negb (Ascii.eqb a c) && no_char c r
  end.

(** What [split_on] returns on a concatenation. *)
Definition glue (l1 l2 : list string) : list string :=
  match l2 with
  | [] => l1
  | w2 :: r2 => removelast l1 ++ (List.last l1 EmptyString +:+ w2) :: r2
  end.

Definition tab (s : string) : string := String TAB s.

(** ** Rounding to an integer, as the specification words it *)


(** [round(x)]: the nearest integer, ties to even. *)
Definition round (x : float) : outcome Z :=
  match x with
  | S754_nan => Raise ValueError
  | S754_infinity _ => Raise OverflowError
  | S754_zero _ => Ret 0
  | S754_finite s m e =>
      let q := Z.shiftl (Zpos m) e in
      let r := Zpos m - Z.shiftl q (- e) in
      let half := Z.shiftl 1 (- e - 1) in
      Ret (cond_Zopp s
             (if (e >=? 0) || (r <? half) then q
              else if half <? r then q + 1
              else if Z.even q then q else q + 1))
  end.

(** The literal that the specification describes for a value [x]. *)
Definition rounds (x : float) (z : Z) : Prop :=
  round (fmul x emstatpico.thousand) = Ret z.

(** The operands of the loop instruction of [text] are the embedded
    values of [p], each written as the integer that [conv] relates it to. *)
Definition loop_literals (conv : float -> Z -> Prop) (p : technique_parameters)
    (text : string) : Prop :=
  exists zs, Forall2 conv (embedded p) zs /\
    Script.operands "meas_loop_" text = Some (map lit zs).

(** Likewise for the potential that the preamble applies; a technique
    that applies none has no [set_e]. *)
Definition set_e_literal (conv : float -> Z -> Prop) (p : technique_parameters)
    (text : string) : Prop :=
  exists zs, Forall2 conv (applied p) zs /\
    Script.operands "set_e " text =
    match zs with [] => None | _ => Some (map lit zs) end.

(** ** Further vocabulary *)

(** *** What a generator converts and what it validates *)

(** The values that [__init__] passes to [int(x*1000)], in source order. *)
Definition converted (p : technique_parameters) : list float :=
  match p with
  | CV_parameters Eini Ev1 Ev2 Efin sr dE nSweeps sens => [Eini; Ev1; Ev2; Efin; sr; dE]
  | LSV_parameters Eini Efin sr dE sens => [Eini; Efin; sr; dE]
  | CA_parameters Estep dt ttot sens => [Estep; dt; ttot]
  | OCP_parameters ttot dt => [dt; ttot]
  end.

(** The values that [validate] passes to [limits], with their labels, in
    source order. *)
Definition validated (p : technique_parameters) : list (float * string) :=
  match p with
  | CV_parameters Eini Ev1 Ev2 Efin sr dE nSweeps sens =>
      [(Eini, "Eini"); (Ev1, "Ev1"); (Ev2, "Ev2"); (Efin, "Efin")]
  | LSV_parameters Eini Efin sr dE sens => [(Eini, "Eini"); (Efin, "Efin")]
  | CA_parameters Estep dt ttot sens => [(Estep, "Estep")]
  | OCP_parameters ttot dt => []
  end.

(** [x*1000] is a number: [int(x*1000)] returns. *)
Definition convertible (x : float) : bool :=
  is_number (fmul x emstatpico.thousand).

(** The exception of [int(x*1000)] when the product is no number:
    [ValueError] for NaN, [OverflowError] for an infinity. *)
Definition conversion_error (x : float) : exn :=
  match fmul x emstatpico.thousand with
  | S754_nan => ValueError
  | _ => OverflowError
  end.

(** Every conversion returns and every validated potential passes. *)
Definition acceptable (p : technique_parameters) : bool :=
  forallb convertible (converted p) &&
  forallb (fun xl => in_envelope xl.1) (validated p).

(** Two values that [int(x*1000)] sends to the same integer. *)
Definition same_literal (x x' : float) : Prop :=
  exists z, converts x z /\ converts x' z.

(** The number of sweeps, for the technique that has one. *)
Definition sweeps (p : technique_parameters) : option Z :=
  match p with
  | CV_parameters Eini Ev1 Ev2 Efin sr dE nSweeps sens => Some nSweeps
  | _ => None
  end.

(** The scan-count word of a loop instruction for [nSweeps] less [k];
    only the sweep loop of CV has one. *)
Definition scan_count (p : technique_parameters) (k : Z) : list string :=
  match sweeps p with
  | Some n => ["nscans(" +:+ str (n - k) +:+ ")"]
  | None => []
  end.

(** The line that [validate] prints. *)
Definition valid_message : string := "All the parameters are valid".

(** *** The extension of a generated object *)

(** The class of the generator object of a technique, and its [bipot]
    method; [OCP] has none. *)
Definition generator_class (p : technique_parameters) : string :=
  match p with
  | CV_parameters _ _ _ _ _ _ _ _ => "emstatpico.CV"
  | LSV_parameters _ _ _ _ _ => "emstatpico.LSV"
  | CA_parameters _ _ _ _ => "emstatpico.CA"
  | OCP_parameters _ _ => "emstatpico.OCP"
  end.

Definition extend (p : technique_parameters) (E sens : float) : M unit :=
  match p with
  | CV_parameters _ _ _ _ _ _ _ _ => emstatpico.CV.bipot E sens
  | LSV_parameters _ _ _ _ _ => emstatpico.LSV.bipot E sens
  | CA_parameters _ _ _ _ => emstatpico.CA.bipot E sens
  | OCP_parameters _ _ => raise (AttributeError "bipot")
  end.

(** The attributes that [bipot] assigns. *)
Definition extension_attrs : list string := ["pre_body"; "body"; "text"].

(** The attributes of a CA generator object: after [__init__], and what
    [bipot] overwrites. *)
Definition CA_built (a t1 t2 : Z) (base : gmap string val) : gmap string val :=
  <["text" := VStr (CA_text a t1 t2)]>
  (<["body" := VStr (emstatpico.CA.body (str a) (str t1) (str t2))]>
  (<["pre_body" := VStr (emstatpico.CA.pre_body (str a))]>
  (<["ini" := VStr emstatpico.CA.ini]>
  (<["text" := VStr ""]>
  (<["ttot" := VInt t2]>
  (<["dt" := VInt t1]>
  (<["Estep" := VInt a]> base))))))).

Definition CA_bipot_text (z a t1 t2 : Z) : string :=
  emstatpico.CA.ini +:+ emstatpico.CA.bipot_pre_body (str z) (str a) +:+
  emstatpico.CA.bipot_body (str a) (str t1) (str t2).

Definition CA_extended (z a t1 t2 : Z) (built : gmap string val) : gmap string val :=
  <["text" := VStr (CA_bipot_text z a t1 t2)]>
  (<["body" := VStr (emstatpico.CA.bipot_body (str a) (str t1) (str t2))]>
  (<["pre_body" := VStr (emstatpico.CA.bipot_pre_body (str z) (str a))]> built)).

(** *** Reading a script, continued *)

(** 7-bit characters: what [encode('ascii')] accepts. *)
Definition is_ascii (a : ascii) : bool :=
  match a with Ascii _ _ _ _ _ _ _ b7 => negb b7 end.

Fixpoint ascii_only (s : string) : bool :=
  match s with
  | EmptyString => true
  | String a r => is_ascii a && ascii_only r
  end.

(** The variables that a script declares and those that it adds to the
    data packet of the loop, in order. *)
Definition declared (text : string) : list string :=
  omap (Script.strip_prefix "var ") (Script.lines text).

Definition packet_fields (text : string) : list string :=
  omap (Script.strip_prefix (tab "pck_add ")) (Script.lines text).

(** The instructions of a preamble that sequence the cell and the timer:
    those that neither declare nor configure. *)
Definition sequencing (preamble : string) : list string :=
  List.filter
    (fun l => negb (Script.is_config l || Script.starts_with "set_pgstat_chan " l ||
                    Script.starts_with "var " l))
    (Script.lines preamble).

(** *** Rounding, for the proofs *)

(** [mrs] is what [k] right shifts leave of the mantissa [m0]: the bits
    shifted out are [rest], which the round and sticky bits witness when
    they are set. *)
Definition shifted (m0 k : Z) (mrs : shr_record) : Prop :=
  0 <= shr_m mrs /\
  exists rest, m0 = shr_m mrs * 2 ^ k + rest /\ 0 <= rest < 2 ^ k /\
    (shr_r mrs || shr_s mrs = true -> 0 < rest).

(** *** The dispatcher *)



(** The exception for a model without the technique. *)
Definition no_technique (m technique : string) : exn :=
  Exception [MStr ("Potentiostat model " +:+ m +:+ " does not have " +:+ technique +:+ ".")].

Definition is_str (v : val) : bool :=
  match v with VStr _ => true | _ => false end.

(** *** Further scenarios *)

(** The scenario with [Eini] = -0.2004 V, [Efin] = 0.1 V and another
    sensitivity; the defaults of step chronoamperometry. *)
Definition scenario_near : technique_parameters :=
  CV_parameters (float_lit (-2004) 4) (float_lit 2 1) (float_lit (-2) 1)
    (float_lit 1 1) (float_lit 1 1) (float_lit 1 3) 2 (float_lit 1 5).

Definition scenario_CA : technique_parameters :=
  CA_parameters (float_lit 2 1) (float_lit 1 3) (float_of_int 2) (float_lit 1 6).

Definition built_CA : state := snd (generate scenario_CA default_filing fresh).


Definition pico_technique : state :=
  snd (potentiostat.Technique.__init__ pico (VStr "") "CV" fresh).

Definition cv_technique : state :=
  State (<["tech" := VObj "emstatpico.CV" (self built)]>
           (<["technique" := VStr "CV"]>
              (<["header" := VStr "CV"]>
                 (<["text" := VStr (script built)]> (self pico_technique)))))
        [].

(** * Properties *)

(** ** Binary64 facts *)

Section Binary64.

(** The decimal literals of the sources, bit for bit. *)
Example float_literals :
  float_lit (-2) 1 = S754_finite true 7205759403792794 (-55) /\
  float_lit 1 1 = S754_finite false 7205759403792794 (-56) /\
  float_lit 1 3 = S754_finite false 4611686018427388 (-62) /\
  emstatpico.Info.E_min = S754_finite true 7656119366529843 (-52) /\
  emstatpico.Info.E_max = S754_finite false 4503599627370496 (-51) /\
  huge = S754_finite false 6413338752028713 964.
Proof. repeat split; reflexivity. Qed.

Lemma digits2_pos_bounds p :
  2 ^ (Zpos (digits2_pos p) - 1) <= Zpos p < 2 ^ Zpos (digits2_pos p).
Proof.
  induction p as [p IH|p IH|]; cbn [digits2_pos].
  - rewrite Pos2Z.inj_succ.
    replace (Z.succ (Zpos (digits2_pos p)) - 1)
      with (Z.succ (Zpos (digits2_pos p) - 1)) by lia.
    rewrite !Z.pow_succ_r by lia. lia.
  - rewrite Pos2Z.inj_succ.
    replace (Z.succ (Zpos (digits2_pos p)) - 1)
      with (Z.succ (Zpos (digits2_pos p) - 1)) by lia.
    rewrite !Z.pow_succ_r by lia. lia.
  - simpl. lia.
Qed.

(** The exponent range and the mantissa of a valid finite float; above
    the least exponent the mantissa is normal. *)
Lemma valid_finite s m e :
  valid (S754_finite s m e) ->
  -1074 <= e <= 971 /\ Zpos m < 2 ^ 53 /\ (-1074 < e -> 2 ^ 52 <= Zpos m).
Proof.
  unfold valid, valid_binary, bounded, canonical_mantissa, fexp,
    SpecFloat.emin, prec, emax.
  intros [Hc He]%andb_true_iff. apply Z.eqb_eq in Hc. apply Z.leb_le in He.
  assert (Zpos (digits2_pos m) <= 53) as Hd by lia.
  assert (-1074 < e -> Zpos (digits2_pos m) = 53) as Hn by lia.
  assert (-1074 <= e <= 971) as Hr by lia. clear Hc He.
  pose proof (digits2_pos_bounds m) as [Hlo Hhi].
  split; [exact Hr|]. split.
  - eapply Z.lt_le_trans; [exact Hhi|]. apply Z.pow_le_mono_r; lia.
  - intros Hlt. rewrite (Hn Hlt) in Hlo. exact Hlo.
Qed.

Lemma scaled_pos_lt m1 e1 m2 e2 :
  valid (S754_finite false m1 e1) -> valid (S754_finite false m2 e2) ->
  e1 < e2 -> Zpos m1 * 2 ^ (e1 + 1074) < Zpos m2 * 2 ^ (e2 + 1074).
Proof.
  intros (He1 & Hm1 & _)%valid_finite (He2 & _ & Hm2)%valid_finite Hlt.
  assert (-1074 < e2) as He2' by lia. specialize (Hm2 He2').
  assert (e2 + 1074 = (e2 - e1) + (e1 + 1074)) as -> by (clear; lia).
  assert (0 <= e2 - e1 /\ 0 <= e1 + 1074 /\ 1 <= e2 - e1) as (? & ? & ?)
    by (clear - He1 Hlt; lia).
  rewrite (Z.pow_add_r 2 (e2 - e1) (e1 + 1074)) by assumption.
  assert (0 < 2 ^ (e1 + 1074)) by (apply Z.pow_pos_nonneg; [clear; lia|assumption]).
  assert (2 ^ 1 <= 2 ^ (e2 - e1)) by (apply Z.pow_le_mono_r; [clear; lia|assumption]).
  apply Z.lt_le_trans with (2 ^ 53 * 2 ^ (e1 + 1074)).
  - apply Z.mul_lt_mono_pos_r; assumption.
  - rewrite Z.mul_assoc.
    apply Z.mul_le_mono_nonneg_r; [apply Z.lt_le_incl; assumption|].
    change (2 ^ 53) with (2 ^ 52 * 2 ^ 1).
    apply Z.mul_le_mono_nonneg; try assumption; clear; lia.
Qed.

(** Comparing the exponents first and the mantissas next orders two
    positive floats as their values. *)
Lemma compare_pos m1 e1 m2 e2 :
  valid (S754_finite false m1 e1) -> valid (S754_finite false m2 e2) ->
  match e1 ?= e2 with
  | Lt => Lt
  | Gt => Gt
  | Eq => Pos.compare_cont Eq m1 m2
  end = (Zpos m1 * 2 ^ (e1 + 1074) ?= Zpos m2 * 2 ^ (e2 + 1074)).
Proof.
  intros H1 H2. symmetry. destruct (Z.compare_spec e1 e2) as [->|Hlt|Hgt].
  - pose proof (valid_finite _ _ _ H2) as (He & _).
    assert (0 < 2 ^ (e2 + 1074)) by (apply Z.pow_pos_nonneg; lia).
    change (Pos.compare_cont Eq m1 m2) with (Zpos m1 ?= Zpos m2).
    destruct (Z.compare_spec (Zpos m1) (Zpos m2)) as [Heq|Hl|Hg].
    + rewrite Heq. apply Z.compare_refl.
    + apply Z.compare_lt_iff. nia.
    + apply Z.compare_gt_iff. nia.
  - apply Z.compare_lt_iff. by apply scaled_pos_lt.
  - apply Z.compare_gt_iff. by apply scaled_pos_lt.
Qed.

(** The comparison of two valid floats is the comparison of the numbers
    they stand for, and is undefined exactly when one is NaN. *)
Lemma SFcompare_value x y :
  valid x -> valid y ->
  SFcompare x y =
  match value x, value y with
  | Some a, Some b => Some (ereal_compare a b)
  | _, _ => None
  end.
Proof.
  intros Hx Hy.
  destruct x as [sx|sx| |sx mx ex], y as [sy|sy| |sy my ey];
    try reflexivity; try (by destruct sx, sy); try (by destruct sx);
    try (by destruct sy).
  - cbn [SFcompare value ereal_compare]. f_equal. unfold scaled.
    pose proof (valid_finite _ _ _ Hy) as (He & _).
    assert (0 < 2 ^ (ey + 1074)) by (apply Z.pow_pos_nonneg; lia).
    destruct sy; cbn [cond_Zopp]; symmetry;
      [apply Z.compare_gt_iff|apply Z.compare_lt_iff]; nia.
  - cbn [SFcompare value ereal_compare]. f_equal. unfold scaled.
    pose proof (valid_finite _ _ _ Hx) as (He & _).
    assert (0 < 2 ^ (ex + 1074)) by (apply Z.pow_pos_nonneg; lia).
    destruct sx; cbn [cond_Zopp]; symmetry;
      [apply Z.compare_lt_iff|apply Z.compare_gt_iff]; nia.
  - cbn [SFcompare value ereal_compare]. f_equal. unfold scaled.
    pose proof (valid_finite _ _ _ Hx) as (Hex & _).
    pose proof (valid_finite _ _ _ Hy) as (Hey & _).
    assert (0 < 2 ^ (ex + 1074)) by (apply Z.pow_pos_nonneg; lia).
    assert (0 < 2 ^ (ey + 1074)) by (apply Z.pow_pos_nonneg; lia).
    destruct sx, sy; cbn [cond_Zopp].
    + rewrite Z.compare_opp.
      rewrite <- (compare_pos my ey mx ex) by done.
      rewrite (Z.compare_antisym ey ex).
      destruct (ey ?= ex); cbn; try reflexivity.
      symmetry. exact (Pos.compare_antisym mx my).
    + symmetry. apply Z.compare_lt_iff. nia.
    + symmetry. apply Z.compare_gt_iff. nia.
    + by apply compare_pos.
Qed.

Lemma flt_below x y : valid x -> valid y -> flt x y = true <-> below x y.
Proof.
  intros Hx Hy. unfold flt, below. rewrite (SFcompare_value x y Hx Hy).
  destruct (value x), (value y); try (split; [discriminate|tauto]).
  destruct (ereal_compare _ _); split; (discriminate || reflexivity).
Qed.

Lemma ereal_compare_antisym a b : ereal_compare b a = CompOpp (ereal_compare a b).
Proof. destruct a, b; try reflexivity. apply Z.compare_antisym. Qed.

Lemma fgt_below x y : valid x -> valid y -> fgt x y = true <-> below y x.
Proof.
  intros Hx Hy. unfold fgt, below. rewrite (SFcompare_value x y Hx Hy).
  destruct (value x) as [a|], (value y) as [b|]; try (split; [discriminate|tauto]).
  rewrite (ereal_compare_antisym a b).
  destruct (ereal_compare a b); split; (discriminate || reflexivity).
Qed.

(** [E_min <= x <= E_max] is stronger than passing [limits]: it also
    excludes NaN. *)
Lemma in_range_envelope x : valid x -> in_range x = true -> in_envelope x = true.
Proof.
  intros Hx. unfold in_range, in_envelope, fle, flt, fgt.
  assert (valid emstatpico.Info.E_min) as Hmin by reflexivity.
  assert (valid emstatpico.Info.E_max) as Hmax by reflexivity.
  rewrite (SFcompare_value _ _ Hmin Hx), (SFcompare_value _ _ Hx Hmax),
    (SFcompare_value _ _ Hx Hmin).
  destruct (value emstatpico.Info.E_min) as [b|]; [|done].
  destruct (value x) as [a|]; [|done].
  destruct (value emstatpico.Info.E_max) as [c|]; [|by rewrite andb_false_r].
  rewrite (ereal_compare_antisym b a).
  destruct (ereal_compare b a), (ereal_compare a c); done.
Qed.

(** *** [int] truncates toward zero *)

Lemma shiftl_scaled m e :
  -1074 <= e -> Z.shiftl (Zpos m) e = Zpos m * 2 ^ (e + 1074) / 2 ^ 1074.
Proof.
  intros He. destruct (Z.le_gt_cases 0 e) as [Hpos|Hneg].
  - rewrite Z.shiftl_mul_pow2 by done.
    rewrite Z.pow_add_r by lia. rewrite Z.mul_assoc.
    by rewrite Z.div_mul.
  - rewrite Z.shiftl_div_pow2 by lia.
    replace (2 ^ 1074) with (2 ^ (- e) * 2 ^ (e + 1074)).
    + rewrite Z.div_mul_cancel_r; [done| |]; apply Z.pow_nonzero; lia.
    + rewrite <- Z.pow_add_r by lia. f_equal. lia.
Qed.

(** The integer that [int] returns is the value of the float, divided by
    its unit with the quotient rounded toward zero. *)
Lemma int_truncates s m e :
  -1074 <= e ->
  int (S754_finite s m e) = Ret (Z.quot (scaled s m e) (2 ^ 1074)).
Proof.
  intros He. cbn [int]. f_equal. unfold scaled.
  assert (0 <= Zpos m * 2 ^ (e + 1074)) as Hnn.
  { apply Z.mul_nonneg_nonneg; [done|]. apply Z.pow_nonneg. lia. }
  assert (0 < 2 ^ 1074) as Hp by (by apply Z.pow_pos_nonneg).
  destruct s; cbn [cond_Zopp].
  - rewrite Z.quot_opp_l by lia. f_equal.
    rewrite Z.quot_div_nonneg by done. by apply shiftl_scaled.
  - rewrite Z.quot_div_nonneg by done. by apply shiftl_scaled.
Qed.

(** *** Multiplying by 1000 inside the envelope does not overflow *)

Lemma int_number x : is_number x = true -> exists z, int x = Ret z.
Proof. destruct x; try done; eauto. Qed.

Lemma iter_pos_invariant {A} (f : A -> A) (P : A -> Prop) :
  (forall x, P x -> P (f x)) -> forall n x, P x -> P (SpecFloat.iter_pos f n x).
Proof.
  intros Hf. induction n as [n IH|n IH|]; intros x Hx; cbn [SpecFloat.iter_pos]; auto.
Qed.

Lemma shr_1_bounds M mrs : 0 <= shr_m mrs <= M -> 0 <= shr_m (shr_1 mrs) <= M.
Proof.
  destruct mrs as [m r s]. cbn [shr_m]. intros Hm.
  destruct m as [|p|p]; [| |lia]; cbn [shr_1 shr_m].
  - lia.
  - destruct p; cbn [shr_m]; lia.
Qed.

(** Shifting to the target exponent keeps the mantissa within its bounds
    and never lowers the exponent. *)
Lemma shr_fexp_spec M m e l :
  0 <= m <= M ->
  exists mrs' e', shr_fexp prec emax m e l = (mrs', e') /\
    0 <= shr_m mrs' <= M /\
    e' = Z.max e (fexp prec emax (Zdigits2 m + e)).
Proof.
  intros Hm. unfold shr_fexp, shr.
  assert (shr_m (shr_record_of_loc m l) = m) as Hrec by (by destruct l as [|[]]).
  destruct (fexp prec emax (Zdigits2 m + e) - e) as [|p|p] eqn:Hn.
  - eexists _, _. split; [reflexivity|]. rewrite Hrec. split; [done|lia].
  - eexists _, _. split; [reflexivity|]. split; [|lia].
    apply (iter_pos_invariant shr_1 (fun mrs => 0 <= shr_m mrs <= M)).
    + apply shr_1_bounds.
    + by rewrite Hrec.
  - eexists _, _. split; [reflexivity|]. rewrite Hrec. split; [done|lia].
Qed.

Lemma Zdigits2_le m k : 0 <= k -> 0 <= m <= 2 ^ k -> 0 <= Zdigits2 m <= k + 1.
Proof.
  intros Hk [Hm0 Hm]. destruct m as [|p|p]; [cbn; lia| |lia].
  cbn [Zdigits2]. split; [lia|].
  pose proof (digits2_pos_bounds p) as [Hlo _].
  assert (2 ^ (Zpos (digits2_pos p) - 1) <= 2 ^ k) as Hle by (etrans; eassumption).
  apply Z.pow_le_mono_r_iff in Hle; lia.
Qed.

Lemma round_nearest_even_bounds m l :
  0 <= m -> m <= round_nearest_even m l <= m + 1.
Proof.
  intros Hm. destruct l as [|[]]; cbn [round_nearest_even]; try lia.
  destruct (Z.even m); lia.
Qed.

(** Rounding a product of two 53-bit mantissas at a small exponent gives
    zero or a finite float. *)
Lemma binary_round_aux_number sx mx ex :
  0 <= mx < 2 ^ 106 -> ex <= -94 ->
  is_number (binary_round_aux prec emax sx mx ex loc_Exact) = true.
Proof.
  intros Hmx Hex. unfold binary_round_aux.
  destruct (shr_fexp_spec (2 ^ 106 - 1) mx ex loc_Exact)
    as (mrs' & e' & -> & Hm' & He'); [lia|].
  pose proof (round_nearest_even_bounds (shr_m mrs') (loc_of_shr_record mrs')) as Hr.
  specialize (Hr ltac:(lia)).
  set (m1 := round_nearest_even (shr_m mrs') (loc_of_shr_record mrs')) in *.
  destruct (shr_fexp_spec (2 ^ 106) m1 e' loc_Exact)
    as (mrs'' & e'' & -> & Hm'' & He''); [lia|].
  assert (0 <= Zdigits2 mx <= 107) as Hd by (apply (Zdigits2_le mx 106); lia).
  assert (0 <= Zdigits2 m1 <= 107) as Hd1 by (apply (Zdigits2_le m1 106); lia).
  assert (e'' <= 971) as Hle.
  { revert He' He''. unfold fexp, SpecFloat.emin, prec, emax.
    clear - Hd Hd1 Hex. lia. }
  destruct (shr_m mrs'') as [|p|p]; [done| |lia].
  apply Z.leb_le in Hle. unfold prec, emax.
  change (1024 - 53) with 971. by rewrite Hle.
Qed.

Lemma thousand_eq : emstatpico.thousand = S754_finite false 8796093022208000 (-43).
Proof. reflexivity. Qed.

Lemma fmul_thousand_number s m e :
  Zpos m < 2 ^ 53 -> e <= -51 ->
  is_number (fmul (S754_finite s m e) emstatpico.thousand) = true.
Proof.
  intros Hm He. rewrite thousand_eq. unfold fmul. cbn [SFmul].
  apply binary_round_aux_number; [|lia].
  split; [lia|]. rewrite Pos2Z.inj_mul.
  change (2 ^ 106) with (2 ^ 53 * 2 ^ 53).
  apply Z.mul_lt_mono_nonneg; [lia|assumption|lia|reflexivity].
Qed.

(** A float in [E_min, E_max] has a small exponent. *)
Lemma in_range_exponent s m e :
  in_range (S754_finite s m e) = true -> e <= -51.
Proof.
  unfold in_range, fle.
  change emstatpico.Info.E_min with (S754_finite true 7656119366529843 (-52)).
  change emstatpico.Info.E_max with (S754_finite false 4503599627370496 (-51)).
  intros [Hlo Hhi]%andb_true_iff. destruct s; cbn [SFcompare] in Hlo, Hhi.
  - destruct (Z.compare_spec (-52) e); (discriminate || lia).
  - destruct (Z.compare_spec e (-51)); (discriminate || lia).
Qed.

(** Inside the envelope [int(x*1000)] returns. *)
Lemma in_range_converts x :
  valid x -> in_range x = true -> exists z, converts x z.
Proof.
  intros Hx Hr. unfold converts. apply int_number.
  destruct x as [s|s| |s m e]; try done.
  - by destruct s.
  - apply fmul_thousand_number.
    + by apply valid_finite in Hx as (_ & ? & _).
    + by apply in_range_exponent in Hr.
Qed.

End Binary64.

(** ** Splitting a script into lines and words *)

Section Splitting.

Import Script.

Lemma split_on_cons c s : exists w ws, split_on c s = w :: ws.
Proof.
  induction s as [|a s (w & ws & IH)]; simpl; [by eauto|].
  destruct (Ascii.eqb a c); [by eauto|]. rewrite IH. by eauto.
Qed.

Lemma split_on_last c w : no_char c w = true -> split_on c w = [w].
Proof.
  induction w as [|a w IH]; simpl; [done|].
  intros [Ha Hw]%andb_true_iff. apply negb_true_iff in Ha. rewrite Ha.
  by rewrite IH.
Qed.

Lemma split_on_sep c w r :
  no_char c w = true -> split_on c (w +:+ String c r) = w :: split_on c r.
Proof.
  induction w as [|a w IH]; simpl.
  - intros _. by rewrite Ascii.eqb_refl.
  - intros [Ha Hw]%andb_true_iff. apply negb_true_iff in Ha. rewrite Ha.
    by rewrite IH.
Qed.

(** Splitting commutes with concatenation: the last piece of the left
    part continues into the first piece of the right part. *)
Lemma split_on_app c a b :
  split_on c (a +:+ b) = glue (split_on c a) (split_on c b).
Proof.
  induction a as [|x a IH]; simpl.
  - destruct (split_on_cons c b) as (w & ws & ->). reflexivity.
  - destruct (Ascii.eqb x c).
    + rewrite IH. destruct (split_on_cons c b) as (w & ws & ->).
      destruct (split_on_cons c a) as (w' & ws' & ->). reflexivity.
    + rewrite IH. destruct (split_on_cons c b) as (w & ws & ->).
      destruct (split_on_cons c a) as (w' & ws' & ->).
      simpl. destruct ws'; reflexivity.
Qed.

Lemma numeral_no_char c s :
  numeral_char c = false -> numeral s = true -> no_char c s = true.
Proof.
  intros Hc. induction s as [|a s IH]; simpl; [done|].
  intros [Ha Hs]%andb_true_iff. rewrite IH by done. rewrite andb_true_r.
  apply negb_true_iff. destruct (Ascii.eqb_spec a c) as [->|]; [congruence|done].
Qed.

Lemma uint_numeral d : numeral (NilEmpty.string_of_uint d) = true.
Proof. induction d; simpl; auto. Qed.

Lemma to_uint_nonnil p : Pos.to_uint p <> Decimal.Nil.
Proof.
  intros H. pose proof (DecimalPos.Unsigned.of_to p) as Hp.
  rewrite H in Hp. discriminate.
Qed.

(** [str] writes an optional sign and at least one digit. *)
Lemma str_numeral z : numeral (str z) = true.
Proof.
  unfold str, NilZero.string_of_int.
  destruct (Z.to_int z) as [d|d]; unfold NilZero.string_of_uint.
  - destruct d; try done; apply (uint_numeral (_ d)).
  - simpl. destruct d; try done; apply (uint_numeral (_ d)).
Qed.

Lemma str_nonempty z : str z <> EmptyString.
Proof.
  unfold str. destruct z as [|p|p]; cbn [Z.to_int NilZero.string_of_int]; [done| |done].
  unfold NilZero.string_of_uint.
  pose proof (to_uint_nonnil p). by destruct (Pos.to_uint p).
Qed.

(** [str] is injective: different integers are written differently. *)
Lemma str_inj z z' : str z = str z' -> z = z'.
Proof.
  unfold str. intros H. apply DecimalZ.to_int_inj.
  assert (forall y, Z.to_int y <> Decimal.Pos Decimal.Nil /\
                    Z.to_int y <> Decimal.Neg Decimal.Nil) as Hn.
  { intros [|p|p]; cbn [Z.to_int]; split; try done;
      intros [= Hp]; by apply (to_uint_nonnil p). }
  pose proof (NilZero.isi (Z.to_int z) (proj1 (Hn z)) (proj2 (Hn z))) as H1.
  pose proof (NilZero.isi (Z.to_int z') (proj1 (Hn z')) (proj2 (Hn z'))) as H2.
  rewrite H in H1. congruence.
Qed.

Lemma milli_literal_suffix s :
  s <> EmptyString -> numeral s = true -> milli_literal (s +:+ "m") = true.
Proof.
  induction s as [|a s IH]; [done|]. intros _ [Ha Hs]%andb_true_iff.
  change (String a s +:+ "m") with (String a (s +:+ "m")).
  cbn [milli_literal]. rewrite Ha. cbn [andb].
  destruct s as [|b s]; [reflexivity|].
  specialize (IH ltac:(done) Hs).
  change (String b s +:+ "m") with (String b (s +:+ "m")) in *.
  destruct (s +:+ "m") as [|x y] eqn:Hx; [by destruct s|].
  destruct b as [[] [] [] [] [] [] [] []]; exact IH.
Qed.

Lemma milli_literal_lit z : milli_literal (lit z) = true.
Proof. apply milli_literal_suffix; [apply str_nonempty|apply str_numeral]. Qed.

(** A literal starts with a sign or a digit. *)
Lemma starts_with_lit c p z :
  numeral_char c = false -> starts_with (String c p) (lit z) = false.
Proof.
  intros Hc. unfold lit, starts_with. pose proof (str_nonempty z) as Hne.
  pose proof (str_numeral z) as Hnum.
  destruct (str z) as [|a r]; [done|].
  apply andb_true_iff in Hnum as [Ha _].
  change (String a r +:+ "m") with (String a (r +:+ "m")). cbn [strip_prefix].
  destruct (Ascii.eqb_spec c a) as [->|]; [congruence|done].
Qed.

Lemma instruction_lines mnemonic text ls l :
  lines text = ls -> find (starts_with mnemonic) ls = Some l ->
  instruction mnemonic text = Some (words l).
Proof. unfold instruction. by intros -> ->. Qed.

End Splitting.

(** Split a text whose symbolic parts are renderings of integers. *)
Ltac split_text c :=
  rewrite ?split_on_app;
  repeat match goal with
  | |- context [Script.split_on c (str ?z)] =>
      rewrite (split_on_last c (str z)
                 (numeral_no_char c (str z) eq_refl (str_numeral z)))
  end;
  vm_compute; reflexivity.

(** ** Running the generators *)

Lemma run_bind {A B} (f : A -> M B) (m : M A) w :
  (x ← m; f x) w =
  match m w with
  | (Ret a, w') => f a w'
  | (Raise e, w') => (Raise e, w')
  end.
Proof. reflexivity. Qed.

(** Step through a computation whose attribute reads are decided. *)
Ltac run :=
  unfold getattr, setattr, print, raise, lift;
  repeat (progress (rewrite ?run_bind;
                    cbn [as_int as_str mret M_ret self stdout];
                    rewrite ?lookup_insert_eq;
                    rewrite ?lookup_insert_ne by done)).

Ltac run_in H :=
  unfold getattr, setattr, print, raise, lift in H;
  repeat (progress (rewrite ?run_bind in H;
                    cbn [as_int as_str mret M_ret self stdout] in H;
                    rewrite ?lookup_insert_eq in H;
                    rewrite ?lookup_insert_ne in H by done)).

Section Generators.

Import emstatpico.

Lemma limits_pass x label units :
  in_envelope x = true ->
  Info.limits x Info.E_min Info.E_max label units = mret tt.
Proof.
  unfold in_envelope, Info.limits. by intros ->%negb_true_iff.
Qed.

Lemma limits_fail x label units :
  in_envelope x = false ->
  Info.limits x Info.E_min Info.E_max label units =
  raise (Info.out_of_range x Info.E_min Info.E_max label units).
Proof.
  unfold in_envelope, Info.limits. by intros ->%negb_false_iff.
Qed.

Lemma milli_converts x z : converts x z -> milli x = mret z.
Proof. unfold converts, milli, lift. by intros ->. Qed.

(** Every float either converts or makes [int] raise one of its two
    errors. *)
Lemma converts_or_raises x :
  (exists z, converts x z) \/
  milli x = raise ValueError \/ milli x = raise OverflowError.
Proof.
  unfold converts, milli, lift.
  destruct (int (fmul x thousand)) as [z|e] eqn:H; [by eauto|right].
  destruct (fmul x thousand) as [| | |]; simplify_eq/=; by eauto.
Qed.

Lemma converts_dec x : {z | converts x z} + {forall z, ~ converts x z}.
Proof.
  unfold converts. destruct (int (fmul x thousand)) as [z|e]; [left; by exists z|by right].
Qed.

(** *** [CV.__init__] *)

Section CV_init.

Context (Eini Ev1 Ev2 Efin sr dE : float) (n : Z) (sens : float) (f0 : filing).

#[local] Abbreviation init := (generate (CV_parameters Eini Ev1 Ev2 Efin sr dE n sens) f0).

Lemma CV_init_ok a b c d e f w :
  converts Eini a -> converts Ev1 b -> converts Ev2 c -> converts Efin d ->
  converts sr e -> converts dE f ->
  in_envelope Eini = true -> in_envelope Ev1 = true ->
  in_envelope Ev2 = true -> in_envelope Efin = true ->
  init w = (Ret tt, State (CV_built a b c d e f n (self w))
                          (stdout w ++ ["All the parameters are valid"])).
Proof.
  intros Ha Hb Hc Hd He Hf H1 H2 H3 H4.
  unfold generate, CV.__init__, CV.validate, str_attr, str_getattr.
  rewrite (milli_converts _ _ Ha), (milli_converts _ _ Hb), (milli_converts _ _ Hc),
    (milli_converts _ _ Hd), (milli_converts _ _ He), (milli_converts _ _ Hf).
  rewrite !limits_pass by done.
  run. reflexivity.
Qed.

(** With a potential outside the envelope the object stops at the state
    it had before validation. *)
Lemma CV_init_out_of_range a b c d e f w :
  converts Eini a -> converts Ev1 b -> converts Ev2 c -> converts Efin d ->
  converts sr e -> converts dE f ->
  in_envelope Eini && in_envelope Ev1 && in_envelope Ev2 && in_envelope Efin = false ->
  exists x label,
    init w = (Raise (Info.out_of_range x Info.E_min Info.E_max label "V"),
              State (CV_stored a b c d e f n (self w)) (stdout w)) /\
    In x [Eini; Ev1; Ev2; Efin] /\ in_envelope x = false.
Proof.
  intros Ha Hb Hc Hd He Hf Hout.
  unfold generate, CV.__init__, CV.validate, str_attr, str_getattr.
  rewrite (milli_converts _ _ Ha), (milli_converts _ _ Hb), (milli_converts _ _ Hc),
    (milli_converts _ _ Hd), (milli_converts _ _ He), (milli_converts _ _ Hf).
  destruct (in_envelope Eini) eqn:H1.
  2:{ exists Eini, "Eini". rewrite (limits_fail _ _ _ H1). run.
      split; [reflexivity|]. split; [by left|done]. }
  destruct (in_envelope Ev1) eqn:H2.
  2:{ exists Ev1, "Ev1". rewrite (limits_pass _ _ _ H1), (limits_fail _ _ _ H2). run.
      split; [reflexivity|]. split; [by right; left|done]. }
  destruct (in_envelope Ev2) eqn:H3.
  2:{ exists Ev2, "Ev2".
      rewrite (limits_pass _ _ _ H1), (limits_pass _ _ _ H2), (limits_fail _ _ _ H3). run.
      split; [reflexivity|]. split; [by right; right; left|done]. }
  destruct (in_envelope Efin) eqn:H4; [done|].
  exists Efin, "Efin".
  rewrite (limits_pass _ _ _ H1), (limits_pass _ _ _ H2), (limits_pass _ _ _ H3),
    (limits_fail _ _ _ H4). run.
  split; [reflexivity|]. split; [by right; right; right; left|done].
Qed.

(** When a conversion fails, [int] raises before [text] is assigned and
    before validation. *)
Lemma CV_init_unconverted w :
  ~ all_convert Eini Ev1 Ev2 Efin sr dE ->
  exists e w1,
    init w = (Raise e, w1) /\ (e = ValueError \/ e = OverflowError) /\
    (forall k, In k text_attrs -> self w1 !! k = self w !! k) /\
    stdout w1 = stdout w.
Proof.
  intros Hno.
  unfold generate, CV.__init__, CV.validate, str_attr, str_getattr.
  assert (forall k (m : gmap string val), In k text_attrs ->
            forall k' v, In k' ["Eini"; "Ev1"; "Ev2"; "Efin"; "sr"; "dE"] ->
            <[k' := v]> m !! k = m !! k) as Hk.
  { intros k m Hin k' v Hin'. apply lookup_insert_ne.
    cbn in Hin, Hin'. intuition (subst; done). }
  assert (forall (e : exn) (w1 : state),
            (e = ValueError \/ e = OverflowError) ->
            (forall k, In k text_attrs -> self w1 !! k = self w !! k) ->
            stdout w1 = stdout w ->
            exists e' w1', (Raise e, w1) = (@Raise unit e', w1') /\
              (e' = ValueError \/ e' = OverflowError) /\
              (forall k, In k text_attrs -> self w1' !! k = self w !! k) /\
              stdout w1' = stdout w) as Hend by (intros; eauto 10).
  destruct (converts_or_raises Eini) as [[a Ha]|[Hr|Hr]];
    [rewrite (milli_converts _ _ Ha)| rewrite Hr; run; by auto..].
  destruct (converts_or_raises Ev1) as [[b Hb]|[Hr|Hr]];
    [rewrite (milli_converts _ _ Hb)|
     rewrite Hr; run; apply Hend; [by auto| |done];
     intros k Hin; cbn [self]; rewrite !Hk by (done || cbn; tauto); done..].
  destruct (converts_or_raises Ev2) as [[c Hc]|[Hr|Hr]];
    [rewrite (milli_converts _ _ Hc)|
     rewrite Hr; run; apply Hend; [by auto| |done];
     intros k Hin; cbn [self]; rewrite !Hk by (done || cbn; tauto); done..].
  destruct (converts_or_raises Efin) as [[d Hd]|[Hr|Hr]];
    [rewrite (milli_converts _ _ Hd)|
     rewrite Hr; run; apply Hend; [by auto| |done];
     intros k Hin; cbn [self]; rewrite !Hk by (done || cbn; tauto); done..].
  destruct (converts_or_raises sr) as [[e He]|[Hr|Hr]];
    [rewrite (milli_converts _ _ He)|
     rewrite Hr; run; apply Hend; [by auto| |done];
     intros k Hin; cbn [self]; rewrite !Hk by (done || cbn; tauto); done..].
  destruct (converts_or_raises dE) as [[f Hf]|[Hr|Hr]];
    [|rewrite Hr; run; apply Hend; [by auto| |done];
      intros k Hin; cbn [self]; rewrite !Hk by (done || cbn; tauto); done..].
  destruct Hno. by exists a, b, c, d, e, f.
Qed.

Lemma classic_convert :
  all_convert Eini Ev1 Ev2 Efin sr dE \/ ~ all_convert Eini Ev1 Ev2 Efin sr dE.
Proof.
  unfold all_convert.
  destruct (converts_dec Eini) as [[a Ha]|Ha];
    [|right; intros (?&?&?&?&?&?&?&?&?&?&?&?); by eapply Ha].
  destruct (converts_dec Ev1) as [[b Hb]|Hb];
    [|right; intros (?&?&?&?&?&?&?&?&?&?&?&?); by eapply Hb].
  destruct (converts_dec Ev2) as [[c Hc]|Hc];
    [|right; intros (?&?&?&?&?&?&?&?&?&?&?&?); by eapply Hc].
  destruct (converts_dec Efin) as [[d Hd]|Hd];
    [|right; intros (?&?&?&?&?&?&?&?&?&?&?&?); by eapply Hd].
  destruct (converts_dec sr) as [[e He]|He];
    [|right; intros (?&?&?&?&?&?&?&?&?&?&?&?); by eapply He].
  destruct (converts_dec dE) as [[f Hf]|Hf];
    [|right; intros (?&?&?&?&?&?&?&?&?&?&?&?); by eapply Hf].
  left. by exists a, b, c, d, e, f.
Qed.

(** [__init__] returns only with the object fully built. *)
Lemma CV_init_inv w w1 :
  init w = (Ret tt, w1) ->
  exists a b c d e f,
    converts Eini a /\ converts Ev1 b /\ converts Ev2 c /\ converts Efin d /\
    converts sr e /\ converts dE f /\
    in_envelope Eini = true /\ in_envelope Ev1 = true /\
    in_envelope Ev2 = true /\ in_envelope Efin = true /\
    w1 = State (CV_built a b c d e f n (self w))
               (stdout w ++ ["All the parameters are valid"]).
Proof.
  intros Hrun.
  destruct (classic_convert) as [(a & b & c & d & e & f & Ha & Hb & Hc & Hd & He & Hf)|Hno].
  2:{ destruct (CV_init_unconverted w Hno) as (e & w' & Hr & _). congruence. }
  exists a, b, c, d, e, f.
  destruct (in_envelope Eini && in_envelope Ev1 && in_envelope Ev2 && in_envelope Efin)
    eqn:Henv.
  - apply andb_true_iff in Henv as [[[H1 H2]%andb_true_iff H3]%andb_true_iff H4].
    rewrite (CV_init_ok a b c d e f w) in Hrun by done.
    by simplify_eq.
  - destruct (CV_init_out_of_range a b c d e f w) as (x & l & Hr & _); try done.
    congruence.
Qed.

End CV_init.

(** With the four potentials in [E_min, E_max], generation returns as soon
    as the scan rate and the step convert. *)
Lemma CV_generation_returns Eini Ev1 Ev2 Efin sr dE n sens f0 w e f :
  valid Eini -> valid Ev1 -> valid Ev2 -> valid Efin ->
  in_range Eini = true -> in_range Ev1 = true ->
  in_range Ev2 = true -> in_range Efin = true ->
  converts sr e -> converts dE f ->
  exists w1, generate (CV_parameters Eini Ev1 Ev2 Efin sr dE n sens) f0 w = (Ret tt, w1).
Proof.
  intros V1 V2 V3 V4 R1 R2 R3 R4 He Hf.
  destruct (in_range_converts _ V1 R1) as [a Ha].
  destruct (in_range_converts _ V2 R2) as [b Hb].
  destruct (in_range_converts _ V3 R3) as [c Hc].
  destruct (in_range_converts _ V4 R4) as [d Hd].
  eexists. apply (CV_init_ok _ _ _ _ _ _ _ _ _ a b c d e f);
    auto using in_range_envelope.
Qed.

(** *** [CV.bipot] on a built object *)

Lemma CV_bipot_ok E sens z a b c d e f n base out :
  converts E z -> in_envelope E = true ->
  CV.bipot E sens (State (CV_built a b c d e f n base) out) =
  (Ret tt, State (CV_extended z a b c e f n (CV_built a b c d e f n base)) out).
Proof.
  intros Hz HE. unfold CV.bipot, str_attr, str_getattr.
  rewrite (milli_converts _ _ Hz), (limits_pass _ _ _ HE).
  unfold CV_built, CV_stored. run. reflexivity.
Qed.

Lemma CV_bipot_out_of_range E sens w :
  in_envelope E = false ->
  CV.bipot E sens w = (Raise (Info.out_of_range E Info.E_min Info.E_max "E2" "V"), w).
Proof.
  intros HE. unfold CV.bipot. rewrite (limits_fail _ _ _ HE). by destruct w.
Qed.

Lemma CV_bipot_inv E sens a b c d e f n base out w2 :
  CV.bipot E sens (State (CV_built a b c d e f n base) out) = (Ret tt, w2) ->
  exists z, converts E z /\ in_envelope E = true /\
    w2 = State (CV_extended z a b c e f n (CV_built a b c d e f n base)) out.
Proof.
  intros Hrun. destruct (in_envelope E) eqn:HE.
  2:{ rewrite (CV_bipot_out_of_range _ _ _ HE) in Hrun. done. }
  destruct (converts_dec E) as [[z Hz]|Hno].
  - exists z. rewrite (CV_bipot_ok E sens z) in Hrun by done. by simplify_eq.
  - unfold CV.bipot in Hrun. rewrite (limits_pass _ _ _ HE) in Hrun.
    destruct (converts_or_raises E) as [[z Hz]|[Hr|Hr]]; [by destruct (Hno z)|..];
      rewrite Hr in Hrun; run_in Hrun; done.
Qed.

Lemma script_built a b c d e f n base out :
  script (State (CV_built a b c d e f n base) out) = CV_text a b c e f n.
Proof. unfold script, attr_text, CV_built. cbn [self]. by rewrite lookup_insert_eq. Qed.

Lemma script_extended z a b c e f n base out :
  script (State (CV_extended z a b c e f n base) out) = CV_bipot_text z a b c e f n.
Proof. unfold script, attr_text, CV_extended. cbn [self]. by rewrite lookup_insert_eq. Qed.

Lemma pre_body_built a b c d e f n base out :
  attr_text "pre_body" (State (CV_built a b c d e f n base) out) = CV.pre_body (str a).
Proof.
  unfold attr_text, CV_built. cbn [self].
  rewrite !lookup_insert_ne by done. by rewrite lookup_insert_eq.
Qed.

Lemma pre_body_extended z a b c e f n base out :
  attr_text "pre_body" (State (CV_extended z a b c e f n base) out) =
  CV.bipot_pre_body (str z) (str a).
Proof.
  unfold attr_text, CV_extended. cbn [self].
  rewrite !lookup_insert_ne by done. by rewrite lookup_insert_eq.
Qed.

(** *** The lines and words of the CV scripts *)

Import Script.

Lemma CV_text_lines a b c e f n :
  lines (CV_text a b c e f n) =
  ["e"; "var c"; "var p"; "var a";
   "set_pgstat_mode 4"; "set_autoranging ba 100n 5m"; "set_e " +:+ str a +:+ "m";
   "cell_on"; "wait 2"; "timer_start";
   "meas_loop_cv p c " +:+ str a +:+ "m " +:+ str b +:+ "m " +:+ str c +:+ "m " +:+
     str f +:+ "m " +:+ str e +:+ "m nscans(" +:+ str (n - 1) +:+ ")";
   tab "pck_start"; tab "timer_get a"; tab "pck_add a"; tab "pck_add p";
   tab "pck_add c"; tab "pck_end"; "endloop"; "on_finished:"; "cell_off"; ""; ""].
Proof.
  unfold lines, CV_text, CV.ini, CV.pre_body, CV.body. split_text LF.
Qed.

Lemma CV_bipot_text_lines z a b c e f n :
  lines (CV_bipot_text z a b c e f n) =
  ["e"; "var c"; "var p"; "var a";
   "var b"; "set_pgstat_chan 1"; "set_pgstat_mode 5"; "set_poly_we_mode 0";
   "set_e " +:+ str z +:+ "m"; "set_autoranging ba 100n 5m";
   "set_pgstat_chan 0"; "set_pgstat_mode 2"; "set_autoranging ba 100n 5m";
   "set_e " +:+ str a +:+ "m"; "timer_start"; "cell_on";
   "meas_loop_cv p c " +:+ str a +:+ "m " +:+ str b +:+ "m " +:+ str c +:+ "m " +:+
     str f +:+ "m " +:+ str e +:+ "m nscans(" +:+ str n +:+ ") poly_we(1 b)";
   tab "pck_start"; tab "timer_get a"; tab "pck_add a"; tab "pck_add p";
   tab "pck_add c"; tab "pck_add b"; tab "pck_end"; "endloop"; "on_finished:";
   "cell_off"; ""; ""].
Proof.
  unfold lines, CV_bipot_text, CV.ini, CV.bipot_pre_body, CV.bipot_body.
  split_text LF.
Qed.

Lemma CV_loop_words a b c e f k :
  words ("meas_loop_cv p c " +:+ str a +:+ "m " +:+ str b +:+ "m " +:+ str c +:+ "m " +:+
         str f +:+ "m " +:+ str e +:+ "m nscans(" +:+ str k +:+ ")") =
  ["meas_loop_cv"; "p"; "c"; lit a; lit b; lit c; lit f; lit e;
   "nscans(" +:+ str k +:+ ")"].
Proof. unfold words, lit. split_text " "%char. Qed.

Lemma CV_bipot_loop_words a b c e f k :
  words ("meas_loop_cv p c " +:+ str a +:+ "m " +:+ str b +:+ "m " +:+ str c +:+ "m " +:+
         str f +:+ "m " +:+ str e +:+ "m nscans(" +:+ str k +:+ ") poly_we(1 b)") =
  ["meas_loop_cv"; "p"; "c"; lit a; lit b; lit c; lit f; lit e;
   "nscans(" +:+ str k +:+ ")"; "poly_we(1"; "b)"].
Proof. unfold words, lit. split_text " "%char. Qed.

(** The sweep-loop instruction of the single-channel program. *)
Lemma CV_instruction a b c e f n :
  instruction "meas_loop_cv" (CV_text a b c e f n) =
  Some ["meas_loop_cv"; "p"; "c"; lit a; lit b; lit c; lit f; lit e;
        "nscans(" +:+ str (n - 1) +:+ ")"].
Proof.
  rewrite <- CV_loop_words.
  eapply instruction_lines; [apply CV_text_lines|]. vm_compute. reflexivity.
Qed.

Lemma CV_bipot_instruction z a b c e f n :
  instruction "meas_loop_cv" (CV_bipot_text z a b c e f n) =
  Some ["meas_loop_cv"; "p"; "c"; lit a; lit b; lit c; lit f; lit e;
        "nscans(" +:+ str n +:+ ")"; "poly_we(1"; "b)"].
Proof.
  rewrite <- CV_bipot_loop_words.
  eapply instruction_lines; [apply CV_bipot_text_lines|]. vm_compute. reflexivity.
Qed.

Lemma call_arg_nscans k : call_arg "nscans" ("nscans(" +:+ str k +:+ ")") = Some (str k).
Proof.
  unfold call_arg.
  change (strip_prefix ("nscans" +:+ "(") ("nscans(" +:+ str k +:+ ")"))
    with (Some (str k +:+ ")")).
  cbv beta iota. rewrite (split_on_sep ")" (str k) "").
  - reflexivity.
  - apply numeral_no_char; [reflexivity|apply str_numeral].
Qed.

Lemma CV_nscans a b c e f n : nscans (CV_text a b c e f n) = Some (str (n - 1)).
Proof.
  unfold nscans. rewrite CV_instruction. cbn [mbind option_bind find].
  rewrite !(starts_with_lit "n") by reflexivity.
  apply call_arg_nscans.
Qed.

Lemma CV_bipot_nscans z a b c e f n :
  nscans (CV_bipot_text z a b c e f n) = Some (str n).
Proof.
  unfold nscans. rewrite CV_bipot_instruction. cbn [mbind option_bind find].
  rewrite !(starts_with_lit "n") by reflexivity.
  apply call_arg_nscans.
Qed.

(** *** The other generators *)

(** Take one [int(x*1000)] of a run that returned. *)
Ltac convert_in H x z Hz :=
  destruct (converts_or_raises x) as [[z Hz]|[?Hr|?Hr]];
  [rewrite (milli_converts _ _ Hz) in H|rewrite Hr in H; run_in H; done..].

(** Take one [limits] of a run that returned. *)
Ltac limits_in H x Hx :=
  destruct (in_envelope x) eqn:Hx;
  [rewrite (limits_pass _ _ _ Hx) in H|rewrite (limits_fail _ _ _ Hx) in H; run_in H; done].

Lemma LSV_init_inv Eini Efin sr dE sens f0 w w1 :
  generate (LSV_parameters Eini Efin sr dE sens) f0 w = (Ret tt, w1) ->
  exists a b e f,
    converts Eini a /\ converts Efin b /\ converts sr e /\ converts dE f /\
    in_envelope Eini = true /\ in_envelope Efin = true /\
    script w1 = LSV_text a b e f.
Proof.
  intros H. cbn [generate] in H.
  unfold LSV.__init__, LSV.validate, str_attr, str_getattr in H.
  convert_in H Eini a Ha. convert_in H Efin b Hb.
  convert_in H sr e He. convert_in H dE f Hf.
  limits_in H Eini H1. limits_in H Efin H2.
  run_in H. exists a, b, e, f. simplify_eq.
  unfold script, attr_text. cbn [self]. by rewrite lookup_insert_eq.
Qed.

Lemma LSV_init_ok Eini Efin sr dE sens f0 w a b e f :
  converts Eini a -> converts Efin b -> converts sr e -> converts dE f ->
  in_envelope Eini = true -> in_envelope Efin = true ->
  exists w1,
    generate (LSV_parameters Eini Efin sr dE sens) f0 w = (Ret tt, w1) /\
    script w1 = LSV_text a b e f.
Proof.
  intros Ha Hb He Hf H1 H2. eexists. split.
  - cbn [generate]. unfold LSV.__init__, LSV.validate, str_attr, str_getattr.
    rewrite (milli_converts _ _ Ha), (milli_converts _ _ Hb), (milli_converts _ _ He),
      (milli_converts _ _ Hf), !limits_pass by done.
    run. reflexivity.
  - unfold script, attr_text. cbn [self]. by rewrite lookup_insert_eq.
Qed.

Lemma CA_init_inv Estep dt ttot sens f0 w w1 :
  generate (CA_parameters Estep dt ttot sens) f0 w = (Ret tt, w1) ->
  exists a t1 t2,
    converts Estep a /\ converts dt t1 /\ converts ttot t2 /\
    in_envelope Estep = true /\
    script w1 = CA_text a t1 t2.
Proof.
  intros H. cbn [generate] in H.
  unfold CA.__init__, CA.validate, str_attr, str_getattr in H.
  convert_in H Estep a Ha. convert_in H dt t1 H1. convert_in H ttot t2 H2.
  limits_in H Estep He.
  run_in H. exists a, t1, t2. simplify_eq.
  unfold script, attr_text. cbn [self]. by rewrite lookup_insert_eq.
Qed.

Lemma CA_init_ok Estep dt ttot sens f0 w a t1 t2 :
  converts Estep a -> converts dt t1 -> converts ttot t2 ->
  in_envelope Estep = true ->
  exists w1,
    generate (CA_parameters Estep dt ttot sens) f0 w = (Ret tt, w1) /\
    script w1 = CA_text a t1 t2.
Proof.
  intros Ha H1 H2 He. eexists. split.
  - cbn [generate]. unfold CA.__init__, CA.validate, str_attr, str_getattr.
    rewrite (milli_converts _ _ Ha), (milli_converts _ _ H1), (milli_converts _ _ H2),
      !limits_pass by done.
    run. reflexivity.
  - unfold script, attr_text. cbn [self]. by rewrite lookup_insert_eq.
Qed.

Lemma OCP_init_inv ttot dt f0 w w1 :
  generate (OCP_parameters ttot dt) f0 w = (Ret tt, w1) ->
  exists t1 t2,
    converts dt t1 /\ converts ttot t2 /\ script w1 = OCP_text t1 t2.
Proof.
  intros H. cbn [generate] in H.
  unfold OCP.__init__, OCP.validate, str_attr, str_getattr in H.
  convert_in H dt t1 H1. convert_in H ttot t2 H2.
  run_in H. exists t1, t2. simplify_eq.
  unfold script, attr_text. cbn [self]. by rewrite lookup_insert_eq.
Qed.

Lemma OCP_init_ok ttot dt f0 w t1 t2 :
  converts dt t1 -> converts ttot t2 ->
  exists w1,
    generate (OCP_parameters ttot dt) f0 w = (Ret tt, w1) /\
    script w1 = OCP_text t1 t2.
Proof.
  intros H1 H2. eexists. split.
  - cbn [generate]. unfold OCP.__init__, OCP.validate, str_attr, str_getattr.
    rewrite (milli_converts _ _ H1), (milli_converts _ _ H2).
    run. reflexivity.
  - unfold script, attr_text. cbn [self]. by rewrite lookup_insert_eq.
Qed.

Lemma LSV_text_lines a b e f :
  lines (LSV_text a b e f) =
  ["e"; "var c"; "var p"; "var a";
   "set_pgstat_mode 4"; "set_autoranging ba 100n 5m"; "set_e " +:+ str a +:+ "m";
   "cell_on"; "timer_start";
   "meas_loop_lsv p c " +:+ str a +:+ "m " +:+ str b +:+ "m " +:+
     str f +:+ "m " +:+ str e +:+ "m";
   tab "pck_start"; tab "timer_get a"; tab "pck_add a"; tab "pck_add p";
   tab "pck_add c"; tab "pck_end"; "endloop"; "on_finished:"; "cell_off"; ""; ""].
Proof.
  unfold lines, LSV_text, LSV.ini, LSV.pre_body, LSV.body. split_text LF.
Qed.

Lemma CA_text_lines a t1 t2 :
  lines (CA_text a t1 t2) =
  ["e"; "var p"; "var c"; "var a";
   "set_pgstat_mode 3"; "set_autoranging ba 100n 5m"; "set_e " +:+ str a +:+ "m";
   "cell_on"; "timer_start";
   "meas_loop_ca p c " +:+ str a +:+ "m " +:+ str t1 +:+ "m " +:+ str t2 +:+ "m";
   tab "pck_start"; tab "timer_get a"; tab "pck_add a"; tab "pck_add p";
   tab "pck_add c"; tab "pck_end"; tab "endloop"; "on_finished:"; "cell_off"; ""; ""].
Proof.
  unfold lines, CA_text, CA.ini, CA.pre_body, CA.body. split_text LF.
Qed.

Lemma OCP_text_lines t1 t2 :
  lines (OCP_text t1 t2) =
  ["e"; "var p"; "var a";
   "set_pgstat_mode 4"; "cell_off"; "timer_start";
   "meas_loop_ocp p " +:+ str t1 +:+ "m " +:+ str t2 +:+ "m ";
   tab "pck_start"; tab "timer_get a"; tab "pck_add a"; tab "pck_add p";
   tab "pck_end"; "endloop"; "on_finished:"; "cell_off"; ""; ""].
Proof.
  unfold lines, OCP_text, OCP.ini, OCP.pre_body, OCP.body. split_text LF.
Qed.

Lemma set_e_words a : words ("set_e " +:+ str a +:+ "m") = ["set_e"; lit a].
Proof. unfold words, lit. split_text " "%char. Qed.

Lemma LSV_loop_words a b e f :
  words ("meas_loop_lsv p c " +:+ str a +:+ "m " +:+ str b +:+ "m " +:+
         str f +:+ "m " +:+ str e +:+ "m") =
  ["meas_loop_lsv"; "p"; "c"; lit a; lit b; lit f; lit e].
Proof. unfold words, lit. split_text " "%char. Qed.

Lemma CA_loop_words a t1 t2 :
  words ("meas_loop_ca p c " +:+ str a +:+ "m " +:+ str t1 +:+ "m " +:+ str t2 +:+ "m") =
  ["meas_loop_ca"; "p"; "c"; lit a; lit t1; lit t2].
Proof. unfold words, lit. split_text " "%char. Qed.

Lemma OCP_loop_words t1 t2 :
  words ("meas_loop_ocp p " +:+ str t1 +:+ "m " +:+ str t2 +:+ "m ") =
  ["meas_loop_ocp"; "p"; lit t1; lit t2; ""].
Proof. unfold words, lit. split_text " "%char. Qed.

(** The words of the instruction with a mnemonic, from the lines of the
    text and the words of the instruction's line. *)
Ltac the_instruction Hlines Hwords :=
  rewrite <- Hwords; eapply instruction_lines;
  [apply Hlines|vm_compute; reflexivity].

(** Keep the literals of an instruction whose words are known. *)
Ltac keep_literals :=
  cbn [fmap option_fmap option_map List.filter];
  rewrite ?milli_literal_lit; reflexivity.

Lemma CV_operands a b c e f n :
  operands "meas_loop_" (CV_text a b c e f n) = Some [lit a; lit b; lit c; lit f; lit e] /\
  operands "set_e " (CV_text a b c e f n) = Some [lit a].
Proof.
  unfold operands. split.
  - assert (instruction "meas_loop_" (CV_text a b c e f n) = Some ["meas_loop_cv"; "p"; "c"; lit a; lit b; lit c; lit f; lit e;
                   "nscans(" +:+ str (n - 1) +:+ ")"]) as ->
      by the_instruction CV_text_lines CV_loop_words.
    keep_literals.
  - assert (instruction "set_e " (CV_text a b c e f n) = Some ["set_e"; lit a]) as ->
      by the_instruction CV_text_lines set_e_words.
    keep_literals.
Qed.

Lemma LSV_operands a b e f :
  operands "meas_loop_" (LSV_text a b e f) = Some [lit a; lit b; lit f; lit e] /\
  operands "set_e " (LSV_text a b e f) = Some [lit a].
Proof.
  unfold operands. split.
  - assert (instruction "meas_loop_" (LSV_text a b e f) = Some ["meas_loop_lsv"; "p"; "c"; lit a; lit b; lit f; lit e]) as ->
      by the_instruction LSV_text_lines LSV_loop_words.
    keep_literals.
  - assert (instruction "set_e " (LSV_text a b e f) = Some ["set_e"; lit a]) as ->
      by the_instruction LSV_text_lines set_e_words.
    keep_literals.
Qed.

Lemma CA_operands a t1 t2 :
  operands "meas_loop_" (CA_text a t1 t2) = Some [lit a; lit t1; lit t2] /\
  operands "set_e " (CA_text a t1 t2) = Some [lit a].
Proof.
  unfold operands. split.
  - assert (instruction "meas_loop_" (CA_text a t1 t2) = Some ["meas_loop_ca"; "p"; "c"; lit a; lit t1; lit t2]) as ->
      by the_instruction CA_text_lines CA_loop_words.
    keep_literals.
  - assert (instruction "set_e " (CA_text a t1 t2) = Some ["set_e"; lit a]) as ->
      by the_instruction CA_text_lines set_e_words.
    keep_literals.
Qed.

Lemma OCP_operands t1 t2 :
  operands "meas_loop_" (OCP_text t1 t2) = Some [lit t1; lit t2] /\
  operands "set_e " (OCP_text t1 t2) = None.
Proof.
  unfold operands. split.
  - assert (instruction "meas_loop_" (OCP_text t1 t2) = Some ["meas_loop_ocp"; "p"; lit t1; lit t2; ""]) as ->
      by the_instruction OCP_text_lines OCP_loop_words.
    keep_literals.
  - unfold instruction. rewrite OCP_text_lines. reflexivity.
Qed.

(** *** The preambles, channel by channel *)

Lemma CV_pre_body_lines a :
  lines (CV.pre_body (str a)) =
  ["set_pgstat_mode 4"; "set_autoranging ba 100n 5m"; "set_e " +:+ lit a;
   "cell_on"; "wait 2"; "timer_start"].
Proof. unfold lines, CV.pre_body, lit. split_text LF. Qed.

Lemma CV_bipot_pre_body_lines z a :
  lines (CV.bipot_pre_body (str z) (str a)) =
  ["var b"; "set_pgstat_chan 1"; "set_pgstat_mode 5"; "set_poly_we_mode 0";
   "set_e " +:+ lit z; "set_autoranging ba 100n 5m";
   "set_pgstat_chan 0"; "set_pgstat_mode 2"; "set_autoranging ba 100n 5m";
   "set_e " +:+ lit a; "timer_start"; "cell_on"].
Proof. unfold lines, CV.bipot_pre_body, lit. split_text LF. Qed.

Lemma CV_pre_body_channel0 a :
  channel_config "0" (CV.pre_body (str a)) =
  ["set_pgstat_mode 4"; "set_autoranging ba 100n 5m"; "set_e " +:+ lit a].
Proof. unfold channel_config. rewrite CV_pre_body_lines. vm_compute. reflexivity. Qed.

Lemma CV_bipot_pre_body_channels z a :
  channel_config "1" (CV.bipot_pre_body (str z) (str a)) =
    ["set_pgstat_mode 5"; "set_poly_we_mode 0"; "set_e " +:+ lit z;
     "set_autoranging ba 100n 5m"] /\
  channel_config "0" (CV.bipot_pre_body (str z) (str a)) =
    ["set_pgstat_mode 2"; "set_autoranging ba 100n 5m"; "set_e " +:+ lit a].
Proof.
  unfold channel_config. rewrite CV_bipot_pre_body_lines.
  split; vm_compute; reflexivity.
Qed.

End Generators.

(** ** The dispatcher *)

Section Dispatcher.

Import potentiostat.

Context `{Chi}.

(** [bipot] on an LSV technique: the error of the generator's [bipot]
    passes through; [text] and [bpot] keep their values. *)
Lemma Technique_bipot_LSV E sens o w :
  self w !! "technique" = Some (VStr "LSV") ->
  self w !! "tech" = Some (VObj "emstatpico.LSV" o) ->
  Technique.bipot E sens w =
  (Raise (NameError "info"),
   State (<["tech" := VObj "emstatpico.LSV" o]> (self w)) (stdout w)).
Proof.
  intros Ht Ho. unfold Technique.bipot, getattr.
  rewrite run_bind, Ht. cbn [in_strs]. rewrite bool_decide_eq_true_2 by set_solver.
  rewrite run_bind. unfold call_attr. rewrite Ho. reflexivity.
Qed.

End Dispatcher.

(** ** The properties of the specification *)

Section Claims.

Import emstatpico Script.

(** C1.  The scan-count literal of the sweep loop.  For every CV object
    that [__init__] has built, the single-channel program carries
    [nscans(nSweeps - 1)]; the program that [bipot] writes afterwards
    carries [nscans(nSweeps)], which is a different literal: the
    bipotentiostat body drops the [- 1] of the original loop. *)
Theorem CV_scan_count_literal Eini Ev1 Ev2 Efin sr dE n sens f0 E sens2 w w1 w2 :
  generate (CV_parameters Eini Ev1 Ev2 Efin sr dE n sens) f0 w = (Ret tt, w1) ->
  CV.bipot E sens2 w1 = (Ret tt, w2) ->
  nscans (script w1) = Some (str (n - 1)) /\
  nscans (script w2) = Some (str n) /\
  nscans (script w2) <> Some (str (n - 1)).
Proof.
  intros H1 H2.
  apply CV_init_inv in H1
    as (a & b & c & d & e & f & _ & _ & _ & _ & _ & _ & _ & _ & _ & _ & ->).
  apply CV_bipot_inv in H2 as (z & _ & _ & ->).
  rewrite script_built, script_extended, CV_nscans, CV_bipot_nscans.
  split; [done|]. split; [done|].
  intros [= Heq%str_inj]. lia.
Qed.

Lemma CV_scan_count_literal_witness :
  nscans (script built) = Some (str (2 - 1)) /\
  nscans (script extended) = Some (str 2) /\
  nscans (script extended) <> Some (str (2 - 1)).
Proof.
  apply (CV_scan_count_literal (float_lit (-2) 1) (float_lit 2 1) (float_lit (-2) 1)
           (float_lit (-2) 1) (float_lit 1 1) (float_lit 1 3) 2 (float_lit 1 6)
           default_filing (float_lit (-2) 1) (float_lit 1 6) fresh built extended);
    vm_compute; reflexivity.
Defined.

(** C2.  [Info.limits] raises its out-of-range exception exactly when the
    number that the value stands for lies strictly outside [low, high], and
    returns, changing nothing, exactly when it does not.  In particular
    [E_min] and [E_max] themselves pass, and [E_min - 0.001] is rejected. *)
Theorem limits_raises_iff_outside val low high label units w :
  valid val -> valid low -> valid high ->
  (Info.limits val low high label units w =
     (Raise (Info.out_of_range val low high label units), w) <->
   outside val low high) /\
  (Info.limits val low high label units w = (Ret tt, w) <-> ~ outside val low high) /\
  Info.limits Info.E_min Info.E_min Info.E_max label units w = (Ret tt, w) /\
  Info.limits Info.E_max Info.E_min Info.E_max label units w = (Ret tt, w) /\
  Info.limits (fsub Info.E_min (float_lit 1 3)) Info.E_min Info.E_max label units w =
    (Raise (Info.out_of_range (fsub Info.E_min (float_lit 1 3)) Info.E_min Info.E_max
              label units), w).
Proof.
  intros Hv Hl Hh.
  assert (flt val low || fgt val high = true <-> outside val low high) as Hout.
  { unfold outside. rewrite orb_true_iff, (flt_below _ _ Hv Hl), (fgt_below _ _ Hv Hh).
    reflexivity. }
  unfold Info.limits. split; [|split; [|split; [|split]]]; try reflexivity.
  - destruct (flt val low || fgt val high).
    + split; [intros _; by apply Hout|done].
    + split; [done|]. by intros Ho%Hout.
  - destruct (flt val low || fgt val high).
    + split; [done|]. intros Hno. destruct Hno. by apply Hout.
    + split; [|done]. by intros _ Ho%Hout.
Qed.

Lemma limits_raises_iff_outside_witness :
  (Info.limits (float_lit 25 1) Info.E_min Info.E_max "Eini" "V" fresh =
     (Raise (Info.out_of_range (float_lit 25 1) Info.E_min Info.E_max "Eini" "V"), fresh)
   <-> outside (float_lit 25 1) Info.E_min Info.E_max) /\
  (Info.limits (float_lit 25 1) Info.E_min Info.E_max "Eini" "V" fresh = (Ret tt, fresh)
   <-> ~ outside (float_lit 25 1) Info.E_min Info.E_max) /\
  Info.limits Info.E_min Info.E_min Info.E_max "Eini" "V" fresh = (Ret tt, fresh) /\
  Info.limits Info.E_max Info.E_min Info.E_max "Eini" "V" fresh = (Ret tt, fresh) /\
  Info.limits (fsub Info.E_min (float_lit 1 3)) Info.E_min Info.E_max "Eini" "V" fresh =
    (Raise (Info.out_of_range (fsub Info.E_min (float_lit 1 3)) Info.E_min Info.E_max
              "Eini" "V"), fresh).
Proof.
  apply (limits_raises_iff_outside (float_lit 25 1) Info.E_min Info.E_max "Eini" "V" fresh);
    reflexivity.
Defined.

(** C3, as stated, fails.  With [Eini] = 1.001 the product [Eini*1000] is
    the float just below 1001: the program carries [1000m], while rounding
    gives 1001. *)
Lemma literal_is_not_rounded :
  exists w1,
    generate scenario_1001 default_filing fresh = (Ret tt, w1) /\
    operands "meas_loop_" (script w1) = Some ["1000m"; "200m"; "-200m"; "1m"; "100m"] /\
    rounds (float_lit 1001 3) 1001 /\
    ~ loop_literals rounds scenario_1001 (script w1).
Proof.
  eexists. split; [vm_compute; reflexivity|].
  split; [vm_compute; reflexivity|]. split; [vm_compute; reflexivity|].
  intros (zs & Hzs & Hops).
  assert (operands "meas_loop_"
            (script (snd (generate scenario_1001 default_filing fresh))) =
          Some ["1000m"; "200m"; "-200m"; "1m"; "100m"]) as Hreal
    by (vm_compute; reflexivity).
  change (script _) with (script (snd (generate scenario_1001 default_filing fresh)))
    in Hops.
  rewrite Hreal in Hops.
  cbn [embedded scenario_1001] in Hzs.
  inversion Hzs as [|x z xs zs' Hz Hrest]; subst.
  assert (z = 1001) as -> by (unfold rounds in Hz; vm_compute in Hz; congruence).
  cbn [map] in Hops. injection Hops as Hhd _. vm_compute in Hhd. discriminate Hhd.
Qed.

(** C3, amended.  Whenever a generator of the millivolt dialect (CV, LSV,
    CA, OCP) returns, the operands of its loop instruction are, in order,
    the integers [int(x*1000)] of the physical values it embeds, each
    followed by the suffix [m], and so is the operand of [set_e] in the
    preamble: the product is truncated toward zero, not rounded. *)
Theorem literals_truncate p f0 w w1 :
  generate p f0 w = (Ret tt, w1) ->
  loop_literals converts p (script w1) /\ set_e_literal converts p (script w1).
Proof.
  intros Hrun. unfold loop_literals, set_e_literal. destruct p.
  - apply CV_init_inv in Hrun
      as (a & b & c & d & e & f & Ha & Hb & Hc & Hd & He & Hf & _ & _ & _ & _ & ->).
    rewrite script_built. destruct (CV_operands a b c e f nSweeps) as [-> ->].
    split; [exists [a; b; c; f; e]|exists [a]];
      (split; [by repeat (constructor; try assumption)|reflexivity]).
  - apply LSV_init_inv in Hrun as (a & b & e & f & Ha & Hb & He & Hf & _ & _ & ->).
    destruct (LSV_operands a b e f) as [-> ->].
    split; [exists [a; b; f; e]|exists [a]];
      (split; [by repeat (constructor; try assumption)|reflexivity]).
  - apply CA_init_inv in Hrun as (a & t1 & t2 & Ha & H1 & H2 & _ & ->).
    destruct (CA_operands a t1 t2) as [-> ->].
    split; [exists [a; t1; t2]|exists [a]];
      (split; [by repeat (constructor; try assumption)|reflexivity]).
  - apply OCP_init_inv in Hrun as (t1 & t2 & H1 & H2 & ->).
    destruct (OCP_operands t1 t2) as [-> ->].
    split; [exists [t1; t2]|exists []];
      (split; [by repeat (constructor; try assumption)|reflexivity]).
Qed.

Lemma literals_truncate_witness :
  loop_literals converts scenario_1001
    (script (snd (generate scenario_1001 default_filing fresh))) /\
  set_e_literal converts scenario_1001
    (script (snd (generate scenario_1001 default_filing fresh))).
Proof.
  apply (literals_truncate scenario_1001 default_filing fresh
           (snd (generate scenario_1001 default_filing fresh))).
  vm_compute. reflexivity.
Defined.

(** C4.  The scenario (Eini = -0.2, Ev1 = 0.2, Ev2 = -0.2, Efin = -0.2,
    sr = 0.1, dE = 0.001, nSweeps = 2) generates; its loop instruction
    carries the literals -200m, 200m, -200m, 1m, 100m and the scan count
    1. *)
Theorem scenario_loop_instruction :
  exists w1,
    generate scenario default_filing fresh = (Ret tt, w1) /\
    instruction "meas_loop_cv" (script w1) =
      Some ["meas_loop_cv"; "p"; "c"; "-200m"; "200m"; "-200m"; "1m"; "100m";
            "nscans(1)"] /\
    nscans (script w1) = Some "1".
Proof.
  eexists. split; [vm_compute; reflexivity|]. split; vm_compute; reflexivity.
Qed.

(** C6.  [LSV.bipot] never reaches the validation of the second
    potential: whatever the object and the arguments, looking up the name
    [info] raises [NameError] and the object is left as it was. *)
Theorem LSV_bipot_raises_NameError E sens w :
  LSV.bipot E sens w = (Raise (NameError "info"), w).
Proof. reflexivity. Qed.

(** C7, as stated, fails.  With [Eini] = 1e306, a potential above the
    envelope, [int(Eini*1000)] raises [OverflowError] in the first
    statement of [__init__]: validation is not reached and [text] has not
    been assigned. *)
Lemma CV_overflow_before_text :
  in_envelope huge = false /\
  exists w1,
    generate scenario_huge default_filing fresh = (Raise OverflowError, w1) /\
    self w1 !! "text" = None.
Proof.
  split; [vm_compute; reflexivity|].
  eexists. split; vm_compute; reflexivity.
Qed.

(** C7, amended.  When a potential of a CV parameter set is outside the
    envelope, [__init__] raises before any script text is assembled:
    [ini], [pre_body] and [body] are not assigned and nothing is printed.
    Either validation raises the out-of-range exception for such a
    potential, and [text] is the empty string; or a conversion
    [int(x*1000)] raises [ValueError] or [OverflowError] before that, and
    [text] has not been assigned. *)
Theorem CV_out_of_range_no_script Eini Ev1 Ev2 Efin sr dE n sens f0 w :
  in_envelope Eini && in_envelope Ev1 && in_envelope Ev2 && in_envelope Efin = false ->
  exists e w1,
    generate (CV_parameters Eini Ev1 Ev2 Efin sr dE n sens) f0 w = (Raise e, w1) /\
    stdout w1 = stdout w /\
    (forall k, In k ["ini"; "pre_body"; "body"] -> self w1 !! k = self w !! k) /\
    ((exists x label, e = Info.out_of_range x Info.E_min Info.E_max label "V" /\
        In x [Eini; Ev1; Ev2; Efin] /\ in_envelope x = false /\
        self w1 !! "text" = Some (VStr "")) \/
     ((e = ValueError \/ e = OverflowError) /\ self w1 !! "text" = self w !! "text")).
Proof.
  intros Hout.
  destruct (classic_convert Eini Ev1 Ev2 Efin sr dE)
    as [(a & b & c & d & e & f & Ha & Hb & Hc & Hd & He & Hf)|Hno].
  - destruct (CV_init_out_of_range Eini Ev1 Ev2 Efin sr dE n sens f0 a b c d e f w)
      as (x & label & Hrun & Hin & Hx); try done.
    eexists _, _. split; [exact Hrun|]. split; [done|]. split.
    + intros k Hk. cbn [self]. unfold CV_stored.
      rewrite !lookup_insert_ne; [done|cbn in Hk; intuition (subst; done)..].
    + left. exists x, label. split; [done|]. split; [done|]. split; [done|].
      cbn [self]. unfold CV_stored. by rewrite lookup_insert_eq.
  - destruct (CV_init_unconverted Eini Ev1 Ev2 Efin sr dE n sens f0 w Hno)
      as (e & w1 & Hrun & He & Hk & Hs).
    exists e, w1. split; [done|]. split; [done|]. split.
    + intros k Hin. apply Hk. cbn in Hin |- *. tauto.
    + right. split; [done|]. apply Hk. by left.
Qed.

Lemma CV_out_of_range_no_script_witness :
  exists e w1,
    generate scenario_high default_filing fresh = (Raise e, w1) /\
    stdout w1 = stdout fresh /\
    (forall k, In k ["ini"; "pre_body"; "body"] -> self w1 !! k = self fresh !! k) /\
    ((exists x label, e = Info.out_of_range x Info.E_min Info.E_max label "V" /\
        In x [float_lit 25 1; float_lit 2 1; float_lit (-2) 1; float_lit (-2) 1] /\
        in_envelope x = false /\
        self w1 !! "text" = Some (VStr "")) \/
     ((e = ValueError \/ e = OverflowError) /\ self w1 !! "text" = self fresh !! "text")).
Proof.
  apply (CV_out_of_range_no_script (float_lit 25 1) (float_lit 2 1) (float_lit (-2) 1)
           (float_lit (-2) 1) (float_lit 1 1) (float_lit 1 3) 2 (float_lit 1 6)
           default_filing fresh).
  vm_compute. reflexivity.
Defined.

(** C8, as stated, fails.  In the scenario, with second potential -0.2,
    the instructions that the new preamble addresses to channel 0 differ
    from those of the original preamble: the mode is 2, it was 4. *)
Lemma bipot_changes_channel_0_mode :
  generate scenario default_filing fresh = (Ret tt, built) /\
  CV.bipot (float_lit (-2) 1) (float_lit 1 6) built = (Ret tt, extended) /\
  in_range (float_lit (-2) 1) = true /\
  channel_config "0" (attr_text "pre_body" built) =
    ["set_pgstat_mode 4"; "set_autoranging ba 100n 5m"; "set_e -200m"] /\
  channel_config "0" (attr_text "pre_body" extended) =
    ["set_pgstat_mode 2"; "set_autoranging ba 100n 5m"; "set_e -200m"] /\
  channel_config "0" (attr_text "pre_body" extended) <>
  channel_config "0" (attr_text "pre_body" built).
Proof.
  split; [vm_compute; reflexivity|].
  split; [vm_compute; reflexivity|]. split; [vm_compute; reflexivity|].
  split; [vm_compute; reflexivity|]. split; [vm_compute; reflexivity|].
  vm_compute. discriminate.
Qed.

(** C8, amended.  For every CV object that [__init__] has built and every
    second potential [E] with [E_min <= E <= E_max], [bipot] returns; its
    new preamble puts channel 1 in mode 5 (poly_we mode 0) with [set_e] at
    [int(E*1000)] and the autoranging of the original, then addresses
    channel 0 with the autoranging and the [set_e] at [Eini] of the
    original preamble, but with mode 2 where the original has mode 4.
    The lines of the two preambles are given in their order: the block
    of channel 1 comes first, that of channel 0 after it. *)
Theorem bipot_preamble Eini Ev1 Ev2 Efin sr dE n sens f0 E sens2 w w1 :
  generate (CV_parameters Eini Ev1 Ev2 Efin sr dE n sens) f0 w = (Ret tt, w1) ->
  valid E -> in_range E = true ->
  exists w2 z a,
    CV.bipot E sens2 w1 = (Ret tt, w2) /\ converts E z /\ converts Eini a /\
    lines (attr_text "pre_body" w2) =
      ["var b"; "set_pgstat_chan 1"; "set_pgstat_mode 5"; "set_poly_we_mode 0";
       "set_e " +:+ lit z; "set_autoranging ba 100n 5m";
       "set_pgstat_chan 0"; "set_pgstat_mode 2"; "set_autoranging ba 100n 5m";
       "set_e " +:+ lit a; "timer_start"; "cell_on"] /\
    lines (attr_text "pre_body" w1) =
      ["set_pgstat_mode 4"; "set_autoranging ba 100n 5m"; "set_e " +:+ lit a;
       "cell_on"; "wait 2"; "timer_start"] /\
    channel_config "1" (attr_text "pre_body" w2) =
      ["set_pgstat_mode 5"; "set_poly_we_mode 0"; "set_e " +:+ lit z;
       "set_autoranging ba 100n 5m"] /\
    channel_config "0" (attr_text "pre_body" w2) =
      ["set_pgstat_mode 2"; "set_autoranging ba 100n 5m"; "set_e " +:+ lit a] /\
    channel_config "0" (attr_text "pre_body" w1) =
      ["set_pgstat_mode 4"; "set_autoranging ba 100n 5m"; "set_e " +:+ lit a].
Proof.
  intros Hrun HE Hr.
  apply CV_init_inv in Hrun
    as (a & b & c & d & e & f & Ha & _ & _ & _ & _ & _ & _ & _ & _ & _ & ->).
  destruct (in_range_converts E HE Hr) as [z Hz].
  pose proof (in_range_envelope E HE Hr) as Henv.
  eexists _, z, a. split; [by apply CV_bipot_ok|].
  split; [done|]. split; [done|].
  rewrite pre_body_extended, pre_body_built.
  split; [apply CV_bipot_pre_body_lines|]. split; [apply CV_pre_body_lines|].
  destruct (CV_bipot_pre_body_channels z a) as [-> ->].
  by rewrite CV_pre_body_channel0.
Qed.

Lemma bipot_preamble_witness :
  exists w2 z a,
    CV.bipot (float_lit (-2) 1) (float_lit 1 6) built = (Ret tt, w2) /\
    converts (float_lit (-2) 1) z /\ converts (float_lit (-2) 1) a /\
    lines (attr_text "pre_body" w2) =
      ["var b"; "set_pgstat_chan 1"; "set_pgstat_mode 5"; "set_poly_we_mode 0";
       "set_e " +:+ lit z; "set_autoranging ba 100n 5m";
       "set_pgstat_chan 0"; "set_pgstat_mode 2"; "set_autoranging ba 100n 5m";
       "set_e " +:+ lit a; "timer_start"; "cell_on"] /\
    lines (attr_text "pre_body" built) =
      ["set_pgstat_mode 4"; "set_autoranging ba 100n 5m"; "set_e " +:+ lit a;
       "cell_on"; "wait 2"; "timer_start"] /\
    channel_config "1" (attr_text "pre_body" w2) =
      ["set_pgstat_mode 5"; "set_poly_we_mode 0"; "set_e " +:+ lit z;
       "set_autoranging ba 100n 5m"] /\
    channel_config "0" (attr_text "pre_body" w2) =
      ["set_pgstat_mode 2"; "set_autoranging ba 100n 5m"; "set_e " +:+ lit a] /\
    channel_config "0" (attr_text "pre_body" built) =
      ["set_pgstat_mode 4"; "set_autoranging ba 100n 5m"; "set_e " +:+ lit a].
Proof.
  apply (bipot_preamble (float_lit (-2) 1) (float_lit 2 1) (float_lit (-2) 1)
           (float_lit (-2) 1) (float_lit 1 1) (float_lit 1 3) 2 (float_lit 1 6)
           default_filing (float_lit (-2) 1) (float_lit 1 6) fresh built);
    vm_compute; reflexivity.
Defined.

(** C9, as stated, fails.  The scenario with [sr] = 1e306 passes
    validation, which checks the potentials only, yet its generation
    fails: [int(sr*1000)] raises [OverflowError], an error that does not
    come from the validator. *)
Lemma generation_fails_after_valid_potentials :
  (exists w0, CV.validate (float_lit (-2) 1) (float_lit 2 1) (float_lit (-2) 1)
                (float_lit (-2) 1) huge (float_lit 1 3) 2 (float_lit 1 6) fresh =
              (Ret tt, w0)) /\
  exists w1, generate scenario_fast default_filing fresh = (Raise OverflowError, w1).
Proof.
  split; eexists; vm_compute; reflexivity.
Qed.

(** C9, amended.  Generation is deterministic in the technique parameters:
    if a generation returns, then every generation with the same
    parameters returns too, whatever the folder, file name and header and
    whatever the object and the output were before, and it produces the
    same program text. *)
Theorem generation_deterministic p f0 f1 w w' w1 :
  generate p f0 w = (Ret tt, w1) ->
  exists w1', generate p f1 w' = (Ret tt, w1') /\ script w1' = script w1.
Proof.
  intros Hrun. destruct p.
  - apply CV_init_inv in Hrun
      as (a & b & c & d & e & f & Ha & Hb & Hc & Hd & He & Hf & H1 & H2 & H3 & H4 & ->).
    eexists. split; [by apply (CV_init_ok _ _ _ _ _ _ _ _ _ a b c d e f)|].
    by rewrite !script_built.
  - apply LSV_init_inv in Hrun as (a & b & e & f & Ha & Hb & He & Hf & H1 & H2 & ->).
    by apply LSV_init_ok.
  - apply CA_init_inv in Hrun as (a & t1 & t2 & Ha & H1 & H2 & He & ->).
    by apply CA_init_ok.
  - apply OCP_init_inv in Hrun as (t1 & t2 & H1 & H2 & ->).
    by apply OCP_init_ok.
Qed.

Lemma generation_deterministic_witness :
  exists w1',
    generate scenario (Filing (VStr "data") "run2" "second run" VNone (VInt 2) (VInt 0)) built =
      (Ret tt, w1') /\
    script w1' = script built.
Proof.
  apply (generation_deterministic scenario default_filing
           (Filing (VStr "data") "run2" "second run" VNone (VInt 2) (VInt 0)) fresh built built).
  vm_compute. reflexivity.
Defined.

End Claims.

Section DispatcherClaims.

Import potentiostat.

Context `{Chi}.

(** C5.  [Technique.bipot] on a technique whose name is not in
    [BIPOT_TECHNIQUES] returns without raising: it prints that the
    technique does not have bipotentiostat mode and leaves every attribute
    of the object, [text] and [bpot] among them, as it was. *)
Theorem bipot_unsupported_technique (t : string) E sens w :
  self w !! "technique" = Some (VStr t) ->
  bool_decide (t ∈ BIPOT_TECHNIQUES) = false ->
  Technique.bipot E sens w =
  (Ret tt, State (self w) (stdout w ++ [t +:+ " does not have bipotentiostat mode"])).
Proof.
  intros Ht Hn. unfold Technique.bipot, getattr.
  rewrite run_bind, Ht. cbn [in_strs]. rewrite Hn.
  rewrite run_bind, Ht. reflexivity.
Qed.

(** C10.  Constructing a technique through any class of the dispatcher
    fails with [AttributeError] on [model_pstat]: the initializer reads
    the attribute before the base initializer, which assigns it, has run.
    Nothing is printed and no generator object is made; for [CV] the new
    object holds [header] and [technique] only when the error is raised. *)
Theorem dispatcher_reads_unset_model_pstat instrument fileName header kw w :
  (forall Eini Ev1 Ev2 Efin sr dE nSweeps sens,
     new "potentiostat.CV"
       (CV.__init__ instrument Eini Ev1 Ev2 Efin sr dE nSweeps sens fileName header kw) w
     = (Raise (AttributeError "model_pstat"), w) /\
     CV.__init__ instrument Eini Ev1 Ev2 Efin sr dE nSweeps sens fileName header kw
       (State ∅ (stdout w))
     = (Raise (AttributeError "model_pstat"),
        State (<["technique" := VStr "CV"]> (<["header" := VStr header]> ∅)) (stdout w))) /\
  (forall Eini Efin sr dE sens,
     new "potentiostat.LSV" (LSV.__init__ instrument Eini Efin sr dE sens fileName header kw) w
     = (Raise (AttributeError "model_pstat"), w)) /\
  (forall Estep dt ttot sens,
     new "potentiostat.IT" (IT.__init__ instrument Estep dt ttot sens fileName header kw) w
     = (Raise (AttributeError "model_pstat"), w)) /\
  (forall Eini Ev1 Ev2 dE nSweeps pw sens,
     new "potentiostat.CA"
       (CA.__init__ instrument Eini Ev1 Ev2 dE nSweeps pw sens fileName header kw) w
     = (Raise (AttributeError "model_pstat"), w)) /\
  (forall ttot dt,
     new "potentiostat.OCP" (OCP.__init__ instrument ttot dt fileName header kw) w
     = (Raise (AttributeError "model_pstat"), w)) /\
  (forall Eini Efin dE tsample twidth tperiod sens,
     new "potentiostat.NPV"
       (NPV.__init__ instrument Eini Efin dE tsample twidth tperiod sens fileName header kw) w
     = (Raise (AttributeError "model_pstat"), w)) /\
  (forall Eini low_freq high_freq amplitude sens,
     new "potentiostat.EIS"
       (EIS.__init__ instrument Eini low_freq high_freq amplitude sens fileName header kw) w
     = (Raise (AttributeError "model_pstat"), w)).
Proof.
  destruct w as [attrs out]. repeat split; reflexivity.
Qed.

End DispatcherClaims.

Lemma bipot_unsupported_technique_witness :
  potentiostat.Technique.bipot (H := chi_absent) (float_lit (-2) 1) (float_lit 1 6)
    ocp_technique =
  (Ret tt, State (self ocp_technique)
             (stdout ocp_technique ++ ["OCP" +:+ " does not have bipotentiostat mode"])).
Proof.
  apply (@bipot_unsupported_technique chi_absent "OCP" (float_lit (-2) 1) (float_lit 1 6)
           ocp_technique); vm_compute; reflexivity.
Defined.

(** * Further properties of the code *)

(** ** The integers of the potentials *)

Section Millivolts.

Lemma convertible_converts x : convertible x = true <-> exists z, converts x z.
Proof.
  unfold convertible, converts. split.
  - apply int_number.
  - intros [z Hz]. by destruct (fmul x emstatpico.thousand).
Qed.

Lemma converts_fun x z z' : converts x z -> converts x z' -> z = z'.
Proof. unfold converts. congruence. Qed.

Lemma shr_1_shifted m0 k mrs :
  0 <= k -> shifted m0 k mrs -> shifted m0 (k + 1) (shr_1 mrs).
Proof.
  intros Hk (Hm & rest & Hm0 & Hrest & Hbits). destruct mrs as [m r s].
  cbn [shr_m shr_r shr_s] in *.
  assert (2 ^ (k + 1) = 2 * 2 ^ k) as Hpow by (rewrite Z.pow_add_r by lia; lia).
  assert (0 < 2 ^ k) as Hpos by (apply Z.pow_pos_nonneg; lia).
  unfold shifted. rewrite Hpow. set (P := 2 ^ k) in *. clearbody P.
  destruct m as [|[p|p|]|p]; [| | | |lia]; cbn [shr_1 shr_m shr_r shr_s].
  - split; [done|]. exists rest. split; [lia|]. split; [lia|].
    cbn [orb]. exact Hbits.
  - split; [lia|]. exists (P + rest). split; [lia|]. split; [lia|]. lia.
  - split; [lia|]. exists rest. split; [lia|]. split; [lia|].
    cbn [orb]. exact Hbits.
  - split; [done|]. exists (P + rest). split; [lia|]. split; [lia|]. lia.
Qed.

Lemma iter_shr_1_shifted m0 n :
  forall k mrs, 0 <= k -> shifted m0 k mrs ->
    shifted m0 (k + Zpos n) (SpecFloat.iter_pos shr_1 n mrs).
Proof.
  induction n as [n IH|n IH|]; intros k mrs Hk Hs; cbn [SpecFloat.iter_pos].
  - replace (k + Zpos n~1) with (k + 1 + Zpos n + Zpos n) by lia.
    apply IH; [lia|]. apply IH; [lia|]. by apply shr_1_shifted.
  - replace (k + Zpos n~0) with (k + Zpos n + Zpos n) by lia.
    apply IH; [lia|]. by apply IH.
  - by apply shr_1_shifted.
Qed.

(** Shifting to the target exponent, with what is shifted out. *)
Lemma shr_fexp_shifted m e :
  0 <= m ->
  exists mrs' k, shr_fexp prec emax m e loc_Exact = (mrs', e + k) /\ 0 <= k /\
    e + k = Z.max e (fexp prec emax (Zdigits2 m + e)) /\ shifted m k mrs'.
Proof.
  intros Hm. unfold shr_fexp, shr. cbn [shr_record_of_loc].
  assert (shifted m 0 {| shr_m := m; shr_r := false; shr_s := false |}) as H0.
  { split; [done|]. exists 0. cbn. split; [lia|]. split; [lia|done]. }
  destruct (fexp prec emax (Zdigits2 m + e) - e) as [|p|p] eqn:Hn.
  - eexists _, 0. rewrite Z.add_0_r. split; [reflexivity|]. split; [done|]. split; [lia|done].
  - eexists _, (Zpos p). split; [reflexivity|]. split; [done|]. split; [lia|].
    apply (iter_shr_1_shifted m p 0); [done|exact H0].
  - eexists _, 0. rewrite Z.add_0_r. split; [reflexivity|]. split; [done|]. split; [lia|done].
Qed.

(** Rounding to nearest does not cross an integer: a mantissa that is at
    most [N * 2^k] rounds, at [k] shifts, to at most [N]. *)
Lemma round_shifted_le m0 k mrs N :
  0 <= k -> shifted m0 k mrs -> m0 <= N * 2 ^ k ->
  0 <= round_nearest_even (shr_m mrs) (loc_of_shr_record mrs) <= N.
Proof.
  intros Hk (Hm & rest & Hm0 & Hrest & Hbits) Hle.
  assert (0 < 2 ^ k) as Hpos by (apply Z.pow_pos_nonneg; lia).
  set (P := 2 ^ k) in *. clearbody P.
  pose proof (round_nearest_even_bounds (shr_m mrs) (loc_of_shr_record mrs) Hm) as [Hlo Hhi].
  split; [lia|].
  destruct mrs as [m r s]. cbn [shr_m shr_r shr_s] in *.
  assert (m <= N) as HmN by nia.
  destruct r, s; cbn [loc_of_shr_record round_nearest_even orb] in *;
    try (specialize (Hbits eq_refl)); try lia;
    assert (m < N) by nia; lia.
Qed.

Lemma shiftl_le m e K :
  0 <= m -> 0 <= K -> (e <= 0 -> m <= K * 2 ^ (- e)) -> (0 <= e -> m * 2 ^ e <= K) ->
  0 <= Z.shiftl m e <= K.
Proof.
  intros Hm HK Hneg Hpos. destruct (Z.le_gt_cases 0 e) as [He|He].
  - rewrite Z.shiftl_mul_pow2 by done. split; [|by apply Hpos].
    apply Z.mul_nonneg_nonneg; [done|]. by apply Z.pow_nonneg.
  - rewrite Z.shiftl_div_pow2 by lia.
    assert (0 < 2 ^ (- e)) as Hp by (apply Z.pow_pos_nonneg; lia).
    specialize (Hneg ltac:(lia)). set (P := 2 ^ (- e)) in *. clearbody P.
    split; [apply Z.div_pos; lia|].
    apply Z.div_le_upper_bound; [done|]. lia.
Qed.

(** The rounded product of two mantissas, converted by [int], stays under
    an integer bound that the exact product respects. *)
Lemma binary_round_aux_le K sx mx ex :
  0 <= mx < 2 ^ 106 -> ex <= -94 -> 0 <= K -> mx <= K * 2 ^ (- ex) ->
  exists z, int (binary_round_aux prec emax sx mx ex loc_Exact) = Ret (cond_Zopp sx z) /\
    0 <= z <= K.
Proof.
  intros Hmx Hex HK Hle.
  pose proof (binary_round_aux_number sx mx ex Hmx Hex) as Hnum.
  unfold binary_round_aux in Hnum |- *.
  destruct (shr_fexp_shifted mx ex) as (mrs' & k & Heq & Hk & He' & Hs); [lia|].
  rewrite Heq in Hnum |- *. clear Heq.
  assert (0 <= Zdigits2 mx <= 107) as Hd by (apply (Zdigits2_le mx 106); lia).
  assert (ex + k <= 0) as He0.
  { revert He'. unfold fexp, SpecFloat.emin, prec, emax. clear - Hd Hex. lia. }
  assert (2 ^ (- ex) = 2 ^ (- (ex + k)) * 2 ^ k) as Hsplit.
  { rewrite <- Z.pow_add_r by lia. f_equal. lia. }
  pose proof (round_shifted_le mx k mrs' (K * 2 ^ (- (ex + k))) Hk Hs) as Hr.
  specialize (Hr ltac:(rewrite <- Z.mul_assoc, <- Hsplit; exact Hle)).
  set (m1 := round_nearest_even (shr_m mrs') (loc_of_shr_record mrs')) in *.
  set (e' := ex + k) in *.
  destruct (shr_fexp_shifted m1 e') as (mrs'' & k2 & Heq & Hk2 & He'' & Hs2); [lia|].
  rewrite Heq in Hnum |- *. clear Heq.
  destruct Hs2 as (Hm2 & rest2 & Hm1 & Hrest2 & _).
  assert (0 <= Z.shiftl (shr_m mrs'') (e' + k2) <= K) as Hfin.
  { apply shiftl_le; [done|done| |].
    - intros Hneg.
      assert (2 ^ (- e') = 2 ^ (- (e' + k2)) * 2 ^ k2) as Hsplit2.
      { rewrite <- Z.pow_add_r by lia. f_equal. lia. }
      assert (0 < 2 ^ k2) as Hp2 by (apply Z.pow_pos_nonneg; lia).
      rewrite Hsplit2 in Hr. clear - Hr Hm1 Hrest2 Hp2 Hm2 HK.
      set (P := 2 ^ k2) in *. set (Q := K * 2 ^ (- (e' + k2))) in *.
      rewrite Z.mul_assoc in Hr. fold Q in Hr. clearbody P Q m1. nia.
    - intros Hpos.
      assert (2 ^ k2 = 2 ^ (e' + k2) * 2 ^ (- e')) as Hsplit2.
      { rewrite <- Z.pow_add_r by lia. f_equal. lia. }
      assert (0 < 2 ^ (- e')) as Hp2 by (apply Z.pow_pos_nonneg; lia).
      assert (0 <= 2 ^ (e' + k2)) as Hp3 by (apply Z.pow_nonneg; lia).
      rewrite Hsplit2 in Hm1.
      clear - Hr Hm1 Hrest2 Hp2 Hp3 Hm2 HK.
      set (P := 2 ^ (- e')) in *. set (Q := 2 ^ (e' + k2)) in *.
      clearbody P Q m1. nia. }
  destruct (shr_m mrs'') as [|p|p] eqn:Hp; [|clear Hle|lia].
  - exists 0. split; [by destruct sx|lia].
  - destruct (e' + k2 <=? emax - prec); [|done].
    exists (Z.shiftl (Zpos p) (e' + k2)). split; [reflexivity|exact Hfin].
Qed.

(** The number that a float in [E_min, E_max] stands for. *)
Lemma in_range_value s m e :
  valid (S754_finite s m e) -> in_range (S754_finite s m e) = true ->
  - (7656119366529843 * 2 ^ 1022) <= scaled s m e <= 4503599627370496 * 2 ^ 1023.
Proof.
  intros Hx. unfold in_range, fle.
  assert (valid emstatpico.Info.E_min) as Hmin by reflexivity.
  assert (valid emstatpico.Info.E_max) as Hmax by reflexivity.
  rewrite (SFcompare_value _ _ Hmin Hx), (SFcompare_value _ _ Hx Hmax).
  change emstatpico.Info.E_min with (S754_finite true 7656119366529843 (-52)).
  change emstatpico.Info.E_max with (S754_finite false 4503599627370496 (-51)).
  cbn [value ereal_compare].
  change (scaled true 7656119366529843 (-52)) with (- (7656119366529843 * 2 ^ 1022)).
  change (scaled false 4503599627370496 (-51)) with (4503599627370496 * 2 ^ 1023).
  intros [Hlo Hhi]%andb_true_iff. split.
  - destruct (Z.compare_spec (- (7656119366529843 * 2 ^ 1022)) (scaled s m e));
      (discriminate || lia).
  - destruct (Z.compare_spec (scaled s m e) (4503599627370496 * 2 ^ 1023));
      (discriminate || lia).
Qed.

(** Inside the envelope, [int(x*1000)] lies between -1700 and 2000. *)
Lemma in_range_millivolts x z :
  valid x -> in_range x = true -> converts x z -> -1700 <= z <= 2000.
Proof.
  intros Hx Hr Hz. unfold converts in Hz.
  destruct x as [s|s| |s m e].
  { rewrite thousand_eq in Hz. unfold fmul in Hz. cbn [SFmul int] in Hz.
    injection Hz as <-. lia. }
  { rewrite thousand_eq in Hz. unfold fmul in Hz. cbn [SFmul int] in Hz. discriminate Hz. }
  { unfold fmul in Hz. cbn [SFmul int] in Hz. discriminate Hz. }
  pose proof (valid_finite _ _ _ Hx) as (He & Hm & _).
  pose proof (in_range_exponent _ _ _ Hr) as He'.
  pose proof (in_range_value _ _ _ Hx Hr) as [Hlo Hhi].
  rewrite thousand_eq in Hz. unfold fmul in Hz. cbn [SFmul] in Hz.
  rewrite xorb_false_r in Hz.
  assert (0 < 2 ^ (e + 1074)) as HP by (apply Z.pow_pos_nonneg; lia).
  assert (0 < 2 ^ (- 51 - e)) as HQ by (apply Z.pow_pos_nonneg; lia).
  assert (2 ^ 1023 = 2 ^ (e + 1074) * 2 ^ (- 51 - e)) as H1023.
  { rewrite <- Z.pow_add_r by lia. f_equal. lia. }
  assert (2 ^ (- (e + -43)) = 2 ^ 94 * 2 ^ (- 51 - e)) as H94.
  { rewrite <- Z.pow_add_r by lia. f_equal. lia. }
  assert (0 <= Zpos (m * 8796093022208000) < 2 ^ 106) as Hmx.
  { split; [lia|]. rewrite Pos2Z.inj_mul.
    change (2 ^ 106) with (2 ^ 53 * 2 ^ 53).
    apply Z.mul_lt_mono_nonneg; [lia|assumption|lia|reflexivity]. }
  destruct (binary_round_aux_le (if s then 1700 else 2000) s
              (Zpos (m * 8796093022208000)) (e + -43)) as (z0 & Hint & Hz0);
    [exact Hmx|lia|by destruct s| |].
  - rewrite H94, Pos2Z.inj_mul. unfold scaled in Hlo, Hhi.
    assert (7656119366529843 * 2 ^ 1022 * 2 = 7656119366529843 * 2 ^ 1023) as H2
      by (clear; change (2 ^ 1023) with (2 ^ 1022 * 2); lia).
    rewrite H1023 in Hhi, H2. clear H1023 H94 Hmx Hz.
    set (P := 2 ^ (e + 1074)) in *. set (Q := 2 ^ (- 51 - e)) in *.
    change (2 ^ 94) with 19807040628566084398385987584.
    clearbody P Q. destruct s; cbn [cond_Zopp] in Hlo, Hhi.
    + assert (2 * Zpos m <= 7656119366529843 * Q) by nia. lia.
    + assert (Zpos m <= 4503599627370496 * Q) by nia. lia.
  - rewrite Hint in Hz. simplify_eq. destruct s; cbn [cond_Zopp]; lia.
Qed.

(** A value that passes [limits] and converts lies in [E_min, E_max]. *)
Lemma envelope_in_range x z :
  valid x -> in_envelope x = true -> converts x z -> in_range x = true.
Proof.
  intros Hx Henv Hz. unfold in_envelope, in_range, fle, flt, fgt in *.
  assert (valid emstatpico.Info.E_min) as Hmin by reflexivity.
  assert (valid emstatpico.Info.E_max) as Hmax by reflexivity.
  rewrite (SFcompare_value _ _ Hmin Hx), (SFcompare_value _ _ Hx Hmax).
  rewrite (SFcompare_value _ _ Hx Hmin), (SFcompare_value _ _ Hx Hmax) in Henv.
  destruct (value emstatpico.Info.E_min) as [b|] eqn:Hb; [|done].
  destruct (value emstatpico.Info.E_max) as [c|] eqn:Hc; [|done].
  destruct (value x) as [a|] eqn:Ha.
  - rewrite (ereal_compare_antisym a b).
    destruct (ereal_compare a b), (ereal_compare a c); done.
  - destruct x; try discriminate Ha. unfold converts, fmul in Hz.
    cbn [SFmul int] in Hz. discriminate Hz.
Qed.

End Millivolts.

(** ** The generators, continued *)

(** Take one [int(x*1000)], or one [limits], of a run that returned. *)
Ltac returned_conversion H x z Hz :=
  destruct (converts_or_raises x) as [[z Hz]|[?Hr|?Hr]];
  [rewrite (milli_converts _ _ Hz) in H|rewrite Hr in H; run_in H; done..].

Ltac returned_limits H x Hx :=
  destruct (in_envelope x) eqn:Hx;
  [rewrite (limits_pass _ _ _ Hx) in H|rewrite (limits_fail _ _ _ Hx) in H; run_in H; done].

(** Split the hypotheses on the lists of a parameter set into those on
    their elements. *)
Ltac each_value :=
  repeat match goal with
         | H : forallb _ _ = true |- _ => progress cbn [forallb] in H
         | H : _ && _ = true |- _ => apply andb_true_iff in H as [? H]
         | H : convertible _ = true |- _ => apply convertible_converts in H as [? H]
         end;
  cbn [fst] in *.

Section MoreGenerators.

Import emstatpico Script.

(** *** When a generation returns *)

Lemma acceptable_returns p f0 w :
  acceptable p = true ->
  exists w1, generate p f0 w = (Ret tt, w1) /\ stdout w1 = stdout w ++ [valid_message].
Proof.
  intros [Hc Hv]%andb_true_iff.
  destruct p; cbn [converted validated] in Hc, Hv; each_value.
  - eexists. split; [by eapply CV_init_ok|done].
  - eexists. split.
    + cbn [generate]. unfold LSV.__init__, LSV.validate, str_attr, str_getattr.
      repeat match goal with
             | H : converts _ _ |- _ => rewrite (milli_converts _ _ H); clear H
             end.
      rewrite !limits_pass by done. run. reflexivity.
    + done.
  - eexists. split.
    + cbn [generate]. unfold CA.__init__, CA.validate, str_attr, str_getattr.
      repeat match goal with
             | H : converts _ _ |- _ => rewrite (milli_converts _ _ H); clear H
             end.
      rewrite !limits_pass by done. run. reflexivity.
    + done.
  - eexists. split.
    + cbn [generate]. unfold OCP.__init__, OCP.validate, str_attr, str_getattr.
      repeat match goal with
             | H : converts _ _ |- _ => rewrite (milli_converts _ _ H); clear H
             end.
      run. reflexivity.
    + done.
Qed.

Lemma returns_acceptable p f0 w w1 :
  generate p f0 w = (Ret tt, w1) -> acceptable p = true.
Proof.
  intros Hrun. unfold acceptable.
  assert (forall x z, converts x z -> convertible x = true) as Hconv
    by (intros x z Hz; apply convertible_converts; by exists z).
  destruct p; cbn [converted validated forallb fst].
  - apply CV_init_inv in Hrun
      as (a & b & c & d & e & f & Ha & Hb & Hc & Hd & He & Hf & -> & -> & -> & -> & _).
    by rewrite (Hconv _ _ Ha), (Hconv _ _ Hb), (Hconv _ _ Hc), (Hconv _ _ Hd),
         (Hconv _ _ He), (Hconv _ _ Hf).
  - apply LSV_init_inv in Hrun as (a & b & e & f & Ha & Hb & He & Hf & -> & -> & _).
    by rewrite (Hconv _ _ Ha), (Hconv _ _ Hb), (Hconv _ _ He), (Hconv _ _ Hf).
  - apply CA_init_inv in Hrun as (a & t1 & t2 & Ha & H1 & H2 & -> & _).
    by rewrite (Hconv _ _ Ha), (Hconv _ _ H1), (Hconv _ _ H2).
  - apply OCP_init_inv in Hrun as (t1 & t2 & H1 & H2 & _).
    by rewrite (Hconv _ _ H1), (Hconv _ _ H2).
Qed.

(** X1.  A generator returns exactly when every [int(x*1000)] of its
    initializer returns and every potential that its [validate] checks
    passes [limits]: CV checks [Eini], [Ev1], [Ev2] and [Efin], LSV
    [Eini] and [Efin], CA [Estep], OCP nothing; scan rate, step and times
    are converted and never checked. *)
Theorem generation_returns_iff p f0 w :
  (exists w1, generate p f0 w = (Ret tt, w1)) <-> acceptable p = true.
Proof.
  split.
  - intros [w1 Hrun]. by eapply returns_acceptable.
  - intros Hp. destruct (acceptable_returns p f0 w Hp) as (w1 & Hrun & _). by exists w1.
Qed.

(** X2.  When all conversions return, validation reports the first
    potential, in the order of the [limits] calls, that lies outside the
    envelope, under its own label; [text] is then the empty string, no
    script part is assigned and nothing is printed. *)
Theorem first_invalid_is_reported p f0 w x label :
  forallb convertible (converted p) = true ->
  find (fun xl => negb (in_envelope xl.1)) (validated p) = Some (x, label) ->
  exists w1,
    generate p f0 w = (Raise (Info.out_of_range x Info.E_min Info.E_max label "V"), w1) /\
    self w1 !! "text" = Some (VStr "") /\
    (forall k, In k ["ini"; "pre_body"; "body"] -> self w1 !! k = self w !! k) /\
    stdout w1 = stdout w.
Proof.
  intros Hc Hfind.
  assert (forall k (m : gmap string val), In k ["ini"; "pre_body"; "body"] ->
            forall k' v, In k' ["Eini"; "Ev1"; "Ev2"; "Efin"; "sr"; "dE"; "nSweeps"; "text";
                                "Estep"; "dt"; "ttot"] ->
            <[k' := v]> m !! k = m !! k) as Hk.
  { intros k m Hin k' v Hin'. apply lookup_insert_ne.
    cbn in Hin, Hin'. intuition (subst; done). }
  destruct p; cbn [converted validated find fst] in Hc, Hfind; each_value;
    cbn [generate];
    unfold CV.__init__, CV.validate, LSV.__init__, LSV.validate, CA.__init__, CA.validate,
      str_attr, str_getattr;
    repeat match goal with H : converts _ _ |- _ => rewrite (milli_converts _ _ H); clear H end;
    repeat match type of Hfind with
    | context [in_envelope ?y] =>
        let Hy := fresh "Hy" in
        destruct (in_envelope y) eqn:Hy; cbn [negb] in Hfind;
        [rewrite (limits_pass y _ _ Hy)|
         injection Hfind as <- <-; rewrite (limits_fail _ _ _ Hy); run;
         eexists; split; [reflexivity|]; cbn [self stdout];
         split; [by rewrite lookup_insert_eq|]; split; [|done];
         intros k Hin; rewrite !Hk by (done || cbn; tauto); done]
    end; done.
Qed.

Lemma first_invalid_is_reported_witness :
  exists w1,
    generate scenario_high default_filing fresh =
      (Raise (Info.out_of_range (float_lit 25 1) Info.E_min Info.E_max "Eini" "V"), w1) /\
    self w1 !! "text" = Some (VStr "") /\
    (forall k, In k ["ini"; "pre_body"; "body"] -> self w1 !! k = self fresh !! k) /\
    stdout w1 = stdout fresh.
Proof.
  apply (first_invalid_is_reported scenario_high default_filing fresh (float_lit 25 1)
           "Eini"); vm_compute; reflexivity.
Defined.

(** *** What a generation prints *)

Lemma failed_generation_is_silent p f0 w e w1 :
  generate p f0 w = (Raise e, w1) -> stdout w1 = stdout w.
Proof.
  intros Hrun.
  destruct p; cbn [generate] in Hrun;
    unfold CV.__init__, CV.validate, LSV.__init__, LSV.validate, CA.__init__, CA.validate,
      OCP.__init__, OCP.validate, str_attr, str_getattr in Hrun;
    repeat match type of Hrun with
    | context [milli ?x] =>
        destruct (converts_or_raises x) as [[? Hz]|[Hr|Hr]];
        [rewrite (milli_converts _ _ Hz) in Hrun; clear Hz
        |rewrite Hr in Hrun; run_in Hrun; by simplify_eq..]
    end;
    repeat match type of Hrun with
    | context [Info.limits ?x] =>
        let Hx := fresh "Hx" in
        destruct (in_envelope x) eqn:Hx;
        [rewrite (limits_pass x _ _ Hx) in Hrun
        |rewrite (limits_fail x _ _ Hx) in Hrun; run_in Hrun; by simplify_eq]
    end;
    run_in Hrun; done.
Qed.

(** X3.  A generator prints one line, 'All the parameters are valid', and
    it does so exactly when it returns: a generation that raises, in a
    conversion or in validation, prints nothing. *)
Theorem generation_prints_valid_iff p f0 w r w1 :
  generate p f0 w = (r, w1) ->
  match r with
  | Ret _ => stdout w1 = stdout w ++ [valid_message]
  | Raise _ => stdout w1 = stdout w
  end.
Proof.
  intros Hrun. destruct r as [[]|e].
  - pose proof (returns_acceptable _ _ _ _ Hrun) as Hp.
    destruct (acceptable_returns p f0 w Hp) as (w1' & Hrun' & Hout). congruence.
  - by eapply failed_generation_is_silent.
Qed.

Lemma generation_prints_valid_iff_witness :
  stdout (snd (generate scenario_fast default_filing fresh)) = stdout fresh.
Proof.
  apply (generation_prints_valid_iff scenario_fast default_filing fresh
           (Raise OverflowError) (snd (generate scenario_fast default_filing fresh))).
  vm_compute. reflexivity.
Defined.

(** *** Scripts and the integers they carry *)

Lemma append_inj_last s s' c :
  s +:+ String c "" = s' +:+ String c "" -> s = s'.
Proof.
  revert s'. induction s as [|a s IH]; intros [|a' s'] Heq; cbn in Heq.
  - done.
  - injection Heq as _ Heq. by destruct s'.
  - injection Heq as _ Heq. by destruct s.
  - injection Heq as -> Heq. f_equal. by apply IH.
Qed.

Lemma lit_inj z z' : lit z = lit z' -> z = z'.
Proof. unfold lit. by intros Heq%append_inj_last%str_inj. Qed.

Lemma map_lit_inj zs zs' : map lit zs = map lit zs' -> zs = zs'.
Proof.
  revert zs'. induction zs as [|z zs IH]; intros [|z' zs'] Heq; try done.
  cbn in Heq. injection Heq as Hz%lit_inj Hr%IH. by subst.
Qed.

(** The script of a returned generation, with the integers it carries. *)
Lemma generated_script p f0 w w1 :
  generate p f0 w = (Ret tt, w1) ->
  exists zs, Forall2 converts (embedded p) zs /\
    operands "meas_loop_" (script w1) = Some (map lit zs) /\
    script w1 =
    match p, zs with
    | CV_parameters _ _ _ _ _ _ n _, [a; b; c; f; e] => CV_text a b c e f n
    | LSV_parameters _ _ _ _ _, [a; b; f; e] => LSV_text a b e f
    | CA_parameters _ _ _ _, [a; t1; t2] => CA_text a t1 t2
    | OCP_parameters _ _, [t1; t2] => OCP_text t1 t2
    | _, _ => EmptyString
    end.
Proof.
  intros Hrun. destruct p.
  - apply CV_init_inv in Hrun
      as (a & b & c & d & e & f & Ha & Hb & Hc & Hd & He & Hf & _ & _ & _ & _ & ->).
    rewrite script_built. destruct (CV_operands a b c e f nSweeps) as [-> _].
    exists [a; b; c; f; e]. split; [by repeat (constructor; try assumption)|done].
  - apply LSV_init_inv in Hrun as (a & b & e & f & Ha & Hb & He & Hf & _ & _ & ->).
    destruct (LSV_operands a b e f) as [-> _].
    exists [a; b; f; e]. split; [by repeat (constructor; try assumption)|done].
  - apply CA_init_inv in Hrun as (a & t1 & t2 & Ha & H1 & H2 & _ & ->).
    destruct (CA_operands a t1 t2) as [-> _].
    exists [a; t1; t2]. split; [by repeat (constructor; try assumption)|done].
  - apply OCP_init_inv in Hrun as (t1 & t2 & H1 & H2 & ->).
    destruct (OCP_operands t1 t2) as [-> _].
    exists [t1; t2]. split; [by repeat (constructor; try assumption)|done].
Qed.

Lemma same_literal_converts xs xs' zs zs' :
  Forall2 converts xs zs -> Forall2 converts xs' zs' ->
  Forall2 same_literal xs xs' <-> zs = zs'.
Proof.
  intros H. revert xs' zs'. induction H as [|x z xs zs Hz _ IH]; intros xs' zs' H'.
  - split.
    + intros Hs. inversion Hs; subst. by inversion H'.
    + intros <-. inversion H'. constructor.
  - split.
    + intros Hs. inversion Hs as [|? x' ? xs'' (z0 & Hz0 & Hz0') Hr]; subst.
      inversion H' as [|? z' ? zs'' Hz' Hr']; subst.
      f_equal; [|by eapply IH].
      rewrite (converts_fun _ _ _ Hz Hz0). by eapply converts_fun.
    + intros <-. inversion H' as [|x' ? xs'' ? Hz' Hr']; subst.
      constructor; [by exists z|]. by eapply IH.
Qed.

(** X4.  Two generations that return produce the same script exactly when
    the values that their loop instructions embed convert, pairwise, to
    the same integers and the numbers of sweeps agree.  So parameter sets
    of different techniques never give the same script, and the script
    depends neither on [sens] nor, for CV, on [Efin], nor on a difference
    below one millivolt that the truncation removes. *)
Theorem script_eq_iff p p' f0 f0' w w' w1 w1' :
  generate p f0 w = (Ret tt, w1) ->
  generate p' f0' w' = (Ret tt, w1') ->
  script w1 = script w1' <->
  Forall2 same_literal (embedded p) (embedded p') /\ sweeps p = sweeps p'.
Proof.
  intros H1 H2.
  pose proof (generated_script _ _ _ _ H1) as (zs & Hzs & Hops & Hs).
  pose proof (generated_script _ _ _ _ H2) as (zs' & Hzs' & Hops' & Hs').
  rewrite (same_literal_converts _ _ _ _ Hzs Hzs').
  split.
  - intros Heq. rewrite Heq, Hops' in Hops. injection Hops as Hm%map_lit_inj.
    subst zs'. split; [done|].
    pose proof (Forall2_length _ _ _ Hzs) as Hl. pose proof (Forall2_length _ _ _ Hzs') as Hl'.
    destruct p, p'; cbn [embedded length] in Hl, Hl'; try (rewrite <- Hl in Hl'; done);
      cbn [sweeps]; try done.
    do 6 (destruct zs as [|? zs]; try done).
    rewrite Hs, Hs' in Heq. apply (f_equal nscans) in Heq.
    rewrite !CV_nscans in Heq. injection Heq as Hn%str_inj. f_equal. lia.
  - intros [<- Hn]. rewrite Hs, Hs'.
    pose proof (Forall2_length _ _ _ Hzs) as Hl. pose proof (Forall2_length _ _ _ Hzs') as Hl'.
    destruct p, p'; cbn [embedded length] in Hl, Hl'; try (rewrite <- Hl in Hl'; done);
      cbn [sweeps] in Hn; try done.
    by injection Hn as ->.
Qed.

Lemma script_eq_iff_witness :
  script built =
  script (snd (generate scenario_near
                 (Filing (VStr "data") "run2" "second run" VNone (VInt 2) (VInt 0)) built)) <->
  Forall2 same_literal (embedded scenario) (embedded scenario_near) /\
  sweeps scenario = sweeps scenario_near.
Proof.
  apply (script_eq_iff scenario scenario_near default_filing
           (Filing (VStr "data") "run2" "second run" VNone (VInt 2) (VInt 0))
           fresh built built
           (snd (generate scenario_near
                   (Filing (VStr "data") "run2" "second run" VNone (VInt 2) (VInt 0)) built)));
    vm_compute; reflexivity.
Defined.

(** *** The characters of a script *)

Lemma ascii_only_app s t : ascii_only (s +:+ t) = ascii_only s && ascii_only t.
Proof.
  induction s as [|a s IH]; [done|]. cbn [String.append ascii_only].
  by rewrite IH, andb_assoc.
Qed.

Lemma numeral_ascii s : numeral s = true -> ascii_only s = true.
Proof.
  induction s as [|a s IH]; [done|]. cbn [numeral ascii_only].
  intros [Ha Hs]%andb_true_iff. rewrite (IH Hs), andb_true_r.
  destruct a as [? ? ? ? ? ? ? []]; [|done]. exfalso. revert Ha.
  by repeat match goal with b : bool |- _ => destruct b end.
Qed.

Lemma str_ascii z : ascii_only (str z) = true.
Proof. apply numeral_ascii, str_numeral. Qed.

Ltac ascii_text := rewrite !ascii_only_app, !str_ascii; vm_compute; reflexivity.

(** *** [CA.__init__] and the two [bipot] methods, with the whole object *)

Lemma CA_init_built Estep dt ttot sens f0 w w1 :
  generate (CA_parameters Estep dt ttot sens) f0 w = (Ret tt, w1) ->
  exists a t1 t2,
    converts Estep a /\ converts dt t1 /\ converts ttot t2 /\
    w1 = State (CA_built a t1 t2 (self w)) (stdout w ++ [valid_message]).
Proof.
  intros H. cbn [generate] in H.
  unfold CA.__init__, CA.validate, str_attr, str_getattr in H.
  returned_conversion H Estep a Ha. returned_conversion H dt t1 H1.
  returned_conversion H ttot t2 H2. returned_limits H Estep He.
  run_in H. exists a, t1, t2. by simplify_eq.
Qed.

Lemma CA_bipot_ok E sens z a t1 t2 base out :
  converts E z -> in_envelope E = true ->
  CA.bipot E sens (State (CA_built a t1 t2 base) out) =
  (Ret tt, State (CA_extended z a t1 t2 (CA_built a t1 t2 base)) out).
Proof.
  intros Hz HE. unfold CA.bipot, str_attr, str_getattr.
  rewrite (milli_converts _ _ Hz), (limits_pass _ _ _ HE).
  unfold CA_built. run. reflexivity.
Qed.

Lemma CA_bipot_out_of_range E sens w :
  in_envelope E = false ->
  CA.bipot E sens w = (Raise (Info.out_of_range E Info.E_min Info.E_max "E2" "V"), w).
Proof.
  intros HE. unfold CA.bipot. rewrite (limits_fail _ _ _ HE). by destruct w.
Qed.

Lemma unconvertible_raises x :
  convertible x = false ->
  milli x = raise ValueError \/ milli x = raise OverflowError.
Proof.
  intros Hno. destruct (converts_or_raises x) as [Hz|Hr]; [|done].
  apply convertible_converts in Hz. congruence.
Qed.

(** On an object that [__init__] has built, [bipot] ends in one of three
    ways. *)
Lemma CV_bipot_cases E sens a b c d e f n base out :
  let w := State (CV_built a b c d e f n base) out in
  (in_envelope E = false /\
   CV.bipot E sens w = (Raise (Info.out_of_range E Info.E_min Info.E_max "E2" "V"), w)) \/
  (in_envelope E = true /\ convertible E = false /\
   exists err, (err = ValueError \/ err = OverflowError) /\
     CV.bipot E sens w = (Raise err, w)) \/
  (in_envelope E = true /\ exists z, converts E z /\
   CV.bipot E sens w =
   (Ret tt, State (CV_extended z a b c e f n (CV_built a b c d e f n base)) out)).
Proof.
  intros w. destruct (in_envelope E) eqn:HE.
  2:{ left. split; [done|]. by apply CV_bipot_out_of_range. }
  right. destruct (convertible E) eqn:Hc.
  - right. split; [done|]. apply convertible_converts in Hc as [z Hz].
    exists z. split; [done|]. by apply CV_bipot_ok.
  - left. split; [done|]. split; [done|].
    unfold CV.bipot. rewrite (limits_pass _ _ _ HE).
    destruct (unconvertible_raises E Hc) as [Hr|Hr]; rewrite Hr; eexists;
      (split; [|run; reflexivity]); auto.
Qed.

Lemma CA_bipot_cases E sens a t1 t2 base out :
  let w := State (CA_built a t1 t2 base) out in
  (in_envelope E = false /\
   CA.bipot E sens w = (Raise (Info.out_of_range E Info.E_min Info.E_max "E2" "V"), w)) \/
  (in_envelope E = true /\ convertible E = false /\
   exists err, (err = ValueError \/ err = OverflowError) /\
     CA.bipot E sens w = (Raise err, w)) \/
  (in_envelope E = true /\ exists z, converts E z /\
   CA.bipot E sens w =
   (Ret tt, State (CA_extended z a t1 t2 (CA_built a t1 t2 base)) out)).
Proof.
  intros w. destruct (in_envelope E) eqn:HE.
  2:{ left. split; [done|]. by apply CA_bipot_out_of_range. }
  right. destruct (convertible E) eqn:Hc.
  - right. split; [done|]. apply convertible_converts in Hc as [z Hz].
    exists z. split; [done|]. by apply CA_bipot_ok.
  - left. split; [done|]. split; [done|].
    unfold CA.bipot. rewrite (limits_pass _ _ _ HE).
    destruct (unconvertible_raises E Hc) as [Hr|Hr]; rewrite Hr; eexists;
      (split; [|run; reflexivity]); auto.
Qed.

Lemma CA_bipot_inv E sens a t1 t2 base out w2 :
  CA.bipot E sens (State (CA_built a t1 t2 base) out) = (Ret tt, w2) ->
  exists z, converts E z /\ in_envelope E = true /\
    w2 = State (CA_extended z a t1 t2 (CA_built a t1 t2 base)) out.
Proof.
  intros Hrun.
  destruct (CA_bipot_cases E sens a t1 t2 base out)
    as [[HE Hr]|[(HE & Hno & err & _ & Hr)|(HE & z & Hz & Hr)]];
    rewrite Hr in Hrun; simplify_eq. by exists z.
Qed.

Lemma CV_bipot_again E sens z z0 a b c d e f n base out :
  converts E z -> in_envelope E = true ->
  CV.bipot E sens
    (State (CV_extended z0 a b c e f n (CV_built a b c d e f n base)) out) =
  (Ret tt, State (CV_extended z a b c e f n (CV_built a b c d e f n base)) out).
Proof.
  intros Hz HE. unfold CV.bipot, str_attr, str_getattr.
  rewrite (milli_converts _ _ Hz), (limits_pass _ _ _ HE).
  unfold CV_extended, CV_built, CV_stored. run. do 2 f_equal.
  apply map_eq. intros k. rewrite !lookup_insert. by repeat case_decide.
Qed.

Lemma CA_bipot_again E sens z z0 a t1 t2 base out :
  converts E z -> in_envelope E = true ->
  CA.bipot E sens (State (CA_extended z0 a t1 t2 (CA_built a t1 t2 base)) out) =
  (Ret tt, State (CA_extended z a t1 t2 (CA_built a t1 t2 base)) out).
Proof.
  intros Hz HE. unfold CA.bipot, str_attr, str_getattr.
  rewrite (milli_converts _ _ Hz), (limits_pass _ _ _ HE).
  unfold CA_extended, CA_built. run. do 2 f_equal.
  apply map_eq. intros k. rewrite !lookup_insert. by repeat case_decide.
Qed.

Lemma script_CA_built a t1 t2 base out :
  script (State (CA_built a t1 t2 base) out) = CA_text a t1 t2.
Proof. unfold script, attr_text, CA_built. cbn [self]. by rewrite lookup_insert_eq. Qed.

Lemma script_CA_extended z a t1 t2 base out :
  script (State (CA_extended z a t1 t2 base) out) = CA_bipot_text z a t1 t2.
Proof. unfold script, attr_text, CA_extended. cbn [self]. by rewrite lookup_insert_eq. Qed.

Lemma pre_body_CA_built a t1 t2 base out :
  attr_text "pre_body" (State (CA_built a t1 t2 base) out) = CA.pre_body (str a).
Proof.
  unfold attr_text, CA_built. cbn [self].
  rewrite !lookup_insert_ne by done. by rewrite lookup_insert_eq.
Qed.

Lemma pre_body_CA_extended z a t1 t2 base out :
  attr_text "pre_body" (State (CA_extended z a t1 t2 base) out) =
  CA.bipot_pre_body (str z) (str a).
Proof.
  unfold attr_text, CA_extended. cbn [self].
  rewrite !lookup_insert_ne by done. by rewrite lookup_insert_eq.
Qed.

(** *** The lines and words of the extended scripts *)

Lemma CA_bipot_text_lines z a t1 t2 :
  lines (CA_bipot_text z a t1 t2) =
  ["e"; "var p"; "var c"; "var a";
   "var b"; "set_pgstat_chan 1"; "set_pgstat_mode 5"; "set_poly_we_mode 0";
   "set_e " +:+ str z +:+ "m"; "set_autoranging ba 100n 5m";
   "set_pgstat_chan 0"; "set_pgstat_mode 2"; "set_autoranging ba 100n 5m";
   "set_e " +:+ str a +:+ "m"; "timer_start"; "cell_on";
   "meas_loop_ca p c " +:+ str a +:+ "m " +:+ str t1 +:+ "m " +:+ str t2 +:+
     "m poly_we(1 b)";
   tab "pck_start"; tab "timer_get a"; tab "pck_add a"; tab "pck_add p";
   tab "pck_add c"; tab "pck_add b"; tab "pck_end"; "endloop"; "on_finished:";
   "cell_off"; ""; ""].
Proof.
  unfold lines, CA_bipot_text, CA.ini, CA.bipot_pre_body, CA.bipot_body.
  split_text LF.
Qed.

Lemma CA_bipot_loop_words a t1 t2 :
  words ("meas_loop_ca p c " +:+ str a +:+ "m " +:+ str t1 +:+ "m " +:+ str t2 +:+
         "m poly_we(1 b)") =
  ["meas_loop_ca"; "p"; "c"; lit a; lit t1; lit t2; "poly_we(1"; "b)"].
Proof. unfold words, lit. split_text " "%char. Qed.

Lemma CV_bipot_operands z a b c e f n :
  operands "meas_loop_" (CV_bipot_text z a b c e f n) =
    Some [lit a; lit b; lit c; lit f; lit e] /\
  operands "set_e " (CV_bipot_text z a b c e f n) = Some [lit z].
Proof.
  unfold operands. split.
  - assert (instruction "meas_loop_" (CV_bipot_text z a b c e f n) =
            Some ["meas_loop_cv"; "p"; "c"; lit a; lit b; lit c; lit f; lit e;
                  "nscans(" +:+ str n +:+ ")"; "poly_we(1"; "b)"]) as ->.
    { rewrite <- CV_bipot_loop_words. eapply instruction_lines;
        [apply CV_bipot_text_lines|vm_compute; reflexivity]. }
    cbn [fmap option_fmap option_map List.filter].
    rewrite ?milli_literal_lit. reflexivity.
  - assert (instruction "set_e " (CV_bipot_text z a b c e f n) = Some ["set_e"; lit z]) as ->.
    { rewrite <- set_e_words. eapply instruction_lines;
        [apply CV_bipot_text_lines|vm_compute; reflexivity]. }
    cbn [fmap option_fmap option_map List.filter].
    rewrite ?milli_literal_lit. reflexivity.
Qed.

Lemma CA_bipot_operands z a t1 t2 :
  operands "meas_loop_" (CA_bipot_text z a t1 t2) = Some [lit a; lit t1; lit t2] /\
  operands "set_e " (CA_bipot_text z a t1 t2) = Some [lit z].
Proof.
  unfold operands. split.
  - assert (instruction "meas_loop_" (CA_bipot_text z a t1 t2) =
            Some ["meas_loop_ca"; "p"; "c"; lit a; lit t1; lit t2; "poly_we(1"; "b)"]) as ->.
    { rewrite <- CA_bipot_loop_words. eapply instruction_lines;
        [apply CA_bipot_text_lines|vm_compute; reflexivity]. }
    cbn [fmap option_fmap option_map List.filter].
    rewrite ?milli_literal_lit. reflexivity.
  - assert (instruction "set_e " (CA_bipot_text z a t1 t2) = Some ["set_e"; lit z]) as ->.
    { rewrite <- set_e_words. eapply instruction_lines;
        [apply CA_bipot_text_lines|vm_compute; reflexivity]. }
    cbn [fmap option_fmap option_map List.filter].
    rewrite ?milli_literal_lit. reflexivity.
Qed.

Lemma CA_pre_body_lines a :
  lines (CA.pre_body (str a)) =
  ["set_pgstat_mode 3"; "set_autoranging ba 100n 5m"; "set_e " +:+ lit a;
   "cell_on"; "timer_start"].
Proof. unfold lines, CA.pre_body, lit. split_text LF. Qed.

Lemma CA_bipot_pre_body_lines z a :
  lines (CA.bipot_pre_body (str z) (str a)) =
  ["var b"; "set_pgstat_chan 1"; "set_pgstat_mode 5"; "set_poly_we_mode 0";
   "set_e " +:+ lit z; "set_autoranging ba 100n 5m";
   "set_pgstat_chan 0"; "set_pgstat_mode 2"; "set_autoranging ba 100n 5m";
   "set_e " +:+ lit a; "timer_start"; "cell_on"].
Proof. unfold lines, CA.bipot_pre_body, lit. split_text LF. Qed.

(** X5.  Every script that a generator, or the [bipot] of its object,
    leaves in [text] is made of 7-bit characters only: encoding it as
    ASCII, as [Technique.writeToFile] does, cannot fail. *)
Theorem scripts_are_ascii p f0 w w1 :
  generate p f0 w = (Ret tt, w1) ->
  ascii_only (script w1) = true /\
  forall E sens w2, extend p E sens w1 = (Ret tt, w2) -> ascii_only (script w2) = true.
Proof.
  intros Hrun. destruct p; cbn [extend].
  - apply CV_init_inv in Hrun
      as (a & b & c & d & e & f & _ & _ & _ & _ & _ & _ & _ & _ & _ & _ & ->).
    rewrite script_built. split.
    + unfold CV_text, CV.ini, CV.pre_body, CV.body. ascii_text.
    + intros E2 sens2 w2 (z & _ & _ & ->)%CV_bipot_inv. rewrite script_extended.
      unfold CV_bipot_text, CV.ini, CV.bipot_pre_body, CV.bipot_body. ascii_text.
  - apply LSV_init_inv in Hrun as (a & b & e & f & _ & _ & _ & _ & _ & _ & ->).
    split; [|done]. unfold LSV_text, LSV.ini, LSV.pre_body, LSV.body. ascii_text.
  - apply CA_init_built in Hrun as (a & t1 & t2 & _ & _ & _ & ->).
    rewrite script_CA_built. split.
    + unfold CA_text, CA.ini, CA.pre_body, CA.body. ascii_text.
    + intros E2 sens2 w2 (z & _ & _ & ->)%CA_bipot_inv. rewrite script_CA_extended.
      unfold CA_bipot_text, CA.ini, CA.bipot_pre_body, CA.bipot_body. ascii_text.
  - apply OCP_init_inv in Hrun as (t1 & t2 & _ & _ & ->).
    split; [|done]. unfold OCP_text, OCP.ini, OCP.pre_body, OCP.body. ascii_text.
Qed.

Lemma scripts_are_ascii_witness :
  ascii_only (script built_CA) = true /\
  forall E sens w2,
    extend scenario_CA E sens built_CA = (Ret tt, w2) -> ascii_only (script w2) = true.
Proof.
  apply (scripts_are_ascii scenario_CA default_filing fresh built_CA).
  vm_compute. reflexivity.
Defined.

(** X6.  The data packet of a generated script holds the time [a], the
    potential [p] and, except for OCP, the current [c], in this order,
    whatever the parameters; every variable of the packet is declared. *)
Theorem packet_layout p f0 w w1 :
  generate p f0 w = (Ret tt, w1) ->
  packet_fields (script w1) =
    match p with
    | OCP_parameters _ _ => ["a"; "p"]
    | _ => ["a"; "p"; "c"]
    end /\
  forall v, In v (packet_fields (script w1)) -> In v (declared (script w1)).
Proof.
  intros Hrun. unfold declared, packet_fields.
  apply generated_script in Hrun as (zs & Hzs & _ & ->).
  apply Forall2_length in Hzs.
  destruct p; cbn [embedded length] in Hzs;
    repeat (destruct zs as [|? zs]; try done);
    rewrite ?CV_text_lines, ?LSV_text_lines, ?CA_text_lines, ?OCP_text_lines;
    (split; [vm_compute; reflexivity|]);
    intros v Hv; vm_compute in Hv |- *; tauto.
Qed.

Lemma packet_layout_witness :
  packet_fields (script built) = ["a"; "p"; "c"] /\
  forall v, In v (packet_fields (script built)) -> In v (declared (script built)).
Proof.
  apply (packet_layout scenario default_filing fresh built). vm_compute. reflexivity.
Defined.

(** *** The extension of a generated object *)

(** X7.  On the object of a returned generation, [bipot] returns exactly
    for the CV and CA generators, and there exactly when the second
    potential passes [limits] and [int(E*1000)] returns; the LSV method
    never returns and OCP has none. *)
Theorem extension_returns_iff p f0 w w1 E sens :
  generate p f0 w = (Ret tt, w1) ->
  (exists w2, extend p E sens w1 = (Ret tt, w2)) <->
  match p with
  | CV_parameters _ _ _ _ _ _ _ _ | CA_parameters _ _ _ _ =>
      in_envelope E && convertible E = true
  | _ => False
  end.
Proof.
  intros Hrun. destruct p; cbn [extend].
  - apply CV_init_inv in Hrun
      as (a & b & c & d & e & f & _ & _ & _ & _ & _ & _ & _ & _ & _ & _ & ->).
    destruct (CV_bipot_cases E sens a b c d e f nSweeps (self w)
                (stdout w ++ ["All the parameters are valid"]))
      as [[HE Hr]|[(HE & Hno & err & _ & Hr)|(HE & z & Hz & Hr)]]; rewrite Hr, HE.
    + split; [by intros [? ?]|done].
    + rewrite Hno. split; [by intros [? ?]|done].
    + split; [|by eauto]. intros _. apply convertible_converts. by exists z.
  - split; [|done]. intros [w2 Hr]. done.
  - apply CA_init_built in Hrun as (a & t1 & t2 & _ & _ & _ & ->).
    destruct (CA_bipot_cases E sens a t1 t2 (self w) (stdout w ++ [valid_message]))
      as [[HE Hr]|[(HE & Hno & err & _ & Hr)|(HE & z & Hz & Hr)]]; rewrite Hr, HE.
    + split; [by intros [? ?]|done].
    + rewrite Hno. split; [by intros [? ?]|done].
    + split; [|by eauto]. intros _. apply convertible_converts. by exists z.
  - split; [|done]. intros [w2 Hr]. done.
Qed.

Lemma extension_returns_iff_witness :
  (exists w2, extend scenario_CA (float_lit (-2) 1) (float_lit 1 6) built_CA = (Ret tt, w2)) <->
  in_envelope (float_lit (-2) 1) && convertible (float_lit (-2) 1) = true.
Proof.
  apply (extension_returns_iff scenario_CA default_filing fresh built_CA
           (float_lit (-2) 1) (float_lit 1 6)).
  vm_compute. reflexivity.
Defined.

(** X8.  A [bipot] that raises leaves the generator object and the output
    as they were.  For CV and CA the error is the out-of-range exception
    of the second potential, labelled [E2], or else the [ValueError] or
    [OverflowError] of [int(E*1000)]; for LSV it is the [NameError] of
    the unbound [info]; OCP has no such method. *)
Theorem extension_failure_is_atomic p f0 w w1 E sens err w2 :
  generate p f0 w = (Ret tt, w1) ->
  extend p E sens w1 = (Raise err, w2) ->
  w2 = w1 /\
  match p with
  | CV_parameters _ _ _ _ _ _ _ _ | CA_parameters _ _ _ _ =>
      (in_envelope E = false /\
       err = Info.out_of_range E Info.E_min Info.E_max "E2" "V") \/
      (in_envelope E = true /\ convertible E = false /\
       (err = ValueError \/ err = OverflowError))
  | LSV_parameters _ _ _ _ _ => err = NameError "info"
  | OCP_parameters _ _ => err = AttributeError "bipot"
  end.
Proof.
  intros Hrun Hext. destruct p; cbn [extend] in Hext.
  - apply CV_init_inv in Hrun
      as (a & b & c & d & e & f & _ & _ & _ & _ & _ & _ & _ & _ & _ & _ & ->).
    destruct (CV_bipot_cases E sens a b c d e f nSweeps (self w)
                (stdout w ++ ["All the parameters are valid"]))
      as [[HE Hr]|[(HE & Hno & err' & Herr & Hr)|(HE & z & Hz & Hr)]];
      rewrite Hr in Hext; simplify_eq; auto.
  - assert (LSV.bipot E sens w1 = (Raise (NameError "info"), w1)) as Hl by reflexivity.
    rewrite Hl in Hext. by simplify_eq.
  - apply CA_init_built in Hrun as (a & t1 & t2 & _ & _ & _ & ->).
    destruct (CA_bipot_cases E sens a t1 t2 (self w) (stdout w ++ [valid_message]))
      as [[HE Hr]|[(HE & Hno & err' & Herr & Hr)|(HE & z & Hz & Hr)]];
      rewrite Hr in Hext; simplify_eq; auto.
  - unfold raise in Hext. by simplify_eq.
Qed.

Lemma extension_failure_is_atomic_witness :
  built = built /\
  ((in_envelope (float_lit 25 1) = false /\
    Info.out_of_range (float_lit 25 1) Info.E_min Info.E_max "E2" "V" =
    Info.out_of_range (float_lit 25 1) Info.E_min Info.E_max "E2" "V") \/
   (in_envelope (float_lit 25 1) = true /\ convertible (float_lit 25 1) = false /\
    (Info.out_of_range (float_lit 25 1) Info.E_min Info.E_max "E2" "V" = ValueError \/
     Info.out_of_range (float_lit 25 1) Info.E_min Info.E_max "E2" "V" = OverflowError))).
Proof.
  apply (extension_failure_is_atomic scenario default_filing fresh built
           (float_lit 25 1) (float_lit 1 6)
           (Info.out_of_range (float_lit 25 1) Info.E_min Info.E_max "E2" "V") built);
    vm_compute; reflexivity.
Defined.

(** X9.  A [bipot] that returns has assigned [pre_body], [body] and
    [text] and nothing else: the stored integers and [ini] are as
    [__init__] left them, and nothing is printed. *)
Theorem extension_frame p f0 w w1 E sens w2 :
  generate p f0 w = (Ret tt, w1) ->
  extend p E sens w1 = (Ret tt, w2) ->
  stdout w2 = stdout w1 /\
  forall k, ~ In k extension_attrs -> self w2 !! k = self w1 !! k.
Proof.
  intros Hrun Hext.
  assert (forall (m : gmap string val) k x y z, ~ In k extension_attrs ->
            <["text" := x]> (<["body" := y]> (<["pre_body" := z]> m)) !! k = m !! k) as Hk.
  { intros m k x y z Hin. rewrite !lookup_insert_ne; [done|..];
      intros <-; apply Hin; cbn; tauto. }
  destruct p; cbn [extend] in *; try done.
  - apply CV_init_inv in Hrun
      as (a & b & c & d & e & f & _ & _ & _ & _ & _ & _ & _ & _ & _ & _ & ->).
    apply CV_bipot_inv in Hext as (z & _ & _ & ->).
    split; [done|]. intros k Hin. cbn [self]. unfold CV_extended. by apply Hk.
  - apply CA_init_built in Hrun as (a & t1 & t2 & _ & _ & _ & ->).
    apply CA_bipot_inv in Hext as (z & _ & _ & ->).
    split; [done|]. intros k Hin. cbn [self]. unfold CA_extended. by apply Hk.
Qed.

Lemma extension_frame_witness :
  stdout extended = stdout built /\
  forall k, ~ In k extension_attrs -> self extended !! k = self built !! k.
Proof.
  apply (extension_frame scenario default_filing fresh built
           (float_lit (-2) 1) (float_lit 1 6) extended); vm_compute; reflexivity.
Defined.

(** X10.  Extending an object twice is extending it once, with the second
    potential: the object after [bipot(E1)] and [bipot(E2)] is the object
    after [bipot(E2)] alone. *)
Theorem extension_last_wins p f0 w w1 E1 sens1 w2 E2 sens2 w3 :
  generate p f0 w = (Ret tt, w1) ->
  extend p E1 sens1 w1 = (Ret tt, w2) ->
  extend p E2 sens2 w1 = (Ret tt, w3) ->
  extend p E2 sens2 w2 = (Ret tt, w3).
Proof.
  intros Hrun H1 H2. destruct p; cbn [extend] in *; try done.
  - apply CV_init_inv in Hrun
      as (a & b & c & d & e & f & _ & _ & _ & _ & _ & _ & _ & _ & _ & _ & ->).
    apply CV_bipot_inv in H1 as (z1 & _ & _ & ->).
    apply CV_bipot_inv in H2 as (z2 & Hz & HE & ->).
    by apply CV_bipot_again.
  - apply CA_init_built in Hrun as (a & t1 & t2 & _ & _ & _ & ->).
    apply CA_bipot_inv in H1 as (z1 & _ & _ & ->).
    apply CA_bipot_inv in H2 as (z2 & Hz & HE & ->).
    by apply CA_bipot_again.
Qed.

Lemma extension_last_wins_witness :
  extend scenario (float_lit (-2) 1) (float_lit 1 6)
    (snd (extend scenario (float_lit 5 1) (float_lit 1 6) built)) =
  (Ret tt, extended).
Proof.
  apply (extension_last_wins scenario default_filing fresh built
           (float_lit 5 1) (float_lit 1 6)
           (snd (extend scenario (float_lit 5 1) (float_lit 1 6) built))
           (float_lit (-2) 1) (float_lit 1 6) extended); vm_compute; reflexivity.
Defined.

(** The loop instructions of the scripts, as their words. *)
Lemma CV_loop_instruction a b c e f n :
  instruction "meas_loop_" (CV_text a b c e f n) =
  Some (["meas_loop_cv"; "p"; "c"; lit a; lit b; lit c; lit f; lit e] ++
        ["nscans(" +:+ str (n - 1) +:+ ")"]).
Proof.
  cbn [app]. rewrite <- CV_loop_words.
  eapply instruction_lines; [apply CV_text_lines|vm_compute; reflexivity].
Qed.

Lemma CV_bipot_loop_instruction z a b c e f n :
  instruction "meas_loop_" (CV_bipot_text z a b c e f n) =
  Some (["meas_loop_cv"; "p"; "c"; lit a; lit b; lit c; lit f; lit e] ++
        ["nscans(" +:+ str n +:+ ")"] ++ ["poly_we(1"; "b)"]).
Proof.
  cbn [app]. rewrite <- CV_bipot_loop_words.
  eapply instruction_lines; [apply CV_bipot_text_lines|vm_compute; reflexivity].
Qed.

Lemma CA_loop_instruction a t1 t2 :
  instruction "meas_loop_" (CA_text a t1 t2) =
  Some ["meas_loop_ca"; "p"; "c"; lit a; lit t1; lit t2].
Proof.
  rewrite <- CA_loop_words.
  eapply instruction_lines; [apply CA_text_lines|vm_compute; reflexivity].
Qed.

Lemma CA_bipot_loop_instruction z a t1 t2 :
  instruction "meas_loop_" (CA_bipot_text z a t1 t2) =
  Some (["meas_loop_ca"; "p"; "c"; lit a; lit t1; lit t2] ++ ["poly_we(1"; "b)"]).
Proof.
  cbn [app]. rewrite <- CA_bipot_loop_words.
  eapply instruction_lines; [apply CA_bipot_text_lines|vm_compute; reflexivity].
Qed.

(** X11.  The loop instruction of the script that [bipot] writes is the
    loop instruction of the original with [poly_we(1 b)] appended, except
    for the scan count of CV: the original has [nscans(nSweeps - 1)], the
    new script [nscans(nSweeps)].  All other words, the operands in
    millivolts among them, are kept.  The new script declares the
    variable [b] after the original variables and adds it to the end of
    the packet; its first [set_e] is the one of the second channel, at
    [int(E*1000)]. *)
Theorem extension_keeps_loop p f0 w w1 E sens w2 :
  generate p f0 w = (Ret tt, w1) ->
  extend p E sens w1 = (Ret tt, w2) ->
  (exists ws,
     instruction "meas_loop_" (script w1) = Some (ws ++ scan_count p 1) /\
     instruction "meas_loop_" (script w2) =
       Some (ws ++ scan_count p 0 ++ ["poly_we(1"; "b)"])) /\
  operands "meas_loop_" (script w2) = operands "meas_loop_" (script w1) /\
  declared (script w2) = declared (script w1) ++ ["b"] /\
  packet_fields (script w2) = packet_fields (script w1) ++ ["b"] /\
  exists z, converts E z /\ operands "set_e " (script w2) = Some [lit z].
Proof.
  intros Hrun Hext. destruct p; cbn [extend] in *; try done.
  - apply CV_init_inv in Hrun
      as (a & b & c & d & e & f & _ & _ & _ & _ & _ & _ & _ & _ & _ & _ & ->).
    apply CV_bipot_inv in Hext as (z & Hz & _ & ->).
    rewrite script_built, script_extended.
    split.
    { eexists. unfold scan_count. cbn [sweeps]. rewrite Z.sub_0_r.
      split; [apply CV_loop_instruction|apply CV_bipot_loop_instruction]. }
    destruct (CV_bipot_operands z a b c e f nSweeps) as [-> ->].
    destruct (CV_operands a b c e f nSweeps) as [-> _].
    unfold declared, packet_fields. rewrite CV_text_lines, CV_bipot_text_lines.
    split; [done|]. split; [vm_compute; reflexivity|]. split; [vm_compute; reflexivity|].
    by exists z.
  - apply CA_init_built in Hrun as (a & t1 & t2 & _ & _ & _ & ->).
    apply CA_bipot_inv in Hext as (z & Hz & _ & ->).
    rewrite script_CA_built, script_CA_extended.
    split.
    { eexists. unfold scan_count. cbn [sweeps app]. rewrite app_nil_r.
      split; [apply CA_loop_instruction|apply CA_bipot_loop_instruction]. }
    destruct (CA_bipot_operands z a t1 t2) as [-> ->].
    destruct (CA_operands a t1 t2) as [-> _].
    unfold declared, packet_fields. rewrite CA_text_lines, CA_bipot_text_lines.
    split; [done|]. split; [vm_compute; reflexivity|]. split; [vm_compute; reflexivity|].
    by exists z.
Qed.

Lemma extension_keeps_loop_witness :
  (exists ws,
     instruction "meas_loop_" (script built) = Some (ws ++ scan_count scenario 1) /\
     instruction "meas_loop_" (script extended) =
       Some (ws ++ scan_count scenario 0 ++ ["poly_we(1"; "b)"])) /\
  operands "meas_loop_" (script extended) = operands "meas_loop_" (script built) /\
  declared (script extended) = declared (script built) ++ ["b"] /\
  packet_fields (script extended) = packet_fields (script built) ++ ["b"] /\
  exists z, converts (float_lit (-2) 1) z /\
    operands "set_e " (script extended) = Some [lit z].
Proof.
  apply (extension_keeps_loop scenario default_filing fresh built
           (float_lit (-2) 1) (float_lit 1 6) extended); vm_compute; reflexivity.
Defined.

(** X12.  The preamble that [bipot] writes, for CV and for CA: the second
    channel in mode 5 (poly_we mode 0) at the second potential; the first
    channel in mode 2, where CV had mode 4 and CA mode 3, at the
    potential it had; the timer is started before the cell is switched
    on, where the original switches the cell on first, and the two
    seconds that CV waits in between are gone. *)
Theorem extension_preamble p f0 w w1 E sens w2 :
  generate p f0 w = (Ret tt, w1) ->
  extend p E sens w1 = (Ret tt, w2) ->
  exists z a,
    converts E z /\ Forall2 converts (applied p) [a] /\
    channel_config "1" (attr_text "pre_body" w2) =
      ["set_pgstat_mode 5"; "set_poly_we_mode 0"; "set_e " +:+ lit z;
       "set_autoranging ba 100n 5m"] /\
    channel_config "0" (attr_text "pre_body" w2) =
      ["set_pgstat_mode 2"; "set_autoranging ba 100n 5m"; "set_e " +:+ lit a] /\
    channel_config "0" (attr_text "pre_body" w1) =
      [match p with
       | CA_parameters _ _ _ _ => "set_pgstat_mode 3"
       | _ => "set_pgstat_mode 4"
       end; "set_autoranging ba 100n 5m"; "set_e " +:+ lit a] /\
    sequencing (attr_text "pre_body" w2) = ["timer_start"; "cell_on"] /\
    sequencing (attr_text "pre_body" w1) =
      match p with
      | CA_parameters _ _ _ _ => ["cell_on"; "timer_start"]
      | _ => ["cell_on"; "wait 2"; "timer_start"]
      end.
Proof.
  intros Hrun Hext. destruct p; cbn [extend applied] in *; try done.
  - apply CV_init_inv in Hrun
      as (a & b & c & d & e & f & Ha & _ & _ & _ & _ & _ & _ & _ & _ & _ & ->).
    apply CV_bipot_inv in Hext as (z & Hz & _ & ->).
    exists z, a. split; [done|]. split; [by repeat constructor|].
    rewrite pre_body_extended, pre_body_built.
    unfold channel_config, sequencing.
    rewrite CV_bipot_pre_body_lines, CV_pre_body_lines.
    repeat split; vm_compute; reflexivity.
  - apply CA_init_built in Hrun as (a & t1 & t2 & Ha & _ & _ & ->).
    apply CA_bipot_inv in Hext as (z & Hz & _ & ->).
    exists z, a. split; [done|]. split; [by repeat constructor|].
    rewrite pre_body_CA_extended, pre_body_CA_built.
    unfold channel_config, sequencing.
    rewrite CA_bipot_pre_body_lines, CA_pre_body_lines.
    repeat split; vm_compute; reflexivity.
Qed.

Lemma extension_preamble_witness :
  exists z a,
    converts (float_lit 5 1) z /\ Forall2 converts (applied scenario_CA) [a] /\
    channel_config "1"
      (attr_text "pre_body"
         (snd (extend scenario_CA (float_lit 5 1) (float_lit 1 6) built_CA))) =
      ["set_pgstat_mode 5"; "set_poly_we_mode 0"; "set_e " +:+ lit z;
       "set_autoranging ba 100n 5m"] /\
    channel_config "0"
      (attr_text "pre_body"
         (snd (extend scenario_CA (float_lit 5 1) (float_lit 1 6) built_CA))) =
      ["set_pgstat_mode 2"; "set_autoranging ba 100n 5m"; "set_e " +:+ lit a] /\
    channel_config "0" (attr_text "pre_body" built_CA) =
      ["set_pgstat_mode 3"; "set_autoranging ba 100n 5m"; "set_e " +:+ lit a] /\
    sequencing
      (attr_text "pre_body"
         (snd (extend scenario_CA (float_lit 5 1) (float_lit 1 6) built_CA))) =
      ["timer_start"; "cell_on"] /\
    sequencing (attr_text "pre_body" built_CA) = ["cell_on"; "timer_start"].
Proof.
  apply (extension_preamble scenario_CA default_filing fresh built_CA
           (float_lit 5 1) (float_lit 1 6)
           (snd (extend scenario_CA (float_lit 5 1) (float_lit 1 6) built_CA)));
    vm_compute; reflexivity.
Defined.

(** The integers that a returned generation has stored for the
    potentials it validated, under their names. *)
Lemma generated_stored p f0 w w1 :
  generate p f0 w = (Ret tt, w1) ->
  Forall (fun xl => exists z, converts xl.1 z /\ in_envelope xl.1 = true /\
                      self w1 !! xl.2 = Some (VInt z)) (validated p).
Proof.
  intros H. destruct p; cbn [validated].
  - apply CV_init_inv in H
      as (a & b & c & d & e & f & ? & ? & ? & ? & _ & _ & ? & ? & ? & ? & ->).
    unfold CV_built, CV_stored. cbn [self].
    repeat (apply List.Forall_cons;
      [cbn [fst snd]; eexists; split; [eassumption|]; split; [assumption|];
       rewrite ?lookup_insert_ne by done; by rewrite lookup_insert_eq|]).
    apply List.Forall_nil.
  - cbn [generate] in H.
    unfold LSV.__init__, LSV.validate, str_attr, str_getattr in H.
    returned_conversion H Eini a Ha. returned_conversion H Efin b Hb.
    returned_conversion H sr e He. returned_conversion H dE f Hf.
    returned_limits H Eini H1. returned_limits H Efin H2.
    run_in H. simplify_eq. cbn [self].
    repeat (apply List.Forall_cons;
      [cbn [fst snd]; eexists; split; [eassumption|]; split; [assumption|];
       rewrite ?lookup_insert_ne by done; by rewrite lookup_insert_eq|]).
    apply List.Forall_nil.
  - pose proof H as H'. apply CA_init_inv in H' as (? & ? & ? & _ & _ & _ & He & _).
    apply CA_init_built in H as (a & t1 & t2 & Ha & _ & _ & ->).
    unfold CA_built. cbn [self].
    repeat (apply List.Forall_cons;
      [cbn [fst snd]; eexists; split; [eassumption|]; split; [assumption|];
       rewrite ?lookup_insert_ne by done; by rewrite lookup_insert_eq|]).
    apply List.Forall_nil.
  - constructor.
Qed.

(** X13.  The object of a returned generation holds each potential that
    it has validated, under the name of the parameter, as the integer
    [int(x*1000)], and this integer lies between -1700 and 2000, the
    millivolts of the envelope.  The second potential of a [bipot] that
    returned is the operand of the first [set_e] of the new script, an
    integer in the same range.  Both ends are reached, by [E_min] and by
    [E_max]. *)
Theorem validated_literals_bounded p f0 w w1 :
  forallb (fun xl => valid_binary prec emax xl.1) (validated p) = true ->
  generate p f0 w = (Ret tt, w1) ->
  Forall (fun xl => exists z, converts xl.1 z /\ self w1 !! xl.2 = Some (VInt z) /\
                      -1700 <= z <= 2000) (validated p) /\
  (forall E sens w2,
     valid_binary prec emax E = true -> extend p E sens w1 = (Ret tt, w2) ->
     exists z, converts E z /\ operands "set_e " (script w2) = Some [lit z] /\
       -1700 <= z <= 2000) /\
  converts Info.E_min (-1700) /\ converts Info.E_max 2000.
Proof.
  intros Hvalid Hrun.
  assert (forall x z, valid_binary prec emax x = true -> in_envelope x = true ->
            converts x z -> -1700 <= z <= 2000) as Hone.
  { intros x z Hx He Hz.
    apply (in_range_millivolts x z); [done| |done]. by apply (envelope_in_range x z). }
  split; [|split; [|split; reflexivity]].
  - pose proof (generated_stored _ _ _ _ Hrun) as Hst.
    pose proof (proj1 (forallb_forall _ _) Hvalid) as Hv.
    apply Forall_forall. intros xl Hin.
    rewrite Forall_forall in Hst.
    destruct (Hst xl Hin) as (z & Hz & He & Hs).
    exists z. split; [done|]. split; [done|].
    apply (Hone xl.1 z); [|done..]. apply (Hv xl). by apply list_elem_of_In.
  - intros E sens w2 HE Hext. destruct p; cbn [extend] in Hext; try done.
    + apply CV_init_inv in Hrun
        as (a & b & c & d & e & f & _ & _ & _ & _ & _ & _ & _ & _ & _ & _ & ->).
      apply CV_bipot_inv in Hext as (z & Hz & Henv & ->).
      exists z. rewrite script_extended.
      destruct (CV_bipot_operands z a b c e f nSweeps) as [_ ->]. eauto.
    + apply CA_init_built in Hrun as (a & t1 & t2 & _ & _ & _ & ->).
      apply CA_bipot_inv in Hext as (z & Hz & Henv & ->).
      exists z. rewrite script_CA_extended.
      destruct (CA_bipot_operands z a t1 t2) as [_ ->]. eauto.
Qed.

Lemma validated_literals_bounded_witness :
  Forall (fun xl => exists z, converts xl.1 z /\ self built !! xl.2 = Some (VInt z) /\
                      -1700 <= z <= 2000) (validated scenario) /\
  (forall E sens w2,
     valid_binary prec emax E = true -> extend scenario E sens built = (Ret tt, w2) ->
     exists z, converts E z /\ operands "set_e " (script w2) = Some [lit z] /\
       -1700 <= z <= 2000) /\
  converts Info.E_min (-1700) /\ converts Info.E_max 2000.
Proof.
  apply (validated_literals_bounded scenario default_filing fresh built);
    vm_compute; reflexivity.
Defined.

(** *** Helpers for the dispatcher *)



(** The generator's [bipot] on the attributes of a returned generation,
    with whatever output: it fails and changes nothing, or it returns
    with a new script in [text] and the same output. *)
Lemma extend_outcome p f0 w0 w1 out E sens :
  generate p f0 w0 = (Ret tt, w1) ->
  (exists e, extend p E sens (State (self w1) out) = (Raise e, State (self w1) out)) \/
  (exists o2 s, extend p E sens (State (self w1) out) = (Ret tt, State o2 out) /\
     o2 !! "text" = Some (VStr s)).
Proof.
  intros Hrun. destruct p; cbn [extend].
  - apply CV_init_inv in Hrun
      as (a & b & c & d & e & f & _ & _ & _ & _ & _ & _ & _ & _ & _ & _ & ->).
    cbn [self].
    destruct (CV_bipot_cases E sens a b c d e f nSweeps (self w0) out)
      as [[HE Hr]|[(HE & Hno & err & _ & Hr)|(HE & z & Hz & Hr)]]; rewrite Hr; eauto.
    right. eexists _, _. split; [done|]. unfold CV_extended. by rewrite lookup_insert_eq.
  - left. by eexists.
  - apply CA_init_built in Hrun as (a & t1 & t2 & _ & _ & _ & ->).
    cbn [self].
    destruct (CA_bipot_cases E sens a t1 t2 (self w0) out)
      as [[HE Hr]|[(HE & Hno & err & _ & Hr)|(HE & z & Hz & Hr)]]; rewrite Hr; eauto.
    right. eexists _, _. split; [done|]. unfold CA_extended. by rewrite lookup_insert_eq.
  - left. by eexists.
Qed.

Lemma unconvertible_error x :
  convertible x = false -> milli x = raise (conversion_error x).
Proof.
  unfold convertible, milli, conversion_error, lift, raise.
  by destruct (fmul x thousand).
Qed.

(** X20.  When a conversion of a generator fails, the generator raises
    the exception of the first value, in source order, whose product with
    1000 is no number: [ValueError] for NaN, [OverflowError] for an
    infinity.  It has then assigned no script attribute and printed
    nothing. *)
Theorem first_unconvertible_is_raised p f0 w x :
  find (fun y => negb (convertible y)) (converted p) = Some x ->
  exists w1,
    generate p f0 w = (Raise (conversion_error x), w1) /\
    (forall k, In k text_attrs -> self w1 !! k = self w !! k) /\
    stdout w1 = stdout w.
Proof.
  intros Hfind.
  assert (forall k (m : gmap string val), In k text_attrs ->
            forall k' v, In k' ["Eini"; "Ev1"; "Ev2"; "Efin"; "sr"; "dE";
                                "Estep"; "dt"; "ttot"] ->
            <[k' := v]> m !! k = m !! k) as Hk.
  { intros k m Hin k' v Hin'. apply lookup_insert_ne.
    cbn in Hin, Hin'. intuition (subst; done). }
  destruct p; cbn [converted find] in Hfind; cbn [generate];
    unfold CV.__init__, LSV.__init__, CA.__init__, OCP.__init__;
    repeat match type of Hfind with
    | context [convertible ?y] =>
        let Hy := fresh "Hy" in
        destruct (convertible y) eqn:Hy; cbn [negb] in Hfind;
        [apply convertible_converts in Hy as [? Hy];
         rewrite (milli_converts _ _ Hy); clear Hy
        |injection Hfind as <-; rewrite (unconvertible_error _ Hy); run;
         eexists; split; [reflexivity|]; cbn [self stdout]; split; [|done];
         intros k Hin; rewrite ?Hk by (done || cbn; tauto); done]
    end; done.
Qed.

Lemma first_unconvertible_is_raised_witness :
  exists w1,
    generate scenario_fast default_filing fresh = (Raise (conversion_error huge), w1) /\
    (forall k, In k text_attrs -> self w1 !! k = self fresh !! k) /\
    stdout w1 = stdout fresh.
Proof.
  apply (first_unconvertible_is_raised scenario_fast default_filing fresh huge).
  vm_compute. reflexivity.
Defined.

End MoreGenerators.

(** ** The dispatcher, continued *)


Section MoreDispatcher.

Import potentiostat.

Context `{Chi}.



Lemma tech_bipot_extend p E sens :
  Technique.tech_bipot E sens (generator_class p) = extend p E sens.
Proof. by destruct p. Qed.

(** [Technique.bipot] on a technique that holds a generator object: the
    outcome is that of the generator's [bipot]. *)
Lemma Technique_bipot_run t cls o E sens w :
  self w !! "technique" = Some (VStr t) ->
  bool_decide (t ∈ BIPOT_TECHNIQUES) = true ->
  self w !! "tech" = Some (VObj cls o) ->
  Technique.bipot E sens w =
  match Technique.tech_bipot E sens cls (State o (stdout w)) with
  | (Ret _, w2) =>
      match self w2 !! "text" with
      | Some text =>
          (Ret tt, State (<["bpot" := VBool true]>
                           (<["text" := text]>
                           (<["tech" := VObj cls (self w2)]> (self w)))) (stdout w2))
      | None =>
          (Raise (AttributeError "text"),
           State (<["tech" := VObj cls (self w2)]> (self w)) (stdout w2))
      end
  | (Raise e, w2) => (Raise e, State (<["tech" := VObj cls (self w2)]> (self w)) (stdout w2))
  end.
Proof.
  intros Ht Hin Ho. unfold Technique.bipot, getattr.
  rewrite run_bind, Ht. cbn [in_strs]. rewrite Hin.
  rewrite run_bind. unfold call_attr. rewrite Ho.
  destruct (Technique.tech_bipot E sens cls (State o (stdout w))) as [[[]|e] w2]; [|done].
  run. unfold attr_of. destruct (self w2 !! "text") as [text|]; run; reflexivity.
Qed.

(** X14.  [Technique.bipot] on a technique whose name is in
    [BIPOT_TECHNIQUES] and whose [tech] is the object of a returned
    generation.  When the generator's [bipot] returns, the technique
    takes over the new script as its [text], the same as [tech.text],
    and sets [bpot]; when it raises, the exception passes through and the
    technique, [text] and [bpot] included, is unchanged. *)
Theorem Technique_bipot_follows_generator p f0 w0 w1 t E sens w :
  generate p f0 w0 = (Ret tt, w1) ->
  self w !! "technique" = Some (VStr t) ->
  bool_decide (t ∈ BIPOT_TECHNIQUES) = true ->
  self w !! "tech" = Some (VObj (generator_class p) (self w1)) ->
  (forall w2, extend p E sens (State (self w1) (stdout w)) = (Ret tt, w2) ->
     Technique.bipot E sens w =
     (Ret tt, State (<["bpot" := VBool true]>
                      (<["text" := VStr (script w2)]>
                      (<["tech" := VObj (generator_class p) (self w2)]> (self w))))
                (stdout w))) /\
  (forall e w2, extend p E sens (State (self w1) (stdout w)) = (Raise e, w2) ->
     Technique.bipot E sens w = (Raise e, w)).
Proof.
  intros Hrun Ht Hin Ho.
  rewrite (Technique_bipot_run t _ _ E sens w Ht Hin Ho), tech_bipot_extend.
  destruct (extend_outcome p f0 w0 w1 (stdout w) E sens Hrun)
    as [[e Hr]|(o2 & s & Hr & Hs)]; rewrite Hr; split; try done.
  - intros e' w2 [= <- <-]. cbn [self stdout]. rewrite insert_id by done. by destruct w.
  - intros w2 [= <-]. cbn [self stdout]. rewrite Hs.
    unfold script, attr_text. cbn [self]. by rewrite Hs.
Qed.


(** X16.  On an object whose [model_pstat] is a string without ['chi'],
    the initializers of [CA], [NPV] and [EIS] raise, also when the model
    is ['emstatpico'], and the exception of [CA] names the technique
    [IT]; those of [CV], [LSV], [IT] and [OCP] raise unless the model is
    ['emstatpico'].  The object has got its [header] and [technique] by
    then, and no generator. *)
Theorem dispatcher_unsupported_model m i fileName header kw w :
  self w !! "model_pstat" = Some (VStr m) ->
  contains "chi" m = false ->
  let named t :=
    State (<["technique" := VStr t]> (<["header" := VStr header]> (self w))) (stdout w) in
  (forall Eini Ev1 Ev2 dE nSweeps pw sens,
     CA.__init__ i Eini Ev1 Ev2 dE nSweeps pw sens fileName header kw w =
     (Raise (no_technique m "IT"), named "CA")) /\
  (forall Eini Efin dE tsample twidth tperiod sens,
     NPV.__init__ i Eini Efin dE tsample twidth tperiod sens fileName header kw w =
     (Raise (no_technique m "NPV"),
      State (<["technique" := VStr "NPV"]> (self w)) (stdout w))) /\
  (forall Eini low_freq high_freq amplitude sens,
     EIS.__init__ i Eini low_freq high_freq amplitude sens fileName header kw w =
     (Raise (no_technique m "EIS"), named "EIS")) /\
  (String.eqb m "emstatpico" = false ->
   (forall Eini Ev1 Ev2 Efin sr dE nSweeps sens,
      CV.__init__ i Eini Ev1 Ev2 Efin sr dE nSweeps sens fileName header kw w =
      (Raise (no_technique m "CV"), named "CV")) /\
   (forall Eini Efin sr dE sens,
      LSV.__init__ i Eini Efin sr dE sens fileName header kw w =
      (Raise (no_technique m "LSV"), named "LSV")) /\
   (forall Estep dt ttot sens,
      IT.__init__ i Estep dt ttot sens fileName header kw w =
      (Raise (no_technique m "IT"), named "IT")) /\
   (forall ttot dt,
      OCP.__init__ i ttot dt fileName header kw w =
      (Raise (no_technique m "OCP"), named "OCP"))).
Proof.
  intros Hm Hchi named. subst named. cbv beta.
  split; [|split; [|split]].
  - intros. unfold CA.__init__, no_model, concat3, str_in, no_technique.
    repeat (progress (run; rewrite ?Hm, ?Hchi)). reflexivity.
  - intros. unfold NPV.__init__, no_model, concat3, str_in, no_technique.
    repeat (progress (run; rewrite ?Hm, ?Hchi)). reflexivity.
  - intros. unfold EIS.__init__, no_model, concat3, str_in, no_technique.
    repeat (progress (run; rewrite ?Hm, ?Hchi)). reflexivity.
  - intros Hne.
    assert (eq_str (VStr m) "emstatpico" = false) as Heq by exact Hne.
    split; [|split; [|split]]; intros;
      unfold CV.__init__, LSV.__init__, IT.__init__, OCP.__init__,
        no_model, concat3, str_in, no_technique;
      repeat (progress (run; rewrite ?Hm, ?Hchi, ?Heq)); reflexivity.
Qed.

(** X17.  [SetupInstrument] prints its settings unless [verbose] is off.
    With a model that is not a string, as the default [None], the second
    [print] raises [TypeError] after the ruler line; the four attributes
    have been assigned before.  With [verbose] off the same arguments
    are stored and nothing is printed. *)
Theorem SetupInstrument_needs_model_string model path folder port w :
  is_str model = false ->
  let stored :=
    <["port_" := port]> (<["path_lib" := path]>
      (<["model_pstat" := model]> (<["folder" := folder]> (self w)))) in
  SetupInstrument.__init__ model path folder port true w =
    (Raise TypeError, State stored (stdout w ++ [esc "\n----------"])) /\
  SetupInstrument.__init__ model path folder port false w = (Ret tt, State stored (stdout w)).
Proof.
  intros Hmodel stored. subst stored. split.
  - unfold SetupInstrument.__init__, SetupInstrument.info. run.
    destruct model; try done; run; reflexivity.
  - unfold SetupInstrument.__init__. run. reflexivity.
Qed.

Context `{ChiInfo}.

(** X19.  [Info] accepts a model that it does not know, a string without
    ['chi'] other than ['emstatpico']: it prints two lines, the second
    with the list of the available models, and returns without having
    assigned [info]; [specifications] on the object then fails with
    [AttributeError]. *)
Theorem Info_unknown_model m w :
  contains "chi" m = false -> String.eqb m "emstatpico" = false ->
  self w !! "info" = None ->
  let w1 :=
    State (<["model" := VStr m]> (self w))
      (stdout w ++
       ["Potentiostat model " +:+ m +:+ " not available in the library.";
        "Available models: " +:+
        "['chi1205b', 'chi1242b', 'chi601e', 'chi620e', 'chi760e', 'emstatpico']"]) in
  potentiostat.Info.__init__ (VStr m) w = (Ret tt, w1) /\
  potentiostat.Info.specifications w1 = (Raise (AttributeError "info"), w1).
Proof.
  intros Hchi Hne Hinfo w1. subst w1.
  assert (eq_str (VStr m) "emstatpico" = false) as Heq by exact Hne.
  split.
  - unfold potentiostat.Info.__init__, str_in, concat3.
    repeat (progress (run; rewrite ?Hchi, ?Heq)).
    rewrite <- app_assoc. reflexivity.
  - unfold potentiostat.Info.specifications, call_attr. cbn [self].
    by rewrite lookup_insert_ne, Hinfo by done.
Qed.

End MoreDispatcher.

Lemma Technique_bipot_follows_generator_witness :
  (forall w2,
     extend scenario (float_lit (-2) 1) (float_lit 1 6)
       (State (self built) (stdout cv_technique)) = (Ret tt, w2) ->
     potentiostat.Technique.bipot (H := chi_absent) (float_lit (-2) 1) (float_lit 1 6)
       cv_technique =
     (Ret tt, State (<["bpot" := VBool true]>
                      (<["text" := VStr (script w2)]>
                      (<["tech" := VObj (generator_class scenario) (self w2)]>
                         (self cv_technique))))
                (stdout cv_technique))) /\
  (forall e w2,
     extend scenario (float_lit (-2) 1) (float_lit 1 6)
       (State (self built) (stdout cv_technique)) = (Raise e, w2) ->
     potentiostat.Technique.bipot (H := chi_absent) (float_lit (-2) 1) (float_lit 1 6)
       cv_technique = (Raise e, cv_technique)).
Proof.
  apply (@Technique_bipot_follows_generator chi_absent scenario default_filing fresh built
           "CV" (float_lit (-2) 1) (float_lit 1 6) cv_technique); vm_compute; reflexivity.
Defined.


Lemma dispatcher_unsupported_model_witness :
  let named t :=
    State (<["technique" := VStr t]> (<["header" := VStr "CA"]> (self pico_technique)))
      (stdout pico_technique) in
  (forall Eini Ev1 Ev2 dE nSweeps pw sens,
     potentiostat.CA.__init__ (H := chi_absent) pico Eini Ev1 Ev2 dE nSweeps pw sens
       "CA" "CA" [] pico_technique =
     (Raise (no_technique "emstatpico" "IT"), named "CA")) /\
  (forall Eini Efin dE tsample twidth tperiod sens,
     potentiostat.NPV.__init__ (H := chi_absent) pico Eini Efin dE tsample twidth tperiod
       sens "CA" "CA" [] pico_technique =
     (Raise (no_technique "emstatpico" "NPV"),
      State (<["technique" := VStr "NPV"]> (self pico_technique)) (stdout pico_technique))) /\
  (forall Eini low_freq high_freq amplitude sens,
     potentiostat.EIS.__init__ (H := chi_absent) pico Eini low_freq high_freq amplitude
       sens "CA" "CA" [] pico_technique =
     (Raise (no_technique "emstatpico" "EIS"), named "EIS")) /\
  (String.eqb "emstatpico" "emstatpico" = false ->
   (forall Eini Ev1 Ev2 Efin sr dE nSweeps sens,
      potentiostat.CV.__init__ (H := chi_absent) pico Eini Ev1 Ev2 Efin sr dE nSweeps sens
        "CA" "CA" [] pico_technique =
      (Raise (no_technique "emstatpico" "CV"), named "CV")) /\
   (forall Eini Efin sr dE sens,
      potentiostat.LSV.__init__ (H := chi_absent) pico Eini Efin sr dE sens
        "CA" "CA" [] pico_technique =
      (Raise (no_technique "emstatpico" "LSV"), named "LSV")) /\
   (forall Estep dt ttot sens,
      potentiostat.IT.__init__ (H := chi_absent) pico Estep dt ttot sens
        "CA" "CA" [] pico_technique =
      (Raise (no_technique "emstatpico" "IT"), named "IT")) /\
   (forall ttot dt,
      potentiostat.OCP.__init__ (H := chi_absent) pico ttot dt "CA" "CA" [] pico_technique =
      (Raise (no_technique "emstatpico" "OCP"), named "OCP"))).
Proof.
  apply (@dispatcher_unsupported_model chi_absent "emstatpico" pico "CA" "CA" []
           pico_technique); vm_compute; reflexivity.
Defined.

Lemma SetupInstrument_needs_model_string_witness :
  let stored :=
    <["port_" := VNone]> (<["path_lib" := VStr "."]>
      (<["model_pstat" := VNone]> (<["folder" := VStr "."]> (self fresh)))) in
  potentiostat.SetupInstrument.__init__ VNone (VStr ".") (VStr ".") VNone true fresh =
    (Raise TypeError, State stored (stdout fresh ++ [esc "\n----------"])) /\
  potentiostat.SetupInstrument.__init__ VNone (VStr ".") (VStr ".") VNone false fresh =
    (Ret tt, State stored (stdout fresh)).
Proof.
  apply (SetupInstrument_needs_model_string VNone (VStr ".") (VStr ".") VNone fresh).
  reflexivity.
Defined.

Lemma Info_unknown_model_witness :
  let w1 :=
    State (<["model" := VStr "autolab"]> (self fresh))
      (stdout fresh ++
       ["Potentiostat model " +:+ "autolab" +:+ " not available in the library.";
        "Available models: " +:+
        "['chi1205b', 'chi1242b', 'chi601e', 'chi620e', 'chi760e', 'emstatpico']"]) in
  potentiostat.Info.__init__ (H := chi_absent) (VStr "autolab") fresh = (Ret tt, w1) /\
  potentiostat.Info.specifications
    (H := (fun _ => raise (NameError "chi")) : potentiostat.ChiInfo) w1 =
  (Raise (AttributeError "info"), w1).
Proof.
  apply (@Info_unknown_model chi_absent (fun _ => raise (NameError "chi")) "autolab" fresh);
    vm_compute; reflexivity.
Defined.
